(** * CivicConnect backend: report classification, access control and listing

    A shallow embedding of [Backend/src/index.ts] (the Express handlers
    [POST /api/reports], [GET /api/reports], [GET /api/reports/:id], the
    keyword classifier [categorizeIssue] and the severity validation of
    [POST /ai/describe]) and of the Mongoose schema [reportSchema]
    ([Backend/src/models/Report.ts]).

    Conventions of the embedding.
    - JavaScript strings are [string]s of ASCII characters; [toLowerCase]
      and [trim] are the ECMAScript functions restricted to ASCII.
    - A JSON number is the rational it denotes ([Q]); a number that a
      built-in returns may also be [NaN] or an infinity ([JsNumber]).
    - Dates are integers (milliseconds since the epoch, [Z]).
    - Object identifiers are the hexadecimal strings that
      [ObjectId.toString()] prints; whether a string of the request is
      such an identifier is decided by the driver, a parameter here.
    - The [auth] middleware has run: a handler receives [req.userId], the
      identifier carried by the bearer token.
    - A handler is a function from the store and the request to a response
      and the store afterwards; the [try] block of a handler is written
      in the [Step] monad, whose [Respond] is an early [return] and whose
      [Throw] is an exception that the handler's [catch] receives. *)

From Stdlib Require Import String Ascii List Bool Arith ZArith QArith Lia.
From Stdlib Require Import Permutation Sorted.
Import ListNotations.

Local Open Scope string_scope.

(* ================================================================== *)
(** ** JavaScript string primitives *)
(* ================================================================== *)

Module JS.

(** [String.prototype.toLowerCase], one character. *)
Definition lowerChar (c : ascii) : ascii :=
  let n := nat_of_ascii c in
  if (65 <=? n)%nat && (n <=? 90)%nat then ascii_of_nat (n + 32) else c.

(** [String.prototype.toUpperCase], one character (used to state case
    insensitivity). *)
Definition upperChar (c : ascii) : ascii :=
  let n := nat_of_ascii c in
  if (97 <=? n)%nat && (n <=? 122)%nat then ascii_of_nat (n - 32) else c.

Fixpoint toLowerCase (s : string) : string :=
  match s with
  | EmptyString => EmptyString
  | String c s' => String (lowerChar c) (toLowerCase s')
  end.

Fixpoint toUpperCase (s : string) : string :=
  match s with
  | EmptyString => EmptyString
  | String c s' => String (upperChar c) (toUpperCase s')
  end.

(** [s.startsWith(p)]. *)
Fixpoint startsWith (s p : string) {struct p} : bool :=
  match p, s with
  | EmptyString, _ => true
  | String _ _, EmptyString => false
  | String a p', String b s' => Ascii.eqb a b && startsWith s' p'
  end.

(** [s.includes(sub)]: [sub] occurs in [s] at some position. *)
Fixpoint includes (s sub : string) : bool :=
  match s with
  | EmptyString => startsWith s sub
  | String _ s' => startsWith s sub || includes s' sub
  end.

(** White space removed by [trim] (TAB, LF, VT, FF, CR, SPACE). *)
Definition isWhiteSpace (c : ascii) : bool :=
  let n := nat_of_ascii c in
  ((9 <=? n)%nat && (n <=? 13)%nat) || (n =? 32)%nat.

Fixpoint trimStart (s : string) : string :=
  match s with
  | EmptyString => EmptyString
  | String c s' => if isWhiteSpace c then trimStart s' else s
  end.

Fixpoint trimEnd (s : string) : string :=
  match s with
  | EmptyString => EmptyString
  | String c s' =>
      match trimEnd s' with
      | EmptyString => if isWhiteSpace c then EmptyString else String c EmptyString
      | t => String c t
      end
  end.

(** [String.prototype.trim]. *)
Definition trim (s : string) : string := trimEnd (trimStart s).

(** Truthiness of a string: every string but the empty one. *)
Definition truthy (s : string) : bool :=
  match s with EmptyString => false | String _ _ => true end.

(** Truthiness of a possibly absent string property. *)
Definition truthyOpt (o : option string) : bool :=
  match o with Some s => truthy s | None => false end.

(** [Array.prototype.includes] on an array of strings (strict equality). *)
Definition arrayIncludes (l : list string) (x : string) : bool :=
  existsb (String.eqb x) l.

(** The mathematical reading of "substring". *)
Definition Substring (sub s : string) : Prop :=
  exists a b, s = a ++ sub ++ b.

End JS.

(* ================================================================== *)
(** ** The classifier *)
(* ================================================================== *)

(** The keyword table, in the order of its declaration; [Object.entries]
    enumerates the keys of an object literal in that order. *)
Definition CIVIC_CATEGORIES : list (string * list string) :=
  [ ("Water & Supply Management",
     ["water"; "pipe"; "leak"; "burst"; "supply"; "shortage"; "contamination";
      "drinking water"; "tap"; "bore well"; "water tank"; "pipeline"]);
    ("Electricity",
     ["power"; "electricity"; "cable"; "wire"; "transformer"; "outage";
      "blackout"; "street light"; "electric pole"; "power line"; "voltage"]);
    ("Public Health & Safety",
     ["health"; "medical"; "hospital"; "clinic"; "ambulance"; "safety";
      "accident"; "injury"; "disease"; "epidemic"; "vaccination"]);
    ("Fire & Emergency Services",
     ["fire"; "emergency"; "rescue"; "disaster"; "flood"; "earthquake";
      "burning"; "smoke"; "evacuation"; "hazard"; "danger"]);
    ("Sanitation & Waste Management",
     ["garbage"; "waste"; "trash"; "dustbin"; "cleaning"; "sewage"; "drain";
      "toilet"; "sanitation"; "hygiene"; "overflow"; "dump"; "litter"]);
    ("Roads & Infrastructure",
     ["road"; "pothole"; "street"; "bridge"; "footpath"; "sidewalk";
      "traffic"; "construction"; "repair"; "maintenance"; "pavement"]);
    ("Public Transportation",
     ["bus"; "transport"; "metro"; "railway"; "station"; "traffic signal";
      "parking"; "vehicle"; "auto"; "rickshaw"]);
    ("Parks & Environment",
     ["park"; "tree"; "garden"; "environment"; "pollution"; "noise";
      "air quality"; "green space"; "plantation"; "encroachment"]) ].

(** [keywords.some(keyword => lowerDesc.includes(keyword))]. *)
Definition someKeyword (lowerDesc : string) (keywords : list string) : bool :=
  existsb (fun keyword => JS.includes lowerDesc keyword) keywords.

(** The [for ... of Object.entries(...)] loop of [categorizeIssue]. *)
Fixpoint categorizeLoop (lowerDesc : string)
    (entries : list (string * list string)) : string :=
  match entries with
  | [] => "General Issues"
  | (category, keywords) :: rest =>
      if someKeyword lowerDesc keywords then category
      else categorizeLoop lowerDesc rest
  end.

Definition categorizeIssue (description : string) : string :=
  let lowerDesc := JS.toLowerCase description in
  categorizeLoop lowerDesc CIVIC_CATEGORIES.

(** Severity validation of [POST /ai/describe]. *)
Definition validSeverities : list string := ["Low"; "Medium"; "High"].

Definition finalSeverity (severity : string) : string :=
  let cleanSeverity := JS.trim severity in
  if JS.arrayIncludes validSeverities cleanSeverity then cleanSeverity
  else "Medium".

(* ================================================================== *)
(** ** Documents and the store *)
(* ================================================================== *)

(** The [User] documents, with the fields the handlers read. *)
Module User.
Record t : Type := mk
  { _id : string;
    name : string;
    email : string;
    password : string;
    role : string }.
End User.

Module StatusEntry.
Record t : Type := mk
  { status : string;
    timestamp : Z;
    by_ : string;
    comment : option string }.
End StatusEntry.

Module Comment.
Record t : Type := mk
  { by_ : string;
    text : string;
    timestamp : Z }.
End Comment.

Module Location.
Record t : Type := mk
  { lat : Q;
    lng : Q;
    address : string }.
End Location.

(** [IReport], the documents of the [Report] collection. *)
Module Report.
Record t : Type := mk
  { _id : string;
    userId : string;
    description : string;
    location : Location.t;
    images : list string;
    category : string;
    status : string;
    statusHistory : list StatusEntry.t;
    comments : list Comment.t;
    severity : string;
    departmentId : option string;
    createdAt : Z;
    updatedAt : Z }.
End Report.

(** The two collections the handlers touch. *)
Record Store : Type := mkStore
  { users : list User.t;
    reports : list Report.t }.

(** The joined owner of a populated report: [populate('userId', fields)].
    [role] is present only when the field list selects it. *)
Module Owner.
Record t : Type := mk
  { _id : string;
    name : string;
    email : string;
    role : option string }.
End Owner.

(** A report after [populate('userId', ...)]: the reference is replaced by
    the joined user, or by [null] ([None]) when no user has that id. *)
Record Populated : Type := mkPopulated
  { doc : Report.t;
    owner : option Owner.t }.

(* ================================================================== *)
(** ** Responses and control flow of a handler *)
(* ================================================================== *)

(** [totalPages] is [None] where the JSON has [null]: [res.json] prints
    [Infinity] and [NaN] so. *)
Record Pagination : Type := mkPagination
  { currentPage : Z;
    totalPages : option Z;
    totalReports : Z;
    hasNext : bool;
    hasPrev : bool }.

Record Filters : Type := mkFilters
  { f_status : option string;
    f_category : option string;
    f_userId : option string }.

Record ReportWithMetadata : Type := mkMeta
  { report : Populated;
    timeSinceSubmission : Z;
    canEdit : bool;
    isOwnReport : bool }.

(** The JSON bodies the three handlers send. *)
Inductive Body : Type :=
| Message (message : string)
| InvalidCategory (message : string) (validCategories : list string)
| Failure (message : string) (error : string)
| Created (message : string) (report : option Populated)
| ReportPage (reports : list Populated) (pagination : Pagination)
    (filters : Filters)
| ReportDetail (report : ReportWithMetadata).

(** [res.status(code).json(body)]. *)
Record Response : Type := mkResponse
  { code : Z;
    body : Body }.

(** Where the body of a handler can be after a statement: it goes on with
    a value, it has returned a response, or it has thrown. *)
Inductive Step (A : Type) : Type :=
| Next (a : A)
| Respond (r : Response)
| Throw (error : string).

Arguments Next {A} a.
Arguments Respond {A} r.
Arguments Throw {A} error.

Definition bind {A B : Type} (m : Step A) (k : A -> Step B) : Step B :=
  match m with
  | Next a => k a
  | Respond r => Respond r
  | Throw e => Throw e
  end.

Notation "x <- m ;; k" := (bind m (fun x => k))
  (at level 61, m at next level, right associativity).
Notation "m ;;; k" := (bind m (fun _ => k))
  (at level 61, right associativity).

(** [if (cond) return res.status(code).json(body);] *)
Definition returnIf (cond : bool) (r : Response) : Step unit :=
  if cond then Respond r else Next tt.

(** A property that must be a truthy string: yields the string, or returns
    the response when the property is absent or empty. *)
Definition truthyString (o : option string) (r : Response) : Step string :=
  match o with
  | Some s => if JS.truthy s then Next s else Respond r
  | None => Respond r
  end.

(** A property that must be present (an object or an array is truthy). *)
Definition truthyObject {A : Type} (o : option A) (r : Response) : Step A :=
  match o with
  | Some a => Next a
  | None => Respond r
  end.

(** [a && b] and [a || b] where evaluating [b] may throw. *)
Definition andAlso (a : bool) (b : Step bool) : Step bool :=
  if a then b else Next false.

Definition orElse (a : bool) (b : Step bool) : Step bool :=
  if a then Next true else b.

(* ================================================================== *)
(** ** Numbers *)
(* ================================================================== *)

(** [a < b] and [a > b] on JSON numbers. *)
Definition Qltb (a b : Q) : bool := negb (Qle_bool b a).
Definition Qgtb (a b : Q) : bool := negb (Qle_bool a b).

(** Truthiness of a number: every number but zero. *)
Definition truthyNumber (q : Q) : bool := negb (Qeq_bool q 0).

(** [parseFloat] applied to a number prints it and reads it back. *)
Definition parseFloat (q : Q) : Q := q.

(** A number as a built-in returns it: a rational, [NaN] or an
    infinity. *)
Inductive JsNumber : Type :=
| Finite (q : Q)
| NaN
| Infinity (negative : bool).

(** [a < b] and [a > b] for such a number and a finite bound; a
    comparison with [NaN] is false. *)
Definition ltNumber (a : JsNumber) (b : Q) : bool :=
  match a with
  | Finite q => Qltb q b
  | NaN => false
  | Infinity negative => negative
  end.

Definition gtNumber (a : JsNumber) (b : Q) : bool :=
  match a with
  | Finite q => Qgtb q b
  | NaN => false
  | Infinity negative => negb negative
  end.

(** [Math.ceil(n / l)] for integers [n] and [l <> 0]: the quotient of
    two integers below 2^53 is not rounded across an integer. *)
Definition ceilDiv (n l : Z) : Z := (- ((- n) / l))%Z.

(** [Math.ceil(total / limitNum)] as it is sent, for [total >= 0]: the
    quotient by zero is [Infinity] or [NaN], sent as [null]. *)
Definition pagesOf (total limitNum : Z) : option Z :=
  if (limitNum =? 0)%Z then None else Some (ceilDiv total limitNum).

(** [pageNum < Math.ceil(total / limitNum)]: every page is below
    [Infinity], none is below [NaN]. *)
Definition beforeLastPage (pageNum total limitNum : Z) : bool :=
  if (limitNum =? 0)%Z then (0 <? total)%Z
  else (pageNum <? ceilDiv total limitNum)%Z.

(* ================================================================== *)
(** ** The Report model: schema, queries *)
(* ================================================================== *)

Definition categoryEnum : list string :=
  [ "Water & Supply Management";
    "Electricity";
    "Public Health & Safety";
    "Fire & Emergency Services";
    "Sanitation & Waste Management";
    "Roads & Infrastructure";
    "Public Transportation";
    "Parks & Environment";
    "General Issues" ].

Definition statusEnum : list string :=
  [ "Submitted"; "Acknowledged"; "In Progress"; "Resolved"; "Closed" ].

Definition severityEnum : list string := [ "Low"; "Medium"; "High" ].

(** The validators of [reportSchema], path by path, run by [save].  The
    first failing path is thrown as a validation error (its text is
    abridged). *)
Definition check (ok : bool) (path : string) : Step unit :=
  if ok then Next tt else Throw ("Report validation failed: " ++ path).

Definition validateEntry (e : StatusEntry.t) : bool :=
  JS.truthy (StatusEntry.status e) && JS.truthy (StatusEntry.by_ e).

Definition validateComment (c : Comment.t) : bool :=
  JS.truthy (Comment.by_ c) && JS.truthy (Comment.text c).

Definition validate (d : Report.t) : Step unit :=
  check (JS.truthy (Report.userId d)) "userId" ;;;
  check (JS.truthy (Report.description d)) "description" ;;;
  check (Qle_bool (-90) (Location.lat (Report.location d))
         && Qle_bool (Location.lat (Report.location d)) 90) "location.lat" ;;;
  check (Qle_bool (-180) (Location.lng (Report.location d))
         && Qle_bool (Location.lng (Report.location d)) 180) "location.lng" ;;;
  check (JS.truthy (Location.address (Report.location d)))
        "location.address" ;;;
  check (forallb JS.truthy (Report.images d)) "images" ;;;
  check (JS.truthy (Report.category d)
         && JS.arrayIncludes categoryEnum (Report.category d)) "category" ;;;
  check (JS.arrayIncludes statusEnum (Report.status d)) "status" ;;;
  check (forallb validateEntry (Report.statusHistory d)) "statusHistory" ;;;
  check (forallb validateComment (Report.comments d)) "comments" ;;;
  check (JS.arrayIncludes severityEnum (Report.severity d)) "severity".

(** [Model.findById] on each collection. *)
Definition findReportById (db : Store) (id : string) : option Report.t :=
  find (fun r => String.eqb (Report._id r) id) (reports db).

Definition findUserById (db : Store) (id : string) : option User.t :=
  find (fun u => String.eqb (User._id u) id) (users db).

(** [doc.save()] of a new document: the validators run, then the document
    is inserted; the collection's unique index on [_id] refuses a
    duplicate. *)
Definition save (db : Store) (d : Report.t) : Step Store :=
  validate d ;;;
  match findReportById db (Report._id d) with
  | Some _ => Throw "E11000 duplicate key error"
  | None => Next (mkStore (users db) (reports db ++ [d])%list)
  end.

(** [populate('userId', 'name email')] and
    [populate('userId', 'name email role')]. *)
Definition populate (withRole : bool) (db : Store) (r : Report.t) : Populated :=
  mkPopulated r
    (match findUserById db (Report.userId r) with
     | Some u =>
         Some (Owner.mk (User._id u) (User.name u) (User.email u)
                 (if withRole then Some (User.role u) else None))
     | None => None
     end).

(** The filter object handed to [Report.find] and [countDocuments].  An
    identifier has one print, so that the owner of a report is compared
    as a string; the cast of [userId] that precedes the comparison is
    [castOwner] below. *)
Module Query.
Record t : Type := mk
  { userId : option string;
    status : option string;
    category : option string }.
End Query.

Definition matchField (want : option string) (have : string) : bool :=
  match want with
  | Some v => String.eqb have v
  | None => true
  end.

Definition matches (q : Query.t) (r : Report.t) : bool :=
  matchField (Query.userId q) (Report.userId r)
  && matchField (Query.status q) (Report.status r)
  && matchField (Query.category q) (Report.category r).

(** [sort({ createdAt: -1 })]: newest first, ties in collection order. *)
Fixpoint insertDesc (r : Report.t) (l : list Report.t) : list Report.t :=
  match l with
  | [] => [r]
  | x :: l' =>
      if (Report.createdAt r <? Report.createdAt x)%Z
      then x :: insertDesc r l'
      else r :: l
  end.

Definition sortCreatedAtDesc (l : list Report.t) : list Report.t :=
  fold_right insertDesc [] l.

(** The cursor of [.limit(limitNum).skip(skip)] over the sorted matches:
    it skips, then limits, whatever the order of the two calls.  A limit
    of 0 is no limit.  A negative limit is sent as its absolute value,
    and the cursor is closed after its first batch: this is the cursor as
    long as that batch holds them all; the theorems take the limit from
    0 on where they say which reports are returned. *)
Definition cursor (limitNum skip : Z) (sorted : list Report.t)
  : list Report.t :=
  let rest := skipn (Z.to_nat skip) sorted in
  if (limitNum =? 0)%Z then rest else firstn (Z.abs_nat limitNum) rest.

(** [Report.find(query).sort({ createdAt: -1 }).limit(limitNum).skip(skip)
    .exec()]: the server refuses a negative skip, and the promise is
    rejected (the text of the driver's message is abridged). *)
Definition findReports (db : Store) (q : Query.t) (limitNum skip : Z)
  : Step (list Report.t) :=
  if (skip <? 0)%Z then Throw "skip must be non-negative"
  else Next (cursor limitNum skip
               (sortCreatedAtDesc (filter (matches q) (reports db)))).

Definition countDocuments (db : Store) (q : Query.t) : Z :=
  Z.of_nat (length (filter (matches q) (reports db))).

(* ================================================================== *)
(** ** POST /api/reports *)
(* ================================================================== *)

(** What the body carries at [location.lat] or [location.lng]: a JSON
    number, as the client sends it, or a JSON string.  The handler applies
    three operations to it: the truthiness test [!v]; the comparisons
    [v < n] and [v > n], which convert [v] to a number (ToNumber); and
    [parseFloat(v)], which reads a number off the front of [v] printed as
    a string.  A number is its own value under the three.  A string comes
    with the two numbers that the built-ins make of it: [Text "0"] with 0
    and 0, [Text "12abc"] with [NaN] and 12, [Text "abc"] with [NaN] and
    [NaN], [Text " 7 "] with 7 and 7. *)
Module Coordinate.
Inductive t : Type :=
| Number (q : Q)
| Text (s : string) (asNumber : JsNumber) (read : JsNumber).

(** [!v] is false. *)
Definition truthy (v : t) : bool :=
  match v with
  | Number q => truthyNumber q
  | Text s _ _ => JS.truthy s
  end.

(** ToNumber, applied by [<] and [>]. *)
Definition toNumber (v : t) : JsNumber :=
  match v with
  | Number q => Finite q
  | Text _ asNumber _ => asNumber
  end.

(** [parseFloat(v)]. *)
Definition parseFloat (v : t) : JsNumber :=
  match v with
  | Number q => Finite (parseFloat q)
  | Text _ _ read => read
  end.
End Coordinate.

(** The request body: every property may be absent; [images] may be sent
    as something other than an array.  The properties that are present
    have the JSON types of the API, strings and an array of strings;
    [lat] and [lng] are numbers or strings. *)
Module ReportBody.
Record location_t : Type := mkLocation
  { lat : option Coordinate.t;
    lng : option Coordinate.t;
    address : option string }.

Inductive images_t : Type :=
| NotArray (s : string)
| Array (a : list string).

Record t : Type := mk
  { description : option string;
    location : option location_t;
    images : option images_t;
    category : option string;
    severity : option string }.
End ReportBody.

(** Truthiness of [images]: an array, even an empty one, is truthy. *)
Definition imagesTruthy (o : option ReportBody.images_t) : bool :=
  match o with
  | Some (ReportBody.NotArray s) => JS.truthy s
  | Some (ReportBody.Array _) => true
  | None => false
  end.

(** [images] must be truthy. *)
Definition truthyImages (o : option ReportBody.images_t) (r : Response)
  : Step ReportBody.images_t :=
  match o with
  | Some (ReportBody.NotArray s) =>
      if JS.truthy s then Next (ReportBody.NotArray s) else Respond r
  | Some (ReportBody.Array a) => Next (ReportBody.Array a)
  | None => Respond r
  end.

(** [!Array.isArray(images) || images.length === 0]. *)
Definition nonEmptyArray (i : ReportBody.images_t) (r : Response)
  : Step (list string) :=
  match i with
  | ReportBody.NotArray _ => Respond r
  | ReportBody.Array a => if (length a =? 0)%nat then Respond r else Next a
  end.

(** A coordinate that must be truthy. *)
Definition truthyCoordinate (o : option Coordinate.t) (r : Response)
  : Step Coordinate.t :=
  match o with
  | Some v => if Coordinate.truthy v then Next v else Respond r
  | None => Respond r
  end.

(** [v < lo || v > hi]. *)
Definition outOfRange (v : Coordinate.t) (lo hi : Q) : bool :=
  ltNumber (Coordinate.toNumber v) lo || gtNumber (Coordinate.toNumber v) hi.

(** The cast of a [Number] path of the schema: [NaN] fails the cast; an
    infinity passes it and fails the [min] or the [max] of the path.
    [new Report] records the error and [save], the next statement, throws
    it with the validation errors. *)
Definition castNumber (n : JsNumber) (path : string) : Step Q :=
  match n with
  | Finite q => Next q
  | NaN | Infinity _ => Throw ("Report validation failed: " ++ path)
  end.

(** [severity || 'Medium']. *)
Definition orMedium (severity : option string) : string :=
  match severity with
  | Some s => if JS.truthy s then s else "Medium"
  | None => "Medium"
  end.

(** The [trim: true] setter of a schema path, applied by [new Report]. *)
Definition setTrim (s : string) : string := JS.trim s.

Definition validCategories : list string :=
  [ "Water & Supply Management";
    "Electricity";
    "Public Health & Safety";
    "Fire & Emergency Services";
    "Sanitation & Waste Management";
    "Roads & Infrastructure";
    "Public Transportation";
    "Parks & Environment";
    "General Issues" ].

Definition missingFields : Response :=
  mkResponse 400
    (Message "Description, location, images, and category are required").

Definition missingLocation : Response :=
  mkResponse 400 (Message "Location must include lat, lng, and address").

Definition missingImage : Response :=
  mkResponse 400 (Message "At least one image is required").

Definition badLatitude : Response :=
  mkResponse 400 (Message "Latitude must be between -90 and 90").

Definition badLongitude : Response :=
  mkResponse 400 (Message "Longitude must be between -180 and 180").

Definition badCategory : Response :=
  mkResponse 400 (InvalidCategory "Invalid category" validCategories).

(** [new Report({...})] as the handler fills it in; [now] is the clock,
    [newId] the identifier the driver generates, [lat] and [lng] the
    numbers that [parseFloat] read. *)
Definition newReport (now : Z) (newId userId description : string)
    (lat lng : Q) (address : string) (images : list string)
    (category : string) (severity : option string) : Report.t :=
  Report.mk newId userId
    (setTrim (JS.trim description))
    (Location.mk lat lng (setTrim (JS.trim address)))
    images
    category
    "Submitted"
    [ StatusEntry.mk "Submitted" now "system"
        (Some (setTrim "Report submitted by user")) ]
    []
    (orMedium severity)
    None
    now now.

(** The [try] block of the handler. *)
Definition submitReport (db : Store) (now : Z) (newId userId : string)
    (b : ReportBody.t) : Step (Response * Store) :=
  description <- truthyString (ReportBody.description b) missingFields ;;
  location <- truthyObject (ReportBody.location b) missingFields ;;
  images <- truthyImages (ReportBody.images b) missingFields ;;
  category <- truthyString (ReportBody.category b) missingFields ;;
  lat <- truthyCoordinate (ReportBody.lat location) missingLocation ;;
  lng <- truthyCoordinate (ReportBody.lng location) missingLocation ;;
  address <- truthyString (ReportBody.address location) missingLocation ;;
  images <- nonEmptyArray images missingImage ;;
  returnIf (outOfRange lat (-90) 90) badLatitude ;;;
  returnIf (outOfRange lng (-180) 180) badLongitude ;;;
  returnIf (negb (JS.arrayIncludes validCategories category)) badCategory ;;;
  latitude <- castNumber (Coordinate.parseFloat lat) "location.lat" ;;
  longitude <- castNumber (Coordinate.parseFloat lng) "location.lng" ;;
  let doc :=
    newReport now newId userId description latitude longitude address images
      category (ReportBody.severity b) in
  db' <- save db doc ;;
  let populatedReport :=
    option_map (populate false db') (findReportById db' (Report._id doc)) in
  Next (mkResponse 201 (Created "Report submitted successfully" populatedReport),
        db').

(** The handler: its [catch] turns an exception into a 500. *)
Definition postReports (db : Store) (now : Z) (newId userId : string)
    (b : ReportBody.t) : Response * Store :=
  match submitReport db now newId userId b with
  | Next out => out
  | Respond r => (r, db)
  | Throw e => (mkResponse 500 (Failure "Failed to submit report" e), db)
  end.

(* ================================================================== *)
(** ** GET /api/reports *)
(* ================================================================== *)

(** The query string.  [page] and [limit] hold the integers that
    [parseInt] reads from the parameters, [None] when the parameter is
    absent. *)
Module ListQuery.
Record t : Type := mk
  { status : option string;
    category : option string;
    userId : option string;
    page : option Z;
    limit : option Z }.
End ListQuery.

(** [if (p) query.p = p]. *)
Definition whenTruthy (p : option string) : option string :=
  if JS.truthyOpt p then p else None.

(** The query the handler builds for the requester. *)
Definition buildQuery (currentUser : User.t) (reqUserId : string)
    (q : ListQuery.t) : Query.t :=
  Query.mk
    (if negb (String.eqb (User.role currentUser) "admin")
     then Some reqUserId
     else whenTruthy (ListQuery.userId q))
    (whenTruthy (ListQuery.status q))
    (whenTruthy (ListQuery.category q)).

(** [page = 1] and [limit = 10] in the destructuring of [req.query],
    then [parseInt]. *)
Definition orDefault (p : option Z) (d : Z) : Z :=
  match p with Some z => z | None => d end.

Section List.

(** The cast of a string to an ObjectId by the [Report] model: whether it
    succeeds. *)
Variable castsToObjectId : string -> bool.

(** [Report.find(query)] casts [query.userId] and is rejected with a
    CastError when the value is not an ObjectId (the text of the message
    is abridged).  The requester's own identifier is one, the [_id] of
    [currentUser]; the [userId] parameter of an admin is any string. *)
Definition castOwner (currentUser : User.t) (query : Query.t) : Step unit :=
  if String.eqb (User.role currentUser) "admin"
  then match Query.userId query with
       | Some u =>
           if castsToObjectId u then Next tt
           else Throw "Cast to ObjectId failed at path userId"
       | None => Next tt
       end
  else Next tt.

(** The [try] block of the handler. *)
Definition listReports (db : Store) (reqUserId : string) (q : ListQuery.t)
  : Step Response :=
  currentUser <- truthyObject (findUserById db reqUserId)
                   (mkResponse 404 (Message "User not found")) ;;
  let query := buildQuery currentUser reqUserId q in
  let pageNum := orDefault (ListQuery.page q) 1 in
  let limitNum := orDefault (ListQuery.limit q) 10 in
  let skip := ((pageNum - 1) * limitNum)%Z in
  castOwner currentUser query ;;;
  found <- findReports db query limitNum skip ;;
  let total := countDocuments db query in
  Next
    (mkResponse 200
       (ReportPage (map (populate false db) found)
          (mkPagination pageNum
             (pagesOf total limitNum)
             total
             (beforeLastPage pageNum total limitNum)
             (1 <? pageNum)%Z)
          (mkFilters (ListQuery.status q) (ListQuery.category q)
             (ListQuery.userId q)))).

(** The handler: its [catch] turns an exception into a 500. *)
Definition getReports (db : Store) (reqUserId : string) (q : ListQuery.t)
  : Response :=
  match listReports db reqUserId q with
  | Next r => r
  | Respond r => r
  | Throw e => mkResponse 500 (Failure "Failed to fetch reports" e)
  end.

End List.

(* ================================================================== *)
(** ** GET /api/reports/:id *)
(* ================================================================== *)

(** [report.userId._id.toString()]: a [TypeError] when the join found no
    user and left [null]. *)
Definition ownerIdString (p : Populated) : Step string :=
  match owner p with
  | Some o => Next (Owner._id o)
  | None => Throw "Cannot read properties of null (reading '_id')"
  end.

Section ById.

(** [mongoose.Types.ObjectId.isValid], the driver's test of well-formed
    identifiers. *)
Variable isValid : string -> bool.

(** The [try] block of the handler. *)
Definition fetchReport (db : Store) (now : Z) (reqUserId id : string)
  : Step Response :=
  returnIf (negb (isValid id))
    (mkResponse 400 (Message "Invalid report ID format")) ;;;
  found <- truthyObject (findReportById db id)
             (mkResponse 404 (Message "Report not found")) ;;
  let report := populate true db found in
  currentUser <- truthyObject (findUserById db reqUserId)
                   (mkResponse 404 (Message "User not found")) ;;
  let isAdmin := String.eqb (User.role currentUser) "admin" in
  denied <- andAlso (negb isAdmin)
              (o <- ownerIdString report ;;
               Next (negb (String.eqb o reqUserId))) ;;
  returnIf denied
    (mkResponse 403
       (Message "Access denied. You can only view your own reports.")) ;;;
  canEdit <- orElse isAdmin
               (o <- ownerIdString report ;; Next (String.eqb o reqUserId)) ;;
  isOwnReport <- (o <- ownerIdString report ;; Next (String.eqb o reqUserId)) ;;
  Next
    (mkResponse 200
       (ReportDetail
          (mkMeta report (now - Report.createdAt found)%Z canEdit
             isOwnReport))).

(** The handler: its [catch] turns an exception into a 500. *)
Definition getReportById (db : Store) (now : Z) (reqUserId id : string)
  : Response :=
  match fetchReport db now reqUserId id with
  | Next r => r
  | Respond r => r
  | Throw e => mkResponse 500 (Failure "Failed to fetch report" e)
  end.

End ById.

(* ================================================================== *)
(** ** Vocabulary of the statements *)
(* ================================================================== *)

(** Some keyword of the set occurs in the lower-cased description. *)
Definition KeywordMatch (description : string) (keywords : list string)
  : Prop :=
  exists k, In k keywords /\ JS.Substring k (JS.toLowerCase description).

(** The reports the query selects, in collection order. *)
Definition matching (db : Store) (q : Query.t) : list Report.t :=
  filter (matches q) (reports db).

(** The reports a user owns. *)
Definition ownedBy (u : string) (r : Report.t) : bool :=
  String.eqb (Report.userId r) u.

(** Newest first. *)
Definition newerOrEqual (a b : Report.t) : Prop :=
  (Report.createdAt b <= Report.createdAt a)%Z.

(** A persisted report carries an enum category and an enum severity. *)
Definition validClassification (r : Report.t) : Prop :=
  In (Report.category r) categoryEnum /\ In (Report.severity r) severityEnum.

(** Every stored report is owned by a registered user. *)
Definition ownersRegistered (db : Store) : Prop :=
  Forall (fun r => findUserById db (Report.userId r) <> None) (reports db).

(** The owner filter of an admin, when there is one, is an ObjectId: the
    query of the list can be run. *)
Definition ownerFilterCasts (castsToObjectId : string -> bool)
    (currentUser : User.t) (q : ListQuery.t) : Prop :=
  User.role currentUser = "admin" ->
  forall u, whenTruthy (ListQuery.userId q) = Some u ->
            castsToObjectId u = true.

(** The request asks for this page, or for none and gets the first; it
    asks for this limit, or for none and gets ten. *)
Definition asksPage (q : ListQuery.t) (p : Z) : Prop :=
  ListQuery.page q = Some p \/ (ListQuery.page q = None /\ p = 1%Z).

Definition asksLimit (q : ListQuery.t) (l : Z) : Prop :=
  ListQuery.limit q = Some l \/ (ListQuery.limit q = None /\ l = 10%Z).

(** The first presence check of [POST /api/reports] passes. *)
Definition requiredFieldsPresent (b : ReportBody.t) : Prop :=
  JS.truthyOpt (ReportBody.description b) = true
  /\ ReportBody.location b <> None
  /\ imagesTruthy (ReportBody.images b) = true
  /\ JS.truthyOpt (ReportBody.category b) = true.

(** The body carries the number zero as latitude or as longitude. *)
Definition zeroCoordinate (b : ReportBody.t) : Prop :=
  exists loc, ReportBody.location b = Some loc
    /\ ((exists q, ReportBody.lat loc = Some (Coordinate.Number q) /\ q == 0)
        \/ (exists q, ReportBody.lng loc = Some (Coordinate.Number q)
                      /\ q == 0)).

(** Both presence checks and the image check pass, with these numbers as
    coordinates. *)
Definition reachesCoordinateCheck (b : ReportBody.t) (lat lng : Q) : Prop :=
  exists description loc imgs category address,
    ReportBody.description b = Some description
    /\ JS.truthy description = true
    /\ ReportBody.location b = Some loc
    /\ ReportBody.images b = Some (ReportBody.Array imgs)
    /\ imgs <> []
    /\ ReportBody.category b = Some category
    /\ JS.truthy category = true
    /\ ReportBody.lat loc = Some (Coordinate.Number lat) /\ ~ lat == 0
    /\ ReportBody.lng loc = Some (Coordinate.Number lng) /\ ~ lng == 0
    /\ ReportBody.address loc = Some address
    /\ JS.truthy address = true.

(* ------------------------------------------------------------------ *)
(** *** Sample data *)

Module Sample.

Definition alice : User.t :=
  User.mk "64f000000000000000000001" "Alice" "alice@example.org" "hash"
    "citizen".
Definition bob : User.t :=
  User.mk "64f000000000000000000002" "Bob" "bob@example.org" "hash"
    "citizen".
Definition root : User.t :=
  User.mk "64f000000000000000000003" "Root" "root@example.org" "hash"
    "admin".

(** A report of [owner] created at [t]. *)
Definition reportOf (id owner : string) (t : Z) : Report.t :=
  Report.mk id owner "Large pothole with standing water"
    (Location.mk (233569 # 10000) (853340 # 10000) "Main Market Road, Ranchi")
    ["https://res.cloudinary.com/demo/pothole.jpg"]
    "Roads & Infrastructure" "Submitted"
    [StatusEntry.mk "Submitted" t "system" (Some "Report submitted by user")]
    [] "High" None t t.

Definition r1 : Report.t :=
  reportOf "650000000000000000000001" (User._id alice) 100.
Definition r2 : Report.t :=
  reportOf "650000000000000000000002" (User._id bob) 200.
Definition r3 : Report.t :=
  reportOf "650000000000000000000003" (User._id alice) 300.

Definition db : Store := mkStore [alice; bob; root] [r1; r2; r3].

(** [n] reports of Alice, created at times [0 .. n-1]. *)
Definition many (n : nat) : list Report.t :=
  map (fun i => reportOf (String (ascii_of_nat (48 + i)) "") (User._id alice)
                  (Z.of_nat i))
      (seq 0 n).

Definition db25 : Store := mkStore [alice; bob; root] (many 25).

(** The store after the user document of Alice, the owner of [r1] and
    [r3], was removed. *)
Definition orphaned : Store := mkStore [bob; root] [r1; r2; r3].

(** A complete submission at the given coordinates. *)
Definition bodyAt (lat lng : Q) (severity : option string) : ReportBody.t :=
  ReportBody.mk (Some "  Street light broken  ")
    (Some (ReportBody.mkLocation (Some (Coordinate.Number lat))
             (Some (Coordinate.Number lng)) (Some "MG Road, Pune")))
    (Some (ReportBody.Array ["https://res.cloudinary.com/demo/light.jpg"]))
    (Some "Electricity")
    severity.

(** A submission without description, sent from the equator. *)
Definition bodyNoDescription : ReportBody.t :=
  ReportBody.mk None
    (Some (ReportBody.mkLocation (Some (Coordinate.Number 0))
             (Some (Coordinate.Number (735 # 10))) (Some "Null Island")))
    (Some (ReportBody.Array ["https://res.cloudinary.com/demo/x.jpg"]))
    (Some "General Issues")
    None.

(** A complete submission whose latitude is the string "0": the string
    is not empty, [Number("0")] is 0 and [parseFloat("0")] is 0. *)
Definition bodyTextZero : ReportBody.t :=
  ReportBody.mk (Some "Buoy adrift")
    (Some (ReportBody.mkLocation
             (Some (Coordinate.Text "0" (Finite 0) (Finite 0)))
             (Some (Coordinate.Number (735 # 10))) (Some "Null Island")))
    (Some (ReportBody.Array ["https://res.cloudinary.com/demo/x.jpg"]))
    (Some "General Issues")
    None.

Definition freshId : string := "650000000000000000000009".

(** The admin asks for the reports of a user "abc". *)
Definition listOfAbc : ListQuery.t :=
  ListQuery.mk None None (Some "abc") (Some 1%Z) (Some 10%Z).

(** The second page of ten. *)
Definition secondPage : ListQuery.t :=
  ListQuery.mk None None None (Some 2%Z) (Some 10%Z).

(** Alice lists reports and asks for Bob's. *)
Definition listAsAlice : ListQuery.t :=
  ListQuery.mk None None (Some (User._id bob)) None None.

(** The first page of ten. *)
Definition firstPage : ListQuery.t :=
  ListQuery.mk None None None (Some 1%Z) (Some 10%Z).

(** Identifiers of 24 hexadecimal digits. *)
Definition isHexDigit (c : ascii) : bool :=
  let n := nat_of_ascii c in
  ((48 <=? n)%nat && (n <=? 57)%nat)
  || ((97 <=? n)%nat && (n <=? 102)%nat)
  || ((65 <=? n)%nat && (n <=? 70)%nat).

Definition isHex24 (s : string) : bool :=
  (String.length s =? 24)%nat && forallb isHexDigit (list_ascii_of_string s).

End Sample.

(* ================================================================== *)
(** ** POST /ai/describe: reconciling the model's answer *)
(* ================================================================== *)

(** The part of the handler behind [extractField]: from the three fields
    read out of the model's text to the category, the severity and the
    description of the response. *)
Module Describe.

Definition validCategories : list string :=
  [ "Water & Supply Management"; "Electricity"; "Public Health & Safety";
    "Fire & Emergency Services"; "Sanitation & Waste Management";
    "Roads & Infrastructure"; "Public Transportation";
    "Parks & Environment"; "General Issues" ].

(** [validCategories.find(cat => cat.toLowerCase() ===
    cleanCategory.toLowerCase())]. *)
Definition exactMatch (cleanCategory : string) : option string :=
  find (fun cat =>
          String.eqb (JS.toLowerCase cat) (JS.toLowerCase cleanCategory))
       validCategories.

(** The fallback on key terms, in the order of the [else if] chain. *)
Definition keyTerms (cleanCategory : string) : string :=
  let lower := JS.toLowerCase cleanCategory in
  if JS.includes lower "sanitation" || JS.includes lower "waste"
  then "Sanitation & Waste Management"
  else if JS.includes lower "road" || JS.includes lower "infrastructure"
  then "Roads & Infrastructure"
  else if JS.includes lower "water"
  then "Water & Supply Management"
  else if JS.includes lower "electric"
  then "Electricity"
  else "General Issues".

Definition finalCategory (category : string) : string :=
  let cleanCategory := JS.trim category in
  match exactMatch cleanCategory with
  | Some found => if JS.truthy found then found else keyTerms cleanCategory
  | None => keyTerms cleanCategory
  end.

(** The body of the response, its timestamp apart. *)
Record response : Type := mk
  { description : string;
    category : string;
    severity : string }.

(** [description.trim() || "Unable to analyze the image properly."] *)
Definition orUnable (description : string) : string :=
  if JS.truthy (JS.trim description) then JS.trim description
  else "Unable to analyze the image properly.".

Definition structure (description category severity : string) : response :=
  mk (orUnable description) (finalCategory category)
    (finalSeverity severity).

End Describe.

(** [GET /api/categories]. *)
Definition categories : list string :=
  [ "Water & Supply Management";
    "Electricity";
    "Public Health & Safety";
    "Fire & Emergency Services";
    "Sanitation & Waste Management";
    "Roads & Infrastructure";
    "Public Transportation";
    "Parks & Environment";
    "General Issues" ].

(* ================================================================== *)
(** ** Vocabulary of the further statements *)
(* ================================================================== *)

(** What the handler and the schema ask of a coordinate: it is truthy;
    converted to a number it is neither below [lo] nor above [hi]; and
    [parseFloat] reads in it a number from [lo] to [hi].  Of a JSON
    number: it is not zero and lies from [lo] to [hi]. *)
Definition coordinateAccepted (v : Coordinate.t) (lo hi : Q) : Prop :=
  Coordinate.truthy v = true
  /\ outOfRange v lo hi = false
  /\ exists q, Coordinate.parseFloat v = Finite q /\ lo <= q <= hi.

(** What [POST /api/reports] asks of a request to store it. *)
Definition acceptable (db : Store) (newId userId : string)
    (b : ReportBody.t) : Prop :=
  exists description loc lat lng address imgs category,
    ReportBody.description b = Some description
    /\ JS.trim description <> ""
    /\ ReportBody.location b = Some loc
    /\ ReportBody.lat loc = Some lat /\ coordinateAccepted lat (-90) 90
    /\ ReportBody.lng loc = Some lng /\ coordinateAccepted lng (-180) 180
    /\ ReportBody.address loc = Some address
    /\ JS.trim address <> ""
    /\ ReportBody.images b = Some (ReportBody.Array imgs)
    /\ imgs <> []
    /\ Forall (fun i => i <> "") imgs
    /\ ReportBody.category b = Some category
    /\ In category validCategories
    /\ In (orMedium (ReportBody.severity b)) severityEnum
    /\ userId <> ""
    /\ findReportById db newId = None.

(** No two stored reports share an identifier. *)
Definition uniqueIds (db : Store) : Prop :=
  NoDup (map Report._id (reports db)).

(** The reports of a list response. *)
Definition reportsOf (r : Response) : list Populated :=
  match body r with
  | ReportPage found _ _ => found
  | _ => []
  end.

(** The pagination of a list response. *)
Definition paginationOf (r : Response) : option Pagination :=
  match body r with
  | ReportPage _ pagination _ => Some pagination
  | _ => None
  end.

(** The same query for another page. *)
Definition withPage (q : ListQuery.t) (p : Z) : ListQuery.t :=
  ListQuery.mk (ListQuery.status q) (ListQuery.category q)
    (ListQuery.userId q) (Some p) (ListQuery.limit q).

(** Further sample data. *)
Module Cases.

(** A submission whose description is blank but not empty. *)
Definition blankDescription : ReportBody.t :=
  ReportBody.mk (Some "   ")
    (Some (ReportBody.mkLocation (Some (Coordinate.Number (185 # 10)))
             (Some (Coordinate.Number (735 # 10))) (Some "MG Road, Pune")))
    (Some (ReportBody.Array ["https://res.cloudinary.com/demo/light.jpg"]))
    (Some "Electricity")
    None.

(** Pages of two. *)
Definition pagesOfTwo : ListQuery.t :=
  ListQuery.mk None None None (Some 1%Z) (Some 2%Z).

(** No parameter at all. *)
Definition noParameters : ListQuery.t :=
  ListQuery.mk None None None None None.

End Cases.

(* ================================================================== *)
(** ** Accounts: POST /api/register, POST /api/login, the auth
       middleware, GET /users/me *)
(* ================================================================== *)

(** [s.split(sep)] for a one-character separator. *)
Fixpoint split (sep : ascii) (s : string) : list string :=
  match s with
  | EmptyString => [EmptyString]
  | String c s' =>
      if Ascii.eqb c sep then EmptyString :: split sep s'
      else match split sep s' with
           | h :: t => String c h :: t
           | [] => [String c EmptyString]
           end
  end.

(** The bodies these handlers send. *)
Inductive AccountBody : Type :=
| Notice (message : string)
| Session (token : string) (id name email : string)
| Profile (_id name email role : string).

Record AccountResponse : Type := mkAccountResponse
  { accountCode : Z;
    accountBody : AccountBody }.

Module Credentials.
Record t : Type := mk
  { name : option string;
    email : option string;
    password : option string }.
End Credentials.

(** [User.findOne({ email })]. *)
Definition findUserByEmail (db : Store) (email : string) : option User.t :=
  find (fun u => String.eqb (User.email u) email) (users db).

Definition serverError : AccountResponse :=
  mkAccountResponse 500 (Notice "Server error").

Definition invalidCredentials : AccountResponse :=
  mkAccountResponse 400 (Notice "Invalid email or password").

Section Accounts.

(** [bcrypt.hash(password, 10)] with the salt it draws, and
    [bcrypt.compare]. *)
Variable hash : string -> string -> string.
Variable compare : string -> string -> bool.

(** [jwt.sign({ id }, JWT_SECRET, { expiresIn: "7d" })] at a time, and
    [jwt.verify(token, JWT_SECRET)] at a time, yielding the [id] of the
    payload. *)
Variable sign : string -> Z -> string.
Variable verify : string -> Z -> option string.

(** Modelled from the spec: the User schema, which is not among the
    sources.  A user has a unique email, a name, a hashed password and a
    role; [new User({ name, email, password })] stores the three fields as
    given and gives the role its default; [userValid] stands for the
    validators of the schema, run by [save]. *)
Variable defaultRole : string.
Variable userValid : User.t -> bool.

Definition newUser (newId name email hashed : string) : User.t :=
  User.mk newId name email hashed defaultRole.

Definition saveUser (db : Store) (u : User.t) : Step Store :=
  if userValid u then Next (mkStore (users db ++ [u])%list (reports db))
  else Throw "User validation failed".

Definition truthyField (o : option string) (r : AccountResponse)
  : AccountResponse + string :=
  match o with
  | Some s => if JS.truthy s then inr s else inl r
  | None => inl r
  end.

(** [POST /api/register]. *)
Definition register (db : Store) (newId salt : string) (b : Credentials.t)
  : AccountResponse * Store :=
  let required := mkAccountResponse 400 (Notice "All fields are required") in
  match truthyField (Credentials.name b) required,
        truthyField (Credentials.email b) required,
        truthyField (Credentials.password b) required with
  | inr name, inr email, inr password =>
      match findUserByEmail db email with
      | Some _ =>
          (mkAccountResponse 400 (Notice "Email already registered"), db)
      | None =>
          let hashed := hash salt password in
          match saveUser db (newUser newId name email hashed) with
          | Next db' =>
              (mkAccountResponse 201 (Notice "User registered successfully"),
               db')
          | _ => (serverError, db)
          end
      end
  | _, _, _ => (required, db)
  end.

(** [POST /api/login]. *)
Definition login (db : Store) (now : Z) (b : Credentials.t)
  : AccountResponse :=
  let required :=
    mkAccountResponse 400 (Notice "Email and password required") in
  match truthyField (Credentials.email b) required,
        truthyField (Credentials.password b) required with
  | inr email, inr password =>
      match findUserByEmail db email with
      | None => invalidCredentials
      | Some user =>
          if compare password (User.password user)
          then mkAccountResponse 200
                 (Session (sign (User._id user) now) (User._id user)
                    (User.name user) (User.email user))
          else invalidCredentials
      end
  | _, _ => required
  end.

(** The [auth] middleware on the [Authorization] header: a response, or
    [next()] with [req.userId]. *)
Definition auth (authorization : option string) (now : Z)
  : AccountResponse + string :=
  match authorization with
  | None => inl (mkAccountResponse 401 (Notice "No token provided"))
  | Some authHeader =>
      if negb (JS.truthy authHeader)
         || negb (JS.startsWith authHeader "Bearer ")
      then inl (mkAccountResponse 401 (Notice "No token provided"))
      else
        let token := nth 1 (split " " authHeader) EmptyString in
        match verify token now with
        | Some id => inr id
        | None => inl (mkAccountResponse 401 (Notice "Invalid token"))
        end
  end.

(** [GET /users/me]: the user without the password. *)
Definition usersMe (db : Store) (userId : string) : AccountResponse :=
  match findUserById db userId with
  | None => mkAccountResponse 404 (Notice "User not found")
  | Some user =>
      mkAccountResponse 200
        (Profile (User._id user) (User.name user) (User.email user)
           (User.role user))
  end.

End Accounts.

(** The emails of the registered users are pairwise different, and so
    are their identifiers. *)
Definition uniqueEmails (db : Store) : Prop :=
  NoDup (map User.email (users db)).

Definition uniqueUserIds (db : Store) : Prop :=
  NoDup (map User._id (users db)).

(** A string without a space. *)
Definition noSpace (s : string) : Prop := JS.includes s " " = false.

(* ================================================================== *)
(** ** POST /location/reverse-geocode *)
(* ================================================================== *)

From Stdlib Require Import DecimalString.

Module Nominatim.

(** The [address] object of a Nominatim answer. *)
Record address_t : Type := mkAddress
  { house_number : option string;
    road : option string;
    neighbourhood : option string;
    suburb : option string;
    city : option string;
    town : option string;
    village : option string;
    state : option string;
    country : option string;
    postcode : option string }.

Record data_t : Type := mkData
  { display_name : option string;
    address : option address_t }.

(** What [fetch] and [json()] come to: the promise is rejected with an
    error, the response is not [ok], or it carries JSON ([null] is
    [None]). *)
Inductive answer : Type :=
| Rejected (message : string)
| NotOk (status : nat)
| Json (data : option data_t).

End Nominatim.

Module ReverseGeocode.

Record body_t : Type := mkBody
  { lat : option Q;
    lng : option Q }.

Record components_t : Type := mkComponents
  { street : string;
    locality : string;
    city : string;
    state : string;
    country : string;
    postalCode : string }.

Inductive reply : Type :=
| Message (message : string)
| Failure (message : string) (error : string)
| Address (address : string) (fullAddress : string)
    (components : components_t) (source : string).

Record response : Type := mkResponse
  { code : Z;
    body : reply }.

End ReverseGeocode.

(** [a || b] on optional strings, and [a || ''']. *)
Definition orString (a : option string) (b : string) : string :=
  match a with
  | Some s => if JS.truthy s then s else b
  | None => b
  end.

(** [isNaN] of a number read from JSON. *)
Definition isNaN (_ : Q) : bool := false.

(** The decimal digits of a status code, as a template literal prints
    them. *)
Definition statusString (status : nat) : string :=
  NilZero.string_of_uint (Nat.to_uint status).

(** The [details.components] of the answer. *)
Definition addressComponents (a : Nominatim.address_t)
  : ReverseGeocode.components_t :=
  ReverseGeocode.mkComponents
    (JS.trim (orString (Nominatim.house_number a) "" ++ " "
              ++ orString (Nominatim.road a) ""))
    (orString (Nominatim.neighbourhood a)
       (orString (Nominatim.suburb a) ""))
    (orString (Nominatim.city a)
       (orString (Nominatim.town a) (orString (Nominatim.village a) "")))
    (orString (Nominatim.state a) "")
    (orString (Nominatim.country a) "")
    (orString (Nominatim.postcode a) "").

Definition noAddress : Nominatim.address_t :=
  Nominatim.mkAddress None None None None None None None None None None.

Section ReverseGeocoding.

(** The call to Nominatim, by the coordinates put in its URL. *)
Variable nominatim : Q -> Q -> Nominatim.answer.

(** The [try] block: a response, or the message of the error thrown. *)
Definition lookupAddress (b : ReverseGeocode.body_t)
  : ReverseGeocode.response + string :=
  let bad message :=
    inl (ReverseGeocode.mkResponse 400 (ReverseGeocode.Message message)) in
  match ReverseGeocode.lat b, ReverseGeocode.lng b with
  | Some lat, Some lng =>
      if negb (truthyNumber lat) || negb (truthyNumber lng)
      then bad "Both latitude and longitude are required"
      else
        let latitude := parseFloat lat in
        let longitude := parseFloat lng in
        if isNaN latitude || isNaN longitude
        then bad "Latitude and longitude must be valid numbers"
        else if Qltb latitude (-90) || Qgtb latitude 90
        then bad "Latitude must be between -90 and 90"
        else if Qltb longitude (-180) || Qgtb longitude 180
        then bad "Longitude must be between -180 and 180"
        else
          match nominatim latitude longitude with
          | Nominatim.Rejected message => inr message
          | Nominatim.NotOk status =>
              inr ("Nominatim API error: " ++ statusString status)
          | Nominatim.Json (Some data) =>
              match Nominatim.display_name data with
              | Some address =>
                  if JS.truthy address
                  then
                    inl (ReverseGeocode.mkResponse 200
                           (ReverseGeocode.Address address address
                              (addressComponents
                                 (match Nominatim.address data with
                                  | Some a => a
                                  | None => noAddress
                                  end))
                              "openstreetmap"))
                  else
                    inl (ReverseGeocode.mkResponse 404
                           (ReverseGeocode.Message
                              "No address found for the provided coordinates"))
              | None =>
                  inl (ReverseGeocode.mkResponse 404
                         (ReverseGeocode.Message
                            "No address found for the provided coordinates"))
              end
          | Nominatim.Json None =>
              inl (ReverseGeocode.mkResponse 404
                     (ReverseGeocode.Message
                        "No address found for the provided coordinates"))
          end
  | _, _ => bad "Both latitude and longitude are required"
  end.

(** The handler with its [catch]. *)
Definition reverseGeocode (b : ReverseGeocode.body_t)
  : ReverseGeocode.response :=
  match lookupAddress b with
  | inl r => r
  | inr message =>
      if JS.includes message "fetch"
      then ReverseGeocode.mkResponse 503
             (ReverseGeocode.Failure
                "Geocoding service temporarily unavailable"
                "External service error")
      else ReverseGeocode.mkResponse 500
             (ReverseGeocode.Failure "Failed to get address for coordinates"
                (if JS.truthy message then message
                 else "Unknown error occurred"))
  end.

End ReverseGeocoding.

(** Coordinates that pass the presence and the range tests. *)
Definition coordinatesOk (lat lng : Q) : Prop :=
  ~ lat == 0 /\ ~ lng == 0 /\ -90 <= lat <= 90 /\ -180 <= lng <= 180.


(* ================================================================== *)
(** ** The client: NewReportScreen, MyReportsScreen, AuthContext *)
(* ================================================================== *)

(** The state of the form of [NewReportScreen]. *)
Module Form.
Record location_t : Type := mkLocation
  { lat : Q;
    lng : Q;
    address : string }.

Record t : Type := mk
  { description : string;
    category : string;
    severity : string;
    images : list string;
    location : option location_t;
    useCurrentLocation : bool;
    manualAddress : string }.
End Form.

(** [n || 0] on a number. *)
Definition orZero (q : Q) : Q := if truthyNumber q then q else 0.

(** [handleManualAddressChange]: the state after the address field
    changed. *)
Definition handleManualAddressChange (f : Form.t) (address : string)
  : Form.t :=
  let location :=
    if JS.truthy (JS.trim address) && negb (Form.useCurrentLocation f)
    then
      Some (Form.mkLocation
              (match Form.location f with
               | Some prev => orZero (Form.lat prev)
               | None => 0
               end)
              (match Form.location f with
               | Some prev => orZero (Form.lng prev)
               | None => 0
               end)
              (JS.trim address))
    else Form.location f in
  Form.mk (Form.description f) (Form.category f) (Form.severity f)
    (Form.images f) location (Form.useCurrentLocation f) address.

(** The client's [reverseGeocode] on an [ok] answer with this address:
    the location of the form becomes the coordinates that were sent. *)
Definition setGeocodedLocation (f : Form.t) (lat lng : Q) (address : string)
  : Form.t :=
  Form.mk (Form.description f) (Form.category f) (Form.severity f)
    (Form.images f) (Some (Form.mkLocation lat lng address))
    (Form.useCurrentLocation f) (Form.manualAddress f).

(** [submitReport] of the screen: the alert it shows, or the body it
    posts to [/api/reports]. *)
Definition reportData (f : Form.t) : string + ReportBody.t :=
  if negb (JS.truthy (JS.trim (Form.description f)))
  then inl "Please provide a description of the issue"
  else if negb (JS.truthy (Form.category f))
  then inl "Please select a category"
  else if (length (Form.images f) =? 0)%nat
  then inl "Please add at least one image"
  else
    match Form.location f with
    | None => inl "Please provide a location"
    | Some location =>
        if negb (JS.truthy (JS.trim (Form.address location)))
        then inl "Please provide a location"
        else
          inr (ReportBody.mk
                 (Some (JS.trim (Form.description f)))
                 (Some (ReportBody.mkLocation
                          (Some (Coordinate.Number (Form.lat location)))
                          (Some (Coordinate.Number (Form.lng location)))
                          (Some (JS.trim (Form.address location)))))
                 (Some (ReportBody.Array (Form.images f)))
                 (Some (Form.category f))
                 (Some (Form.severity f)))
    end.

(** The pickers of the screen. *)
Definition pickerCategories : list string :=
  [ "Water & Supply Management";
    "Electricity";
    "Public Health & Safety";
    "Fire & Emergency Services";
    "Sanitation & Waste Management";
    "Roads & Infrastructure";
    "Public Transportation";
    "Parks & Environment";
    "General Issues" ].

Definition pickerSeverities : list string := ["Low"; "Medium"; "High"].

(** [MyReportsScreen]: the query of [fetchReports(page)], as the server
    reads it, and the page [loadMore] asks for. *)
Module MyReports.
Record filters_t : Type := mkFilters
  { status : string;
    category : string }.
End MyReports.

Definition fetchReportsQuery (filters : MyReports.filters_t) (page : Z)
  : ListQuery.t :=
  ListQuery.mk
    (if JS.truthy (MyReports.status filters)
     then Some (MyReports.status filters) else None)
    (if JS.truthy (MyReports.category filters)
     then Some (MyReports.category filters) else None)
    None
    (Some page)
    (Some 10%Z).

Definition loadMore (pagination : option Pagination) (loading : bool)
  : option Z :=
  match pagination with
  | Some p =>
      if hasNext p && negb loading then Some (currentPage p + 1)%Z else None
  | None => None
  end.

(** [AuthContext]: the state and the device storage. *)
Section AuthContext.

(** The user object, with [JSON.stringify] and [JSON.parse]. *)
Variable user_t : Type.
Variable stringify : user_t -> string.
Variable parse : string -> user_t.

Record AuthState : Type := mkAuthState
  { token : option string;
    user : option user_t }.

(** [AsyncStorage]: the items by key. *)
Definition Storage : Type := string -> option string.

Definition setItem (st : Storage) (key value : string) : Storage :=
  fun k => if String.eqb k key then Some value else st k.

Definition removeItem (st : Storage) (key : string) : Storage :=
  fun k => if String.eqb k key then None else st k.

Definition loggedOut : AuthState := mkAuthState None None.

(** [login(token, user)]. *)
Definition contextLogin (st : Storage) (t : string) (u : user_t)
  : AuthState * Storage :=
  (mkAuthState (Some t) (Some u),
   setItem (setItem st "token" t) "user" (stringify u)).

(** [logout()]. *)
Definition contextLogout (st : Storage) : AuthState * Storage :=
  (loggedOut, removeItem (removeItem st "token") "user").

(** [loadAuthData()], run when the provider mounts with the initial
    state. *)
Definition loadAuthData (st : Storage) : AuthState :=
  match st "token", st "user" with
  | Some t, Some u =>
      if JS.truthy t && JS.truthy u
      then mkAuthState (Some t) (Some (parse u))
      else loggedOut
  | _, _ => loggedOut
  end.

End AuthContext.

(* ------------------------------------------------------------------ *)
(** *** Sample data for the accounts, the geocoder and the client *)

Module Toy.

(** Stand-ins for bcrypt and jsonwebtoken: the hash is the password, the
    token is the identifier. *)
Definition hash (salt password : string) : string := password.
Definition compare (password hashed : string) : bool :=
  String.eqb password hashed.
Definition sign (id : string) (now : Z) : string := id.
Definition verify (token : string) (now : Z) : option string :=
  if Sample.isHex24 token then Some token else None.

Definition carolId : string := "64f000000000000000000004".

Definition carol : Credentials.t :=
  Credentials.mk (Some "Carol") (Some "carol@example.org") (Some "secret1").

Definition alice : Credentials.t :=
  Credentials.mk None (Some "alice@example.org") (Some "hash").

Definition stranger : Credentials.t :=
  Credentials.mk None (Some "nobody@example.org") (Some "hash").

(** A geocoder that knows one address, and one that is down. *)
Definition nominatim (lat lng : Q) : Nominatim.answer :=
  Nominatim.Json
    (Some (Nominatim.mkData (Some "MG Road, Pune, Maharashtra, India") None)).

Definition down (lat lng : Q) : Nominatim.answer := Nominatim.NotOk 503.

(** A filled form without a location, the address being typed by hand. *)
Definition manualForm : Form.t :=
  Form.mk "Street light broken" "Electricity" "High"
    ["https://res.cloudinary.com/demo/light.jpg"] None false "".

(** A filled form located by the device. *)
Definition locatedForm : Form.t :=
  Form.mk "  Street light broken " "Electricity" "High"
    ["https://res.cloudinary.com/demo/light.jpg"]
    (Some (Form.mkLocation (185 # 10) (735 # 10) "MG Road, Pune"))
    true "".

Definition noFilters : MyReports.filters_t := MyReports.mkFilters "" "".

End Toy.

(* ================================================================== *)
(** ** extractField *)
(* ================================================================== *)

(** The regular expression of [extractField],
    [new RegExp(fieldName + ":\\s*(.+?)(?=\\n[A-Z]|$)", "i")], for a field
    name of letters, matched as the engine matches it: at the leftmost
    position where the name and the colon stand (letters compared without
    case), [\s*] takes as much white space as it can and gives it back
    one character at a time, [(.+?)] takes as few characters as it can,
    none of them a line terminator, and the lookahead asks for the end of
    the text or a line feed followed by a letter. *)
Module Field.

(** [.] matches every character but a line terminator. *)
Definition isLineTerminator (c : ascii) : bool :=
  let n := nat_of_ascii c in (n =? 10)%nat || (n =? 13)%nat.

(** [[A-Z]] under the flag [i]. *)
Definition isLetter (c : ascii) : bool :=
  let n := nat_of_ascii c in
  ((65 <=? n)%nat && (n <=? 90)%nat) || ((97 <=? n)%nat && (n <=? 122)%nat).

(** The literal part of the pattern at the head of the text. *)
Fixpoint startsWithNoCase (text lit : string) {struct lit} : bool :=
  match lit, text with
  | EmptyString, _ => true
  | String _ _, EmptyString => false
  | String a lit', String b text' =>
      Ascii.eqb (JS.lowerChar a) (JS.lowerChar b)
      && startsWithNoCase text' lit'
  end.

Fixpoint drop (n : nat) (s : string) : string :=
  match n, s with
  | O, _ => s
  | S n', String _ s' => drop n' s'
  | S _, EmptyString => EmptyString
  end.

(** The lookahead [(?=\n[A-Z]|$)]. *)
Definition lookahead (rest : string) : bool :=
  match rest with
  | EmptyString => true
  | String c r =>
      (nat_of_ascii c =? 10)%nat
      && match r with
         | String d _ => isLetter d
         | EmptyString => false
         end
  end.

(** [(.+?)] before the lookahead: the shortest capture. *)
Fixpoint capture (rest : string) : option string :=
  match rest with
  | EmptyString => None
  | String c r =>
      if isLineTerminator c then None
      else if lookahead r then Some (String c EmptyString)
      else option_map (String c) (capture r)
  end.

(** [\s*] and what follows it. *)
Fixpoint afterColon (rest : string) : option string :=
  match rest with
  | EmptyString => capture rest
  | String c r =>
      if JS.isWhiteSpace c
      then match afterColon r with
           | Some found => Some found
           | None => capture rest
           end
      else capture rest
  end.

(** The match at the head of the text. *)
Definition matchHere (text lit : string) : option string :=
  if startsWithNoCase text lit
  then afterColon (drop (String.length lit) text)
  else None.

(** [text.match(regex)]: the first group of the leftmost match. *)
Fixpoint search (text lit : string) : option string :=
  match matchHere text lit with
  | Some found => Some found
  | None =>
      match text with
      | EmptyString => None
      | String _ text' => search text' lit
      end
  end.

(** No match begins inside [pre], whatever follows it. *)
Fixpoint noStartIn (pre tail lit : string) : bool :=
  match pre with
  | EmptyString => true
  | String _ pre' =>
      negb (startsWithNoCase (pre ++ tail) lit) && noStartIn pre' tail lit
  end.

(** A line: no line terminator in it. *)
Fixpoint singleLine (s : string) : bool :=
  match s with
  | EmptyString => true
  | String c s' => negb (isLineTerminator c) && singleLine s'
  end.

(** White space only. *)
Fixpoint allWhite (s : string) : bool :=
  match s with
  | EmptyString => true
  | String c s' => JS.isWhiteSpace c && allWhite s'
  end.

(** No colon in it. *)
Fixpoint noColon (s : string) : bool :=
  match s with
  | EmptyString => true
  | String c s' => negb (Ascii.eqb c ":") && noColon s'
  end.

(** Letters only. *)
Fixpoint allLetters (s : string) : bool :=
  match s with
  | EmptyString => true
  | String c s' => isLetter c && allLetters s'
  end.

(** A value of a field: on one line, without a colon, not empty and not
    beginning with white space. *)
Definition isValue (s : string) : bool :=
  singleLine s && noColon s
  && match s with
     | EmptyString => false
     | String c _ => negb (JS.isWhiteSpace c)
     end.

(** Not empty, and not beginning with white space. *)
Definition startsNonWhite (s : string) : bool :=
  match s with
  | EmptyString => false
  | String c _ => negb (JS.isWhiteSpace c)
  end.

End Field.

(** [extractField], for a field name of letters: in another name the
    characters that a regular expression reads as operators would not
    stand for themselves. *)
Definition extractField (text fieldName : string) : string :=
  match Field.search text (fieldName ++ ":") with
  | Some found => JS.trim found
  | None => ""
  end.

(** The answer of the handler to the text of the model. *)
Definition describeText (aiResponse : string) : Describe.response :=
  Describe.structure (extractField aiResponse "Description")
    (extractField aiResponse "Category")
    (extractField aiResponse "Severity").

(** A line feed. *)
Definition LF : string := String (ascii_of_nat 10) EmptyString.

(** A text in the format the prompt asks for. *)
Definition formatted (description category severity action : string)
  : string :=
  "Description: " ++ description ++ LF
  ++ "Category: " ++ category ++ LF
  ++ "Severity: " ++ severity ++ LF
  ++ "ActionRequired: " ++ action.

(* ================================================================== *)
(** ** The routes of the reports, and HomeScreen *)
(* ================================================================== *)

(** The route of the reports that Express selects for the path of a GET
    request, among [app.get("/api/reports", ...)] and
    [app.get("/api/reports/:id", ...)]: the literal segments are matched
    without case, a trailing slash is allowed, and [:id] is one segment
    that is not empty.  Paths are taken without percent-encoding and
    without query string. *)
Inductive ReportRoute : Type :=
| ListRoute
| DetailRoute (id : string).

Definition segmentIs (segment literal : string) : bool :=
  String.eqb (JS.toLowerCase segment) literal.

Definition reportRoute (path : string) : option ReportRoute :=
  match split "/" path with
  | root :: api :: reports :: rest =>
      if String.eqb root "" && segmentIs api "api"
         && segmentIs reports "reports"
      then match rest with
           | [] => Some ListRoute
           | [id] => if JS.truthy id then Some (DetailRoute id)
                     else Some ListRoute
           | [id; last] =>
               if JS.truthy id && negb (JS.truthy last)
               then Some (DetailRoute id) else None
           | _ => None
           end
      else None
  | _ => None
  end.

(** The path [HomeScreen] fetches its recent reports from. *)
Definition recentReportsPath : string := "/api/reports/recent".

Section Routing.

Variable isValid : string -> bool.
Variable castsToObjectId : string -> bool.

(** A GET request on the routes of the reports, behind [auth]. *)
Definition getReportRoute (db : Store) (now : Z) (reqUserId path : string)
    (q : ListQuery.t) : option Response :=
  match reportRoute path with
  | Some ListRoute => Some (getReports castsToObjectId db reqUserId q)
  | Some (DetailRoute id) => Some (getReportById isValid db now reqUserId id)
  | None => None
  end.

End Routing.

(* ================================================================== *)
(** ** Strings: facts about the primitives *)
(* ================================================================== *)

Section StringFacts.

Lemma startsWith_app (p b : string) : JS.startsWith (p ++ b) p = true.
Proof.
  induction p as [|a p IH]; simpl.
  - reflexivity.
  - now rewrite Ascii.eqb_refl, IH.
Qed.

Lemma startsWith_inv (p : string) :
  forall s, JS.startsWith s p = true -> exists b, s = p ++ b.
Proof.
  induction p as [|a p IH]; intros s H.
  - exists s. reflexivity.
  - destruct s as [|c s]; simpl in H; [discriminate|].
    apply andb_true_iff in H. destruct H as [Hc Hs].
    apply Ascii.eqb_eq in Hc. subst c.
    destruct (IH _ Hs) as [b ->]. exists b. reflexivity.
Qed.

Lemma startsWith_includes (s sub : string) :
  JS.startsWith s sub = true -> JS.includes s sub = true.
Proof. destruct s; simpl; intros ->; reflexivity. Qed.

Lemma includes_Substring (s sub : string) :
  JS.includes s sub = true <-> JS.Substring sub s.
Proof.
  split.
  - induction s as [|c s IH]; simpl; intros H.
    + destruct (startsWith_inv _ _ H) as [b Hb].
      exists EmptyString, b. exact Hb.
    + apply orb_true_iff in H. destruct H as [H|H].
      * destruct (startsWith_inv _ _ H) as [b Hb].
        exists EmptyString, b. exact Hb.
      * destruct (IH H) as (a & b & ->).
        exists (String c a), b. reflexivity.
  - intros (a & b & ->). induction a as [|c a IH]; simpl.
    + apply startsWith_includes, startsWith_app.
    + rewrite IH. apply orb_true_r.
Qed.

Lemma lowerChar_upperChar (c : ascii) :
  JS.lowerChar (JS.upperChar c) = JS.lowerChar c.
Proof. destruct c as [[] [] [] [] [] [] [] []]; reflexivity. Qed.

Lemma lowerChar_idem (c : ascii) :
  JS.lowerChar (JS.lowerChar c) = JS.lowerChar c.
Proof. destruct c as [[] [] [] [] [] [] [] []]; reflexivity. Qed.

Lemma toLowerCase_toUpperCase (s : string) :
  JS.toLowerCase (JS.toUpperCase s) = JS.toLowerCase s.
Proof.
  induction s as [|c s IH]; simpl; [reflexivity|].
  now rewrite lowerChar_upperChar, IH.
Qed.

Lemma toLowerCase_idem (s : string) :
  JS.toLowerCase (JS.toLowerCase s) = JS.toLowerCase s.
Proof.
  induction s as [|c s IH]; simpl; [reflexivity|].
  now rewrite lowerChar_idem, IH.
Qed.

Lemma arrayIncludes_In (l : list string) (x : string) :
  JS.arrayIncludes l x = true <-> In x l.
Proof.
  unfold JS.arrayIncludes. rewrite existsb_exists. split.
  - intros (y & Hy & E). apply String.eqb_eq in E. now subst.
  - intros H. exists x. split; [exact H | apply String.eqb_refl].
Qed.

Lemma arrayIncludes_not_In (l : list string) (x : string) :
  JS.arrayIncludes l x = false <-> ~ In x l.
Proof.
  rewrite <- arrayIncludes_In. destruct (JS.arrayIncludes l x); split;
    congruence.
Qed.

Lemma truthy_nonempty (s : string) : JS.truthy s = true <-> s <> "".
Proof. destruct s; simpl; split; congruence. Qed.

End StringFacts.

(* ================================================================== *)
(** ** The classifier: theorems *)
(* ================================================================== *)

Section Classifier.

Lemma someKeyword_KeywordMatch (description : string) (keywords : list string) :
  someKeyword (JS.toLowerCase description) keywords = true
  <-> KeywordMatch description keywords.
Proof.
  unfold someKeyword, KeywordMatch. rewrite existsb_exists.
  split; intros (k & Hk & H); exists k; split; trivial;
    now apply includes_Substring.
Qed.

Lemma categorizeLoop_first (lowerDesc : string) :
  forall pre category keywords post,
    (forall c ks, In (c, ks) pre -> someKeyword lowerDesc ks = false) ->
    someKeyword lowerDesc keywords = true ->
    categorizeLoop lowerDesc (pre ++ (category, keywords) :: post)%list = category.
Proof.
  induction pre as [|[c ks] pre IH]; intros category keywords post Hpre Hk;
    simpl.
  - now rewrite Hk.
  - rewrite (Hpre c ks (or_introl eq_refl)).
    apply IH; [|exact Hk]. intros c' ks' Hin. apply (Hpre c' ks').
    now right.
Qed.

Lemma categorizeLoop_none (lowerDesc : string) :
  forall entries,
    (forall c ks, In (c, ks) entries -> someKeyword lowerDesc ks = false) ->
    categorizeLoop lowerDesc entries = "General Issues".
Proof.
  induction entries as [|[c ks] rest IH]; intros H; simpl.
  - reflexivity.
  - rewrite (H c ks (or_introl eq_refl)). apply IH.
    intros c' ks' Hin. apply (H c' ks'). now right.
Qed.

Lemma not_KeywordMatch (description : string) (ks : list string) :
  ~ KeywordMatch description ks ->
  someKeyword (JS.toLowerCase description) ks = false.
Proof.
  intros H. destruct (someKeyword _ ks) eqn:E; [|reflexivity].
  exfalso. apply H. now apply someKeyword_KeywordMatch.
Qed.

(** C4. [categorizeIssue] lower-cases the description and returns the
    first category, in the declaration order of [CIVIC_CATEGORIES],
    one of whose keywords is a substring of the lower-cased description;
    it returns "General Issues" when no keyword of any category occurs;
    the answer does not depend on the case of the description; and a
    description with the keywords "pothole" and "fire" resolves to
    "Fire & Emergency Services", which is declared before
    "Roads & Infrastructure". *)
Theorem categorizeIssue_first_match (description : string) :
  (forall pre category keywords post,
      CIVIC_CATEGORIES = (pre ++ (category, keywords) :: post)%list ->
      (forall c ks, In (c, ks) pre -> ~ KeywordMatch description ks) ->
      KeywordMatch description keywords ->
      categorizeIssue description = category)
  /\ ((forall c ks, In (c, ks) CIVIC_CATEGORIES ->
                    ~ KeywordMatch description ks) ->
      categorizeIssue description = "General Issues")
  /\ categorizeIssue (JS.toUpperCase description)
     = categorizeIssue description
  /\ categorizeIssue (JS.toLowerCase description)
     = categorizeIssue description
  /\ categorizeIssue "Deep POTHOLE, and a Fire next to it"
     = "Fire & Emergency Services"
  /\ categorizeIssue "a fire next to a pothole"
     = categorizeIssue "a pothole next to a fire"
  /\ categorizeIssue "xyz" = "General Issues".
Proof.
  repeat split.
  - intros pre category keywords post E Hpre Hk.
    unfold categorizeIssue. rewrite E.
    apply categorizeLoop_first.
    + intros c ks Hin. apply not_KeywordMatch. now apply (Hpre c ks).
    + now apply someKeyword_KeywordMatch.
  - intros H. unfold categorizeIssue. apply categorizeLoop_none.
    intros c ks Hin. apply not_KeywordMatch. now apply (H c ks).
  - unfold categorizeIssue. now rewrite toLowerCase_toUpperCase.
  - unfold categorizeIssue. now rewrite toLowerCase_idem.
Qed.

(** The same at the level of the table: the answer is a declared
    category whose keywords match and before which none matches, or
    the default. *)
Lemma categorizeIssue_cases (description : string) :
  (exists pre category keywords post,
      CIVIC_CATEGORIES = (pre ++ (category, keywords) :: post)%list
      /\ (forall c ks, In (c, ks) pre -> ~ KeywordMatch description ks)
      /\ KeywordMatch description keywords
      /\ categorizeIssue description = category)
  \/ ((forall c ks, In (c, ks) CIVIC_CATEGORIES ->
                    ~ KeywordMatch description ks)
      /\ categorizeIssue description = "General Issues").
Proof.
  unfold categorizeIssue.
  set (d := JS.toLowerCase description).
  assert (G : forall entries,
    (exists pre category keywords post,
        entries = (pre ++ (category, keywords) :: post)%list
        /\ (forall c ks, In (c, ks) pre -> someKeyword d ks = false)
        /\ someKeyword d keywords = true
        /\ categorizeLoop d entries = category)
    \/ ((forall c ks, In (c, ks) entries -> someKeyword d ks = false)
        /\ categorizeLoop d entries = "General Issues")).
  { induction entries as [|[c ks] rest IH].
    - right. split; [intros ? ? []| reflexivity].
    - simpl. destruct (someKeyword d ks) eqn:E.
      + left. exists [], c, ks, rest. repeat split; trivial.
        intros ? ? [].
      + destruct IH as [(pre & c' & ks' & post & -> & Hpre & Hk & R)|[Hn R]].
        * left. exists ((c, ks) :: pre), c', ks', post.
          repeat split; trivial.
          intros c0 ks0 [H|H]; [inversion H; now subst | eauto].
        * right. split; trivial.
          intros c0 ks0 [H|H]; [inversion H; now subst | eauto]. }
  destruct (G CIVIC_CATEGORIES)
    as [(pre & c & ks & post & E & Hpre & Hk & R)|[Hn R]].
  - left. exists pre, c, ks, post. repeat split; trivial.
    + intros c0 ks0 Hin HM. apply someKeyword_KeywordMatch in HM.
      fold d in HM. rewrite (Hpre c0 ks0 Hin) in HM. discriminate.
    + now apply someKeyword_KeywordMatch.
  - right. split; trivial.
    intros c0 ks0 Hin HM. apply someKeyword_KeywordMatch in HM.
    fold d in HM. rewrite (Hn c0 ks0 Hin) in HM. discriminate.
Qed.

End Classifier.

Section Severity.

Lemma validSeverities_In (s : string) :
  In s validSeverities <-> s = "Low" \/ s = "Medium" \/ s = "High".
Proof.
  unfold validSeverities. simpl. split.
  - intros [H|[H|[H|[]]]]; auto.
  - intros [H|[H|H]]; auto.
Qed.

(** C6. Severity validation is an exact, case-sensitive match: the label
    is returned unchanged iff it is one of "Low", "Medium", "High"; the
    trimmed label is returned iff the trimmed label is one of the three;
    every other input gives "Medium", among them the empty string,
    "urgent" and the case variants "high" and "HIGH". *)
Theorem finalSeverity_exact_match (severity : string) :
  (finalSeverity severity = severity
   <-> severity = "Low" \/ severity = "Medium" \/ severity = "High")
  /\ (finalSeverity severity = JS.trim severity
      <-> JS.trim severity = "Low" \/ JS.trim severity = "Medium"
          \/ JS.trim severity = "High")
  /\ (~ (JS.trim severity = "Low" \/ JS.trim severity = "Medium"
         \/ JS.trim severity = "High") ->
      finalSeverity severity = "Medium")
  /\ finalSeverity "High" = "High"
  /\ finalSeverity "urgent" = "Medium"
  /\ finalSeverity "high" = "Medium"
  /\ finalSeverity "HIGH" = "Medium"
  /\ finalSeverity "" = "Medium".
Proof.
  assert (T : forall s, In (JS.trim s) validSeverities ->
                        finalSeverity s = JS.trim s).
  { intros s H. unfold finalSeverity.
    apply arrayIncludes_In in H. now rewrite H. }
  assert (F : forall s, ~ In (JS.trim s) validSeverities ->
                        finalSeverity s = "Medium").
  { intros s H. unfold finalSeverity.
    apply arrayIncludes_not_In in H. now rewrite H. }
  assert (D : forall s, In s validSeverities \/ ~ In s validSeverities).
  { intros s. destruct (JS.arrayIncludes validSeverities s) eqn:E.
    - left. now apply arrayIncludes_In.
    - right. now apply arrayIncludes_not_In. }
  split; [|split; [|split; [|repeat split]]].
  - split.
    + intros E. destruct (D (JS.trim severity)) as [H|H].
      * rewrite (T _ H) in E. rewrite E in H.
        now apply validSeverities_In.
      * rewrite (F _ H) in E. subst severity. auto.
    + intros [-> | [-> | ->]]; reflexivity.
  - split.
    + intros E. destruct (D (JS.trim severity)) as [H|H].
      * now apply validSeverities_In.
      * rewrite (F _ H) in E. rewrite <- E. auto.
    + intros H. apply T. now apply validSeverities_In.
  - intros H. apply F. intros Hin. apply H. now apply validSeverities_In.
Qed.

End Severity.

(* ================================================================== *)
(** ** POST /api/reports: theorems *)
(* ================================================================== *)

Section Submission.

Lemma Qltb_lt (a b : Q) : Qltb a b = true <-> a < b.
Proof.
  unfold Qltb. rewrite negb_true_iff. split.
  - intros H. apply Qnot_le_lt. intros L.
    apply Qle_bool_iff in L. congruence.
  - intros H. destruct (Qle_bool b a) eqn:E; [|reflexivity].
    apply Qle_bool_iff in E. exfalso. exact (Qlt_not_le _ _ H E).
Qed.

Lemma Qgtb_lt (a b : Q) : Qgtb a b = true <-> b < a.
Proof. unfold Qgtb. exact (Qltb_lt b a). Qed.

Lemma Qltb_false (a b : Q) : Qltb a b = false <-> b <= a.
Proof.
  unfold Qltb. rewrite negb_false_iff. apply Qle_bool_iff.
Qed.

Lemma Qgtb_false (a b : Q) : Qgtb a b = false <-> a <= b.
Proof. unfold Qgtb. exact (Qltb_false b a). Qed.

Lemma truthyNumber_nonzero (q : Q) : truthyNumber q = true <-> ~ q == 0.
Proof.
  unfold truthyNumber. rewrite negb_true_iff. split.
  - intros H E. apply Qeq_bool_iff in E. congruence.
  - intros H. destruct (Qeq_bool q 0) eqn:E; [|reflexivity].
    apply Qeq_bool_iff in E. contradiction.
Qed.

Lemma truthyNumber_zero (q : Q) : q == 0 -> truthyNumber q = false.
Proof.
  intros E. unfold truthyNumber. apply Qeq_bool_iff in E. now rewrite E.
Qed.

Lemma outOfRange_iff (x lo hi : Q) :
  Qltb x lo || Qgtb x hi = true <-> x < lo \/ hi < x.
Proof.
  rewrite orb_true_iff, Qltb_lt, Qgtb_lt. reflexivity.
Qed.

Lemma inRange_iff (x lo hi : Q) :
  Qltb x lo || Qgtb x hi = false <-> lo <= x /\ x <= hi.
Proof.
  rewrite orb_false_iff, Qltb_false, Qgtb_false. reflexivity.
Qed.

(** On a number the three operations of the handler are the number's
    own. *)
Lemma outOfRange_Number (q lo hi : Q) :
  outOfRange (Coordinate.Number q) lo hi = Qltb q lo || Qgtb q hi.
Proof. reflexivity. Qed.

Lemma castNumber_Next (n : JsNumber) (path : string) (q : Q) :
  castNumber n path = Next q <-> n = Finite q.
Proof.
  destruct n; simpl; split; intros H; inversion H; reflexivity.
Qed.

Lemma check_bind (ok : bool) (path : string) (k : Step unit) :
  (check ok path ;;; k) = Next tt -> ok = true /\ k = Next tt.
Proof. destruct ok; simpl; intros H; [auto | discriminate]. Qed.

(** What a document that passes the validators satisfies. *)
Lemma validate_Next (d : Report.t) :
  validate d = Next tt ->
  In (Report.category d) categoryEnum
  /\ In (Report.severity d) severityEnum
  /\ In (Report.status d) statusEnum
  /\ -90 <= Location.lat (Report.location d) <= 90
  /\ -180 <= Location.lng (Report.location d) <= 180
  /\ Report.description d <> ""
  /\ Location.address (Report.location d) <> "".
Proof.
  unfold validate. intros H.
  repeat (apply check_bind in H; let E := fresh "E" in destruct H as [E H]).
  unfold check in H.
  destruct (JS.arrayIncludes severityEnum (Report.severity d)) eqn:Es;
    [|discriminate].
  apply andb_true_iff in E1, E2, E5.
  destruct E1 as [L1 L2], E2 as [G1 G2], E5 as [_ C].
  rewrite Qle_bool_iff in L1, L2, G1, G2.
  repeat split; trivial;
    try (now apply arrayIncludes_In); now apply truthy_nonempty.
Qed.

Lemma check_bind_Respond (ok : bool) (path : string) (k : Step unit)
    (r : Response) :
  (check ok path ;;; k) = Respond r -> k = Respond r.
Proof. destruct ok; simpl; intros H; [auto | discriminate]. Qed.

(** The validators throw; they never answer the request themselves. *)
Lemma validate_not_Respond (d : Report.t) (r : Response) :
  validate d <> Respond r.
Proof.
  unfold validate. intros H.
  repeat apply check_bind_Respond in H.
  unfold check in H.
  destruct (JS.arrayIncludes severityEnum (Report.severity d));
    discriminate.
Qed.

Lemma find_snoc {A : Type} (f : A -> bool) (l : list A) (x : A) :
  find f l = None -> f x = true -> find f (l ++ [x])%list = Some x.
Proof.
  induction l as [|y l IH]; simpl; intros Hn Hx.
  - now rewrite Hx.
  - destruct (f y); [discriminate | auto].
Qed.

(** The outcomes of the [try] block: a created report, one of the six
    validation responses, or an exception. *)
Lemma submitReport_outcome (db : Store) (now : Z) (newId userId : string)
    (b : ReportBody.t) :
  match submitReport db now newId userId b with
  | Next (r, db') =>
      exists description loc imgs category vlat vlng lat lng address,
        ReportBody.description b = Some description
        /\ ReportBody.location b = Some loc
        /\ ReportBody.images b = Some (ReportBody.Array imgs)
        /\ ReportBody.category b = Some category
        /\ ReportBody.lat loc = Some vlat
        /\ ReportBody.lng loc = Some vlng
        /\ ReportBody.address loc = Some address
        /\ Coordinate.truthy vlat = true
        /\ Coordinate.truthy vlng = true
        /\ outOfRange vlat (-90) 90 = false
        /\ outOfRange vlng (-180) 180 = false
        /\ Coordinate.parseFloat vlat = Finite lat
        /\ Coordinate.parseFloat vlng = Finite lng
        /\ let d := newReport now newId userId description lat lng address
                      imgs category (ReportBody.severity b) in
           validate d = Next tt
           /\ findReportById db newId = None
           /\ db' = mkStore (users db) (reports db ++ [d])%list
           /\ r = mkResponse 201
                    (Created "Report submitted successfully"
                       (Some (populate false db' d)))
  | Respond r =>
      In r [missingFields; missingLocation; missingImage; badLatitude;
            badLongitude; badCategory]
  | Throw _ => True
  end.
Proof.
  unfold submitReport.
  remember (JS.arrayIncludes validCategories) as known.
  destruct b as [description location images category severity].
  cbv [ReportBody.description ReportBody.location ReportBody.images
       ReportBody.category ReportBody.severity].
  destruct description as [description|]; simpl; [|auto].
  destruct (JS.truthy description); simpl; [|auto].
  destruct location as [[lat lng address]|]; simpl; [|auto].
  destruct images as [[s|imgs]|]; simpl; [| |auto].
  { destruct (JS.truthy s); simpl; [|auto].
    destruct category as [category|]; simpl; [|auto].
    destruct (JS.truthy category); simpl; [|auto].
    destruct lat as [lat|]; simpl; [|auto].
    destruct (Coordinate.truthy lat); simpl; [|auto].
    destruct lng as [lng|]; simpl; [|auto].
    destruct (Coordinate.truthy lng); simpl; [|auto].
    destruct address as [address|]; simpl; [|auto].
    destruct (JS.truthy address); simpl; auto. }
  destruct category as [category|]; simpl; [|auto].
  destruct (JS.truthy category); simpl; [|auto].
  destruct lat as [lat|]; simpl; [|auto].
  destruct (Coordinate.truthy lat) eqn:Tlat; simpl; [|auto].
  destruct lng as [lng|]; simpl; [|auto].
  destruct (Coordinate.truthy lng) eqn:Tlng; simpl; [|auto].
  destruct address as [address|]; simpl; [|auto].
  destruct (JS.truthy address); simpl; [|auto].
  destruct imgs as [|i imgs]; simpl; [auto|].
  destruct (outOfRange lat (-90) 90) eqn:Rlat; simpl; [auto|].
  destruct (outOfRange lng (-180) 180) eqn:Rlng; simpl; [auto 6|].
  destruct (known category); simpl; [|auto 7].
  destruct (Coordinate.parseFloat lat) as [qlat| |nlat] eqn:Plat; simpl;
    trivial.
  destruct (Coordinate.parseFloat lng) as [qlng| |nlng] eqn:Plng; simpl;
    trivial.
  unfold save.
  match goal with |- context [validate ?d] =>
    destruct (validate d) as [[]| |] eqn:V; simpl; trivial;
      [|now apply validate_not_Respond in V] end.
  destruct (findReportById db newId) eqn:F; simpl; trivial.
  exists description,
    (ReportBody.mkLocation (Some lat) (Some lng) (Some address)),
    (i :: imgs), category, lat, lng, qlat, qlng, address.
  simpl. repeat split; trivial.
  unfold findReportById. simpl.
  rewrite find_snoc; trivial. apply String.eqb_refl.
Qed.

End Submission.

Section SubmissionTheorems.

Variables (db : Store) (now : Z) (newId userId : string).

(** A request either creates exactly one validated report and answers
    201, or leaves the store as it was and answers 400 or 500.  The
    stored coordinates are what [parseFloat] read in the coordinates of
    the body. *)
Lemma postReports_cases (b : ReportBody.t) :
  (exists description lat lng address imgs category,
      let d := newReport now newId userId description lat lng address imgs
                 category (ReportBody.severity b) in
      let db' := mkStore (users db) (reports db ++ [d])%list in
      postReports db now newId userId b
      = (mkResponse 201
           (Created "Report submitted successfully"
              (Some (populate false db' d))), db')
      /\ validate d = Next tt
      /\ findReportById db newId = None
      /\ findReportById db' newId = Some d
      /\ exists loc vlat vlng,
          ReportBody.location b = Some loc
          /\ ReportBody.lat loc = Some vlat
          /\ ReportBody.lng loc = Some vlng
          /\ Coordinate.truthy vlat = true
          /\ Coordinate.truthy vlng = true
          /\ Coordinate.parseFloat vlat = Finite lat
          /\ Coordinate.parseFloat vlng = Finite lng)
  \/ (snd (postReports db now newId userId b) = db
      /\ (code (fst (postReports db now newId userId b)) = 400%Z
          \/ code (fst (postReports db now newId userId b)) = 500%Z)).
Proof.
  unfold postReports.
  pose proof (submitReport_outcome db now newId userId b) as H.
  destruct (submitReport db now newId userId b) as [[r db']|r|e].
  - left.
    destruct H as (description & loc & imgs & category & vlat & vlng & lat
                   & lng & address & _ & El & _ & _ & Elat & Elng & _ & Tlat
                   & Tlng & _ & _ & Plat & Plng & H).
    cbv zeta in H. destruct H as (V & F & -> & ->).
    exists description, lat, lng, address, imgs, category.
    cbv zeta. repeat split; trivial.
    + unfold findReportById. simpl.
      apply find_snoc; [exact F | apply String.eqb_refl].
    + exists loc, vlat, vlng. repeat split; assumption.
  - right. split; [reflexivity|]. left. simpl in H.
    destruct H as [<-|[<-|[<-|[<-|[<-|[<-|[]]]]]]]; reflexivity.
  - right. split; [reflexivity|]. right. reflexivity.
Qed.

(** C3. A successful submission creates a report whose status history
    has exactly one entry, with status "Submitted", actor "system" and
    comment "Report submitted by user", and whose status is
    "Submitted", the status of its most recent history entry; this
    report is the one stored and the one returned. *)
Theorem submission_seeds_history (b : ReportBody.t) (r : Response)
    (db' : Store) :
  postReports db now newId userId b = (r, db') ->
  code r = 201%Z ->
  exists d,
    reports db' = (reports db ++ [d])%list
    /\ findReportById db' newId = Some d
    /\ body r = Created "Report submitted successfully"
                  (Some (populate false db' d))
    /\ Report.statusHistory d
       = [StatusEntry.mk "Submitted" now "system"
            (Some "Report submitted by user")]
    /\ length (Report.statusHistory d) = 1%nat
    /\ Report.status d = "Submitted"
    /\ last (map StatusEntry.status (Report.statusHistory d)) ""
       = Report.status d.
Proof.
  intros E C.
  destruct (postReports_cases b)
    as [(description & lat & lng & address & imgs & category & H)|[_ H]].
  - cbv zeta in H. destruct H as (P & _ & _ & F & _).
    rewrite P in E. inversion E; subst r db'; clear E.
    eexists. repeat split; try reflexivity. exact F.
  - rewrite E in H. simpl in H. rewrite C in H.
    destruct H; discriminate.
Qed.

(** C5. Every report that [POST /api/reports] persists carries a
    category of the nine-value enum and a severity among "Low",
    "Medium", "High": the request adds at most one report, which
    passed the schema's validators; validity of the stored reports is
    preserved; and a non-empty severity outside the enum is never
    passed through: the store is unchanged and the answer is not
    201. *)
Theorem persisted_reports_classified (b : ReportBody.t) :
  (reports (snd (postReports db now newId userId b)) = reports db
   \/ exists d,
       reports (snd (postReports db now newId userId b))
       = (reports db ++ [d])%list
       /\ validClassification d)
  /\ (Forall validClassification (reports db) ->
      Forall validClassification
        (reports (snd (postReports db now newId userId b))))
  /\ (forall s,
         ReportBody.severity b = Some s -> s <> "" ->
         ~ In s severityEnum ->
         snd (postReports db now newId userId b) = db
         /\ code (fst (postReports db now newId userId b)) <> 201%Z).
Proof.
  destruct (postReports_cases b)
    as [(description & lat & lng & address & imgs & category & H)|[S C]].
  - cbv zeta in H. destruct H as (P & V & _).
    apply validate_Next in V. destruct V as (Vc & Vs & _).
    rewrite P. simpl. split; [|split].
    + right. eexists. split; [reflexivity|]. split; assumption.
    + intros Hdb. apply Forall_app. split; [exact Hdb|].
      constructor; [split; assumption | constructor].
    + intros s Es Hne Hs. exfalso. apply Hs.
      simpl in Vs. rewrite Es in Vs. simpl in Vs.
      apply truthy_nonempty in Hne. rewrite Hne in Vs. exact Vs.
  - rewrite S. split; [|split].
    + left. reflexivity.
    + trivial.
    + intros s _ _ _. split; [reflexivity|].
      destruct C as [C|C]; rewrite C; discriminate.
Qed.

(** A submission by a registered user keeps every report owned by a
    registered user. *)
Lemma postReports_ownersRegistered (b : ReportBody.t) :
  ownersRegistered db ->
  findUserById db userId <> None ->
  ownersRegistered (snd (postReports db now newId userId b)).
Proof.
  intros Hdb Hu.
  destruct (postReports_cases b)
    as [(description & lat & lng & address & imgs & category & H)|[S _]].
  - cbv zeta in H. destruct H as (P & _). rewrite P. simpl.
    unfold ownersRegistered in *. simpl.
    apply Forall_app. split; [exact Hdb|].
    constructor; [exact Hu | constructor].
  - now rewrite S.
Qed.

End SubmissionTheorems.

Section Coordinates.

Variables (db : Store) (now : Z) (newId userId : string).

(** Behind the presence checks the handler tests the latitude, then the
    longitude; what follows answers "Invalid category", 201, or throws. *)
Lemma submitReport_coordinates (b : ReportBody.t) (lat lng : Q) :
  reachesCoordinateCheck b lat lng ->
  exists rest : Step (Response * Store),
    submitReport db now newId userId b
    = (returnIf (Qltb lat (-90) || Qgtb lat 90) badLatitude ;;;
       returnIf (Qltb lng (-180) || Qgtb lng 180) badLongitude ;;;
       rest)
    /\ (forall r, rest = Respond r -> r = badCategory)
    /\ (forall r db', rest = Next (r, db') -> code r = 201%Z).
Proof.
  intros (description & loc & imgs & category & address & Ed & Td & El
          & Ei & Hi & Ec & Tc & Elat & Hlat & Elng & Hlng & Ea & Ta).
  apply truthyNumber_nonzero in Hlat, Hlng.
  unfold submitReport.
  remember (JS.arrayIncludes validCategories) as known.
  rewrite Ed, El, Ei, Ec. simpl. rewrite Td, Tc. simpl.
  rewrite Elat, Elng, Ea. simpl. rewrite Hlat, Hlng, Ta. simpl.
  destruct imgs as [|i imgs]; [contradiction|]. simpl.
  eexists. split; [reflexivity|]. split.
  - intros r. destruct (known category); simpl.
    + unfold save.
      match goal with |- context [validate ?d] =>
        destruct (validate d) as [[]| |] eqn:V; simpl; try discriminate end.
      * destruct (findReportById db newId); simpl; discriminate.
      * now apply validate_not_Respond in V.
    + intros H. inversion H. reflexivity.
  - intros r db'. destruct (known category); simpl; [|discriminate].
    unfold save.
    match goal with |- context [validate ?d] =>
      destruct (validate d) as [[]| |] eqn:V; simpl; try discriminate end.
    destruct (findReportById db newId); simpl; [discriminate|].
    intros H. inversion H. reflexivity.
Qed.

(** C9. The coordinate check of a submission is inclusive at its
    bounds: a latitude below -90 or above 90 is answered 400 "Latitude
    must be between -90 and 90", a longitude below -180 or above 180 is
    answered 400 "Longitude must be between -180 and 180", nothing being
    stored; coordinates within the bounds, the bounds included, are not
    rejected by the check.  Latitude 90 and longitude -180 are accepted
    (201), latitude 90.0001 and longitude -180.5 are rejected. *)
Theorem coordinate_range_inclusive (b : ReportBody.t) (lat lng : Q) :
  reachesCoordinateCheck b lat lng ->
  ((lat < -90 \/ 90 < lat) ->
   postReports db now newId userId b = (badLatitude, db))
  /\ (-90 <= lat <= 90 -> (lng < -180 \/ 180 < lng) ->
      postReports db now newId userId b = (badLongitude, db))
  /\ (-90 <= lat <= 90 -> -180 <= lng <= 180 ->
      fst (postReports db now newId userId b) <> badLatitude
      /\ fst (postReports db now newId userId b) <> badLongitude)
  /\ code badLatitude = 400%Z /\ code badLongitude = 400%Z
  /\ code (fst (postReports Sample.db 1000 Sample.freshId
                  (User._id Sample.alice)
                  (Sample.bodyAt 90 (735 # 10) None))) = 201%Z
  /\ postReports Sample.db 1000 Sample.freshId (User._id Sample.alice)
       (Sample.bodyAt (900001 # 10000) (735 # 10) None)
     = (badLatitude, Sample.db)
  /\ code (fst (postReports Sample.db 1000 Sample.freshId
                  (User._id Sample.alice)
                  (Sample.bodyAt (185 # 10) (-180) None))) = 201%Z
  /\ postReports Sample.db 1000 Sample.freshId (User._id Sample.alice)
       (Sample.bodyAt (185 # 10) (-1805 # 10) None)
     = (badLongitude, Sample.db).
Proof.
  intros R.
  destruct (submitReport_coordinates b lat lng R) as (rest & E & HR & HN).
  unfold postReports. rewrite E.
  split; [|split; [|split; [|repeat split]]].
  - intros H. apply outOfRange_iff in H. rewrite H. reflexivity.
  - intros Hlat H. apply inRange_iff in Hlat. apply outOfRange_iff in H.
    rewrite Hlat, H. reflexivity.
  - intros Hlat Hlng. apply inRange_iff in Hlat, Hlng.
    rewrite Hlat, Hlng. simpl.
    destruct rest as [[r db']|r|e]; simpl.
    + specialize (HN r db' eq_refl).
      split; intros ->; discriminate.
    + rewrite (HR r eq_refl). split; discriminate.
    + split; discriminate.
Qed.

(** With a zero coordinate the handler stops at one of its two presence
    checks. *)
Lemma submitReport_zero (b : ReportBody.t) :
  zeroCoordinate b ->
  (submitReport db now newId userId b = Respond missingFields
   /\ ~ requiredFieldsPresent b)
  \/ (submitReport db now newId userId b = Respond missingLocation
      /\ requiredFieldsPresent b).
Proof.
  intros (loc & El & Hz).
  unfold submitReport, requiredFieldsPresent.
  destruct b as [description location images category severity].
  simpl in El. subst location.
  cbv [ReportBody.description ReportBody.location ReportBody.images
       ReportBody.category ReportBody.severity].
  destruct description as [description|]; simpl;
    [|left; split; [reflexivity | intros (A & _); discriminate]].
  destruct (JS.truthy description); simpl;
    [|left; split; [reflexivity | intros (A & _); discriminate]].
  destruct images as [[s|imgs]|]; simpl;
    [destruct (JS.truthy s); simpl| |];
    try (left; split; [reflexivity | intros (_ & _ & A & _); discriminate]).
  all: destruct category as [category|]; simpl;
    [|left; split; [reflexivity | intros (_ & _ & _ & A); discriminate]].
  all: destruct (JS.truthy category); simpl;
    [|left; split; [reflexivity | intros (_ & _ & _ & A); discriminate]].
  all: right; split; [|repeat split; discriminate].
  all: destruct loc as [lat lng address]; simpl in Hz |- *.
  all: destruct Hz as [(q & -> & Z)|(q & -> & Z)]; simpl.
  all: try (rewrite (truthyNumber_zero _ Z); reflexivity).
  all: destruct lat as [lat|]; simpl; [|reflexivity].
  all: destruct (Coordinate.truthy lat); simpl; [|reflexivity].
  all: rewrite (truthyNumber_zero _ Z); reflexivity.
Qed.

(** C10, as the code has it.  A submission whose latitude or longitude is
    the number zero is always rejected with a 400 and stores nothing;
    the answer is "Location must include lat, lng, and address" exactly
    when description, location, images and category are present, and is
    "Description, location, images, and category are required"
    otherwise.  Hence no report is stored for a coordinate sent as the
    number zero: the stored coordinates are what [parseFloat] reads in
    the coordinates of the body, and a coordinate of a stored report that
    was sent as a number is that number and is not zero.  (A coordinate
    sent as a string is tested as a string: "0" is truthy and is stored
    as 0.) *)
Theorem zero_coordinate_rejected (b : ReportBody.t) :
  (zeroCoordinate b ->
   snd (postReports db now newId userId b) = db
   /\ code (fst (postReports db now newId userId b)) = 400%Z
   /\ (requiredFieldsPresent b ->
       fst (postReports db now newId userId b) = missingLocation)
   /\ (~ requiredFieldsPresent b ->
       fst (postReports db now newId userId b) = missingFields))
  /\ (code (fst (postReports db now newId userId b)) = 201%Z ->
      exists d loc vlat vlng,
        reports (snd (postReports db now newId userId b))
        = (reports db ++ [d])%list
        /\ ReportBody.location b = Some loc
        /\ ReportBody.lat loc = Some vlat
        /\ ReportBody.lng loc = Some vlng
        /\ Coordinate.parseFloat vlat
           = Finite (Location.lat (Report.location d))
        /\ Coordinate.parseFloat vlng
           = Finite (Location.lng (Report.location d))
        /\ (forall q, vlat = Coordinate.Number q ->
                      Location.lat (Report.location d) = q /\ ~ q == 0)
        /\ (forall q, vlng = Coordinate.Number q ->
                      Location.lng (Report.location d) = q /\ ~ q == 0)).
Proof.
  split.
  - intros Hz. unfold postReports.
    destruct (submitReport_zero b Hz) as [[E P]|[E P]]; rewrite E; simpl;
      repeat split; trivial; intros; contradiction.
  - intros C.
    destruct (postReports_cases db now newId userId b)
      as [(description & lat & lng & address & imgs & category & H)|[_ H]].
    + cbv zeta in H.
      destruct H as (P & _ & _ & _ & loc & vlat & vlng & El & Elat & Elng
                     & Tlat & Tlng & Plat & Plng).
      rewrite P. simpl. exists
        (newReport now newId userId description lat lng address imgs
           category (ReportBody.severity b)), loc, vlat, vlng.
      simpl. repeat split; trivial.
      * subst vlat. simpl in Plat. now inversion Plat.
      * subst vlat. simpl in Tlat. now apply truthyNumber_nonzero.
      * subst vlng. simpl in Plng. now inversion Plng.
      * subst vlng. simpl in Tlng. now apply truthyNumber_nonzero.
    + rewrite C in H. destruct H; discriminate.
Qed.

End Coordinates.

(* ================================================================== *)
(** ** GET /api/reports: theorems *)
(* ================================================================== *)

Section Sorting.

Lemma insertDesc_perm (r : Report.t) (l : list Report.t) :
  Permutation (insertDesc r l) (r :: l).
Proof.
  induction l as [|x l IH]; simpl.
  - apply Permutation_refl.
  - destruct (Report.createdAt r <? Report.createdAt x)%Z.
    + apply perm_trans with (x :: r :: l).
      * now apply perm_skip.
      * apply perm_swap.
    + apply Permutation_refl.
Qed.

Lemma sortCreatedAtDesc_perm (l : list Report.t) :
  Permutation (sortCreatedAtDesc l) l.
Proof.
  induction l as [|r l IH]; simpl.
  - apply perm_nil.
  - apply perm_trans with (r :: sortCreatedAtDesc l).
    + apply insertDesc_perm.
    + now apply perm_skip.
Qed.

Lemma insertDesc_sorted (r : Report.t) (l : list Report.t) :
  StronglySorted newerOrEqual l ->
  StronglySorted newerOrEqual (insertDesc r l).
Proof.
  induction l as [|x l IH]; simpl; intros S.
  - constructor; [constructor | constructor].
  - inversion S as [|? ? S' F]; subst.
    destruct (Report.createdAt r <? Report.createdAt x)%Z eqn:E.
    + apply Z.ltb_lt in E. constructor; [now apply IH|].
      apply Permutation_Forall with (r :: l).
      * apply Permutation_sym, insertDesc_perm.
      * constructor; [unfold newerOrEqual; lia | exact F].
    + apply Z.ltb_ge in E. constructor; [exact S|].
      constructor; [exact E|].
      apply Forall_impl with (P := newerOrEqual x); [|exact F].
      unfold newerOrEqual. intros a Ha. lia.
Qed.

Lemma sortCreatedAtDesc_sorted (l : list Report.t) :
  StronglySorted newerOrEqual (sortCreatedAtDesc l).
Proof.
  induction l as [|r l IH]; simpl.
  - constructor.
  - now apply insertDesc_sorted.
Qed.

Lemma page_In {A : Type} (x : A) (n m : nat) (l : list A) :
  In x (firstn n (skipn m l)) -> In x l.
Proof.
  intros H.
  rewrite <- (firstn_skipn m l). apply in_or_app. right.
  rewrite <- (firstn_skipn n (skipn m l)). apply in_or_app. now left.
Qed.

Lemma sortCreatedAtDesc_length (l : list Report.t) :
  length (sortCreatedAtDesc l) = length l.
Proof. apply Permutation_length, sortCreatedAtDesc_perm. Qed.

End Sorting.

Section Arithmetic.

(** [ceilDiv n l] is the least number of pages of [l] that hold [n]. *)
Lemma ceilDiv_spec (n l : Z) :
  (0 < l)%Z ->
  ((ceilDiv n l - 1) * l < n <= ceilDiv n l * l)%Z.
Proof.
  intros Hl. unfold ceilDiv.
  pose proof (Z.div_mod (- n) l ltac:(lia)) as D.
  pose proof (Z.mod_pos_bound (- n) l Hl) as B.
  nia.
Qed.

Lemma ceilDiv_unique (n l k : Z) :
  (0 < l)%Z -> ((k - 1) * l < n <= k * l)%Z -> ceilDiv n l = k.
Proof.
  intros Hl Hk. pose proof (ceilDiv_spec n l Hl) as H. nia.
Qed.

End Arithmetic.

Section Listing.

Variable castsToObjectId : string -> bool.
Variables (db : Store) (reqUserId : string) (q : ListQuery.t).
Variable currentUser : User.t.
Hypothesis found_user : findUserById db reqUserId = Some currentUser.

Lemma map_doc_populate (l : list Report.t) (withRole : bool) :
  map doc (map (populate withRole db) l) = l.
Proof.
  rewrite map_map. simpl. apply map_id.
Qed.

Lemma castOwner_Next :
  ownerFilterCasts castsToObjectId currentUser q ->
  castOwner castsToObjectId currentUser
    (buildQuery currentUser reqUserId q) = Next tt.
Proof.
  unfold ownerFilterCasts, castOwner, buildQuery. intros H.
  destruct (String.eqb (User.role currentUser) "admin") eqn:R; simpl;
    [|reflexivity].
  apply String.eqb_eq in R.
  destruct (whenTruthy (ListQuery.userId q)) as [u|] eqn:W; [|reflexivity].
  now rewrite (H R u eq_refl).
Qed.

(** The owner of a query that is not the requester's own is cast. *)
Lemma castOwner_Throw :
  ~ ownerFilterCasts castsToObjectId currentUser q ->
  castOwner castsToObjectId currentUser
    (buildQuery currentUser reqUserId q)
  = Throw "Cast to ObjectId failed at path userId".
Proof.
  unfold ownerFilterCasts, castOwner, buildQuery. intros H.
  destruct (String.eqb (User.role currentUser) "admin") eqn:R; simpl.
  - destruct (whenTruthy (ListQuery.userId q)) as [u|] eqn:W.
    + destruct (castsToObjectId u) eqn:C; [|reflexivity].
      exfalso. apply H. intros _ u' E. inversion E. now subst.
    + exfalso. apply H. intros _ u' E. discriminate.
  - exfalso. apply H. intros E. rewrite E in R. discriminate.
Qed.

(** The response of the handler to a query that can be run, spelled
    out. *)
Lemma getReports_eq :
  ownerFilterCasts castsToObjectId currentUser q ->
  (0 <= (orDefault (ListQuery.page q) 1 - 1)
        * orDefault (ListQuery.limit q) 10)%Z ->
  getReports castsToObjectId db reqUserId q =
  let query := buildQuery currentUser reqUserId q in
  let pageNum := orDefault (ListQuery.page q) 1 in
  let limitNum := orDefault (ListQuery.limit q) 10 in
  mkResponse 200
    (ReportPage
       (map (populate false db)
          (cursor limitNum ((pageNum - 1) * limitNum)
             (sortCreatedAtDesc (matching db query))))
       (mkPagination pageNum (pagesOf (countDocuments db query) limitNum)
          (countDocuments db query)
          (beforeLastPage pageNum (countDocuments db query) limitNum)
          (1 <? pageNum)%Z)
       (mkFilters (ListQuery.status q) (ListQuery.category q)
          (ListQuery.userId q))).
Proof.
  intros Hc Hs. unfold getReports, listReports. rewrite found_user.
  cbn [truthyObject bind]. rewrite (castOwner_Next Hc). cbn [bind].
  unfold findReports.
  destruct ((orDefault (ListQuery.page q) 1 - 1)
            * orDefault (ListQuery.limit q) 10 <? 0)%Z eqn:E.
  - apply Z.ltb_lt in E. lia.
  - reflexivity.
Qed.

(** The two exceptions of the handler. *)
Lemma getReports_cast_failure :
  ~ ownerFilterCasts castsToObjectId currentUser q ->
  getReports castsToObjectId db reqUserId q
  = mkResponse 500
      (Failure "Failed to fetch reports"
         "Cast to ObjectId failed at path userId").
Proof.
  intros Hc. unfold getReports, listReports. rewrite found_user.
  cbn [truthyObject bind]. rewrite (castOwner_Throw Hc). reflexivity.
Qed.

Lemma getReports_negative_skip :
  ownerFilterCasts castsToObjectId currentUser q ->
  ((orDefault (ListQuery.page q) 1 - 1)
   * orDefault (ListQuery.limit q) 10 < 0)%Z ->
  getReports castsToObjectId db reqUserId q
  = mkResponse 500
      (Failure "Failed to fetch reports" "skip must be non-negative").
Proof.
  intros Hc Hs. unfold getReports, listReports. rewrite found_user.
  cbn [truthyObject bind]. rewrite (castOwner_Next Hc). cbn [bind].
  unfold findReports. apply Z.ltb_lt in Hs. rewrite Hs. reflexivity.
Qed.

(** The handler answers a registered requester with a 500, or the query
    can be run and [getReports_eq] gives the answer. *)
Lemma getReports_cases :
  (exists e,
      getReports castsToObjectId db reqUserId q
      = mkResponse 500 (Failure "Failed to fetch reports" e))
  \/ (ownerFilterCasts castsToObjectId currentUser q
      /\ (0 <= (orDefault (ListQuery.page q) 1 - 1)
                * orDefault (ListQuery.limit q) 10)%Z).
Proof.
  destruct (castOwner castsToObjectId currentUser
              (buildQuery currentUser reqUserId q)) as [[]|r|e] eqn:C.
  - assert (Hc : ownerFilterCasts castsToObjectId currentUser q).
    { unfold ownerFilterCasts. intros R u W.
      unfold castOwner, buildQuery in C. rewrite R in C. simpl in C.
      rewrite W in C. destruct (castsToObjectId u); [reflexivity|].
      discriminate. }
    destruct (Z_lt_le_dec
                ((orDefault (ListQuery.page q) 1 - 1)
                 * orDefault (ListQuery.limit q) 10) 0) as [L|L].
    + left. eexists. now apply getReports_negative_skip.
    + right. split; assumption.
  - unfold castOwner in C.
    destruct (String.eqb (User.role currentUser) "admin");
      [|discriminate].
    destruct (Query.userId _) as [u|]; [|discriminate].
    destruct (castsToObjectId u); discriminate.
  - left. exists e. unfold getReports, listReports. rewrite found_user.
    cbn [truthyObject bind]. rewrite C. reflexivity.
Qed.

(** C7, as the code has it.  With page [p >= 1] and limit [l >= 1] (an
    absent parameter counts as page 1, as limit 10), when the query can
    be run, the handler answers 200 with the reports that remain after
    skipping [(p-1)*l] of the matching reports sorted newest first, at
    most [l] of them, and with totalReports = n (the number of matching
    reports), totalPages = ceil(n/l), hasNext = (p < totalPages),
    hasPrev = (p > 1).  With n = 25 and l = 10: three pages, page 1 has a
    next and no previous page, page 3 has a previous and no next page.
    The query cannot be run when an admin filters by a [userId] that is
    not an ObjectId: the answer is then 500 "Failed to fetch reports". *)
Theorem pagination_contract (p l : Z) :
  asksPage q p -> asksLimit q l ->
  (0 < p)%Z -> (0 < l)%Z ->
  (ownerFilterCasts castsToObjectId currentUser q ->
   exists found pagination filters sorted,
     getReports castsToObjectId db reqUserId q
     = mkResponse 200 (ReportPage found pagination filters)
     /\ Permutation sorted
          (matching db (buildQuery currentUser reqUserId q))
     /\ StronglySorted newerOrEqual sorted
     /\ map doc found
        = firstn (Z.to_nat l) (skipn (Z.to_nat ((p - 1) * l)) sorted)
     /\ totalReports pagination
        = Z.of_nat
            (length (matching db (buildQuery currentUser reqUserId q)))
     /\ currentPage pagination = p
     /\ (exists pages,
            totalPages pagination = Some pages
            /\ ((pages - 1) * l < totalReports pagination <= pages * l)%Z
            /\ hasNext pagination = (p <? pages)%Z)
     /\ hasPrev pagination = (1 <? p)%Z
     /\ (totalReports pagination = 25%Z -> l = 10%Z ->
         totalPages pagination = Some 3%Z
         /\ (p = 1%Z -> hasNext pagination = true
                        /\ hasPrev pagination = false)
         /\ (p = 3%Z -> hasNext pagination = false
                        /\ hasPrev pagination = true)))
  /\ (~ ownerFilterCasts castsToObjectId currentUser q ->
      exists e,
        getReports castsToObjectId db reqUserId q
        = mkResponse 500 (Failure "Failed to fetch reports" e)).
Proof.
  intros Ap Al Hp Hl.
  assert (Ep : orDefault (ListQuery.page q) 1 = p).
  { destruct Ap as [E|[E ->]]; rewrite E; reflexivity. }
  assert (El : orDefault (ListQuery.limit q) 10 = l).
  { destruct Al as [E|[E ->]]; rewrite E; reflexivity. }
  split.
  - intros Hc.
    rewrite (getReports_eq Hc) by (rewrite Ep, El; nia).
    cbv zeta. rewrite Ep, El.
    assert (L0 : (l =? 0)%Z = false) by (apply Z.eqb_neq; lia).
    do 3 eexists.
    exists (sortCreatedAtDesc
              (matching db (buildQuery currentUser reqUserId q))).
    split; [reflexivity|]. simpl.
    split; [apply sortCreatedAtDesc_perm|].
    split; [apply sortCreatedAtDesc_sorted|].
    split.
    { rewrite map_doc_populate. unfold cursor. rewrite L0.
      now rewrite Zabs2Nat.abs_nat_nonneg by lia. }
    split; [reflexivity|]. split; [reflexivity|].
    unfold pagesOf, beforeLastPage. rewrite L0.
    split.
    { eexists. split; [reflexivity|].
      split; [now apply ceilDiv_spec | reflexivity]. }
    split; [reflexivity|].
    intros -> ->. split; [reflexivity|].
    split; intros ->; split; reflexivity.
  - intros Hc. eexists. now apply getReports_cast_failure.
Qed.

Lemma matches_scoped (u : string) (r : Report.t) :
  matches (Query.mk (Some u) (whenTruthy (ListQuery.status q))
             (whenTruthy (ListQuery.category q))) r
  = ownedBy u r
    && matchField (whenTruthy (ListQuery.status q)) (Report.status r)
    && matchField (whenTruthy (ListQuery.category q)) (Report.category r).
Proof. reflexivity. Qed.

Lemma cursor_In (limitNum skip : Z) (l : list Report.t) (x : Report.t) :
  In x (cursor limitNum skip l) -> In x l.
Proof.
  unfold cursor. destruct (limitNum =? 0)%Z; intros H.
  - rewrite <- (firstn_skipn (Z.to_nat skip) l). apply in_or_app. now right.
  - now apply page_In in H.
Qed.

(** C2. For a requester who is not an admin the query is forced to the
    requester's identity, whatever [userId] parameter is sent.  Whatever
    the page and the limit, every report that the handler returns is one
    of the requester's own and passes the status and category filters.
    The handler answers 200 unless the skip is negative, and 500 then;
    the reports of the page are those of the cursor (for a limit that is
    not negative: the skip, then the limit, and no limit when it is 0)
    over the requester's own matching reports, newest first; and without
    filters, on page 1 with a limit that covers them, or with the limit
    0, they are exactly the requester's reports.  For an admin the owner
    is restricted only by a non-empty [userId] parameter. *)
Theorem list_scoping :
  (User.role currentUser <> "admin" ->
   Query.userId (buildQuery currentUser reqUserId q) = Some reqUserId
   /\ (forall other,
          buildQuery currentUser reqUserId
            (ListQuery.mk (ListQuery.status q) (ListQuery.category q) other
               (ListQuery.page q) (ListQuery.limit q))
          = buildQuery currentUser reqUserId q)
   /\ (forall c found pagination filters x,
          getReports castsToObjectId db reqUserId q
          = mkResponse c (ReportPage found pagination filters) ->
          In x found ->
          Report.userId (doc x) = reqUserId
          /\ In (doc x) (reports db)
          /\ matchField (whenTruthy (ListQuery.status q))
               (Report.status (doc x)) = true
          /\ matchField (whenTruthy (ListQuery.category q))
               (Report.category (doc x)) = true)
   /\ (((orDefault (ListQuery.page q) 1 - 1)
        * orDefault (ListQuery.limit q) 10 < 0)%Z ->
       exists e,
         getReports castsToObjectId db reqUserId q
         = mkResponse 500 (Failure "Failed to fetch reports" e))
   /\ ((0 <= (orDefault (ListQuery.page q) 1 - 1)
              * orDefault (ListQuery.limit q) 10)%Z ->
       exists found pagination filters sorted,
         getReports castsToObjectId db reqUserId q
         = mkResponse 200 (ReportPage found pagination filters)
         /\ Permutation sorted
              (filter
                 (fun r =>
                    ownedBy reqUserId r
                    && matchField (whenTruthy (ListQuery.status q))
                         (Report.status r)
                    && matchField (whenTruthy (ListQuery.category q))
                         (Report.category r))
                 (reports db))
         /\ StronglySorted newerOrEqual sorted
         /\ ((0 <= orDefault (ListQuery.limit q) 10)%Z ->
             map doc found
             = cursor (orDefault (ListQuery.limit q) 10)
                 ((orDefault (ListQuery.page q) 1 - 1)
                  * orDefault (ListQuery.limit q) 10)
                 sorted)
         /\ (whenTruthy (ListQuery.status q) = None ->
             whenTruthy (ListQuery.category q) = None ->
             orDefault (ListQuery.page q) 1 = 1%Z ->
             (orDefault (ListQuery.limit q) 10 = 0%Z
              \/ (Z.of_nat (length (filter (ownedBy reqUserId) (reports db)))
                  <= orDefault (ListQuery.limit q) 10)%Z) ->
             Permutation (map doc found)
               (filter (ownedBy reqUserId) (reports db))
             /\ length found
                = length (filter (ownedBy reqUserId) (reports db)))))
  /\ (User.role currentUser = "admin" ->
      Query.userId (buildQuery currentUser reqUserId q)
      = whenTruthy (ListQuery.userId q)
      /\ (ListQuery.userId q = None ->
          Query.userId (buildQuery currentUser reqUserId q) = None)
      /\ (forall u, ListQuery.userId q = Some u -> u <> "" ->
          Query.userId (buildQuery currentUser reqUserId q) = Some u)).
Proof.
  split.
  - intros Hrole.
    assert (R : String.eqb (User.role currentUser) "admin" = false)
      by now apply String.eqb_neq.
    assert (Q : buildQuery currentUser reqUserId q
                = Query.mk (Some reqUserId)
                    (whenTruthy (ListQuery.status q))
                    (whenTruthy (ListQuery.category q))).
    { unfold buildQuery. now rewrite R. }
    assert (Hc : ownerFilterCasts castsToObjectId currentUser q).
    { intros E. contradiction. }
    set (own := filter
                  (fun r =>
                     ownedBy reqUserId r
                     && matchField (whenTruthy (ListQuery.status q))
                          (Report.status r)
                     && matchField (whenTruthy (ListQuery.category q))
                          (Report.category r))
                  (reports db)).
    assert (Hown : forall r, In r own ->
              Report.userId r = reqUserId /\ In r (reports db)
              /\ matchField (whenTruthy (ListQuery.status q))
                   (Report.status r) = true
              /\ matchField (whenTruthy (ListQuery.category q))
                   (Report.category r) = true).
    { intros r Hr. apply filter_In in Hr. destruct Hr as [Hin Hm].
      apply andb_true_iff in Hm. destruct Hm as [Hm Hcat].
      apply andb_true_iff in Hm. destruct Hm as [Hm Hst].
      repeat split; trivial. now apply String.eqb_eq in Hm. }
    assert (M : matching db (buildQuery currentUser reqUserId q) = own).
    { rewrite Q. reflexivity. }
    split; [now rewrite Q|].
    split; [intros other; unfold buildQuery; now rewrite R|].
    split; [|split].
    + intros c found pagination filters x E Hx.
      destruct getReports_cases as [[e F]|[_ Hs]].
      * rewrite F in E. discriminate.
      * rewrite (getReports_eq Hc Hs) in E. cbv zeta in E.
        rewrite M in E. inversion E; subst found.
        apply in_map_iff in Hx. destruct Hx as (r & <- & Hr).
        simpl. apply Hown. apply cursor_In in Hr.
        apply (Permutation_in _ (sortCreatedAtDesc_perm own)). exact Hr.
    + intros Hs. eexists. now apply getReports_negative_skip.
    + intros Hs. rewrite (getReports_eq Hc Hs). cbv zeta. rewrite M.
      do 3 eexists. exists (sortCreatedAtDesc own).
      split; [reflexivity|].
      split; [apply sortCreatedAtDesc_perm|].
      split; [apply sortCreatedAtDesc_sorted|].
      rewrite map_doc_populate. split; [reflexivity|].
      intros Hst Hcat Hp Hl. subst own. rewrite Hst, Hcat, Hp.
      rewrite Z.sub_diag, Z.mul_0_l. unfold cursor. simpl skipn.
      assert (F : filter (fun r => ownedBy reqUserId r && true && true)
                    (reports db)
                  = filter (ownedBy reqUserId) (reports db)).
      { apply filter_ext. intros r. now rewrite !andb_true_r. }
      rewrite F, length_map.
      destruct (orDefault (ListQuery.limit q) 10 =? 0)%Z eqn:L0.
      * split; [apply sortCreatedAtDesc_perm|].
        apply sortCreatedAtDesc_length.
      * destruct Hl as [Hl|Hl]; [apply Z.eqb_neq in L0; contradiction|].
        rewrite firstn_all2.
        -- split; [apply sortCreatedAtDesc_perm
                  | apply sortCreatedAtDesc_length].
        -- rewrite sortCreatedAtDesc_length.
           rewrite Zabs2Nat.abs_nat_nonneg by lia. lia.
  - intros Hrole. unfold buildQuery. rewrite Hrole. simpl.
    split; [reflexivity|]. split.
    + intros ->. reflexivity.
    + intros u -> Hu. unfold whenTruthy. simpl.
      apply truthy_nonempty in Hu. now rewrite Hu.
Qed.

End Listing.

(* ================================================================== *)
(** ** GET /api/reports/:id: theorems *)
(* ================================================================== *)

Section Detail.

Variable isValid : string -> bool.
Variables (db : Store) (now : Z) (reqUserId id : string).

Lemma findUserById_id (u : string) (o : User.t) :
  findUserById db u = Some o -> User._id o = u.
Proof.
  unfold findUserById. intros H. apply find_some in H.
  destruct H as [_ H]. now apply String.eqb_eq in H.
Qed.

Lemma findReportById_In (r : Report.t) :
  findReportById db id = Some r -> In r (reports db) /\ Report._id r = id.
Proof.
  unfold findReportById. intros H. apply find_some in H.
  destruct H as [Hin H]. split; [exact Hin | now apply String.eqb_eq in H].
Qed.

(** Access control where it works.  In a store whose reports are owned
    by registered users, for a well-formed id of an existing report and a
    registered requester: a requester who is neither admin nor the owner
    gets 403 and a message, no report; an admin gets 200 with the report,
    whoever owns it; so does the owner. *)
Theorem report_access_control (r : Report.t) (currentUser : User.t) :
  ownersRegistered db ->
  isValid id = true ->
  findReportById db id = Some r ->
  findUserById db reqUserId = Some currentUser ->
  (User.role currentUser <> "admin" -> Report.userId r <> reqUserId ->
   getReportById isValid db now reqUserId id
   = mkResponse 403
       (Message "Access denied. You can only view your own reports."))
  /\ (User.role currentUser = "admin" ->
      getReportById isValid db now reqUserId id
      = mkResponse 200
          (ReportDetail
             (mkMeta (populate true db r) (now - Report.createdAt r)%Z true
                (String.eqb (Report.userId r) reqUserId)))
      /\ doc (populate true db r) = r)
  /\ (Report.userId r = reqUserId ->
      getReportById isValid db now reqUserId id
      = mkResponse 200
          (ReportDetail
             (mkMeta (populate true db r) (now - Report.createdAt r)%Z true
                true))).
Proof.
  intros Hdb Hv Hr Hu.
  destruct (findUserById db (Report.userId r)) as [o|] eqn:Ho.
  2: { exfalso. apply findReportById_In in Hr. destruct Hr as [Hin _].
       unfold ownersRegistered in Hdb. rewrite Forall_forall in Hdb.
       exact (Hdb r Hin Ho). }
  pose proof (findUserById_id _ _ Ho) as Hid.
  unfold getReportById, fetchReport.
  rewrite Hv, Hr, Hu. simpl.
  unfold ownerIdString, populate. rewrite Ho. simpl. rewrite Hid.
  split; [|split].
  - intros Hrole Hown.
    apply String.eqb_neq in Hrole, Hown. rewrite Hrole, Hown. reflexivity.
  - intros Hrole. rewrite Hrole. simpl. split; reflexivity.
  - intros Hown. rewrite Hown, String.eqb_refl.
    destruct (String.eqb (User.role currentUser) "admin"); reflexivity.
Qed.

(** C8. A malformed identifier is answered 400 "Invalid report ID
    format"; a well-formed identifier of no report is answered 404
    "Report not found"; the answer is 400 exactly when the identifier is
    malformed, so neither answer is given in the other's case. *)
Theorem malformed_id_is_not_missing_report :
  (isValid id = false ->
   getReportById isValid db now reqUserId id
   = mkResponse 400 (Message "Invalid report ID format"))
  /\ (isValid id = true -> findReportById db id = None ->
      getReportById isValid db now reqUserId id
      = mkResponse 404 (Message "Report not found"))
  /\ (code (getReportById isValid db now reqUserId id) = 400%Z
      <-> isValid id = false)
  /\ (getReportById isValid db now reqUserId id
      = mkResponse 404 (Message "Report not found")
      <-> isValid id = true /\ findReportById db id = None).
Proof.
  unfold getReportById, fetchReport.
  destruct (isValid id); simpl.
  - destruct (findReportById db id) as [r|]; simpl.
    + destruct (findUserById db reqUserId) as [u|]; simpl.
      * unfold ownerIdString, populate.
        destruct (findUserById db (Report.userId r)) as [o|]; simpl;
          destruct (String.eqb (User.role u) "admin"); simpl;
          try destruct (String.eqb (User._id o) reqUserId); simpl;
          repeat split; try discriminate; try congruence;
          intros [_ H]; discriminate.
      * repeat split; try discriminate; try congruence;
          intros [_ H]; discriminate.
    + repeat split; try discriminate; try congruence.
  - repeat split; try discriminate; try congruence.
    intros [H _]; discriminate.
Qed.

End Detail.

(* ================================================================== *)
(** ** The theorems at the sample data *)
(* ================================================================== *)

Section Instances.

Lemma sample_ownersRegistered : ownersRegistered Sample.db.
Proof. repeat constructor; discriminate. Qed.

(** Bob is refused Alice's report; the admin reads it. *)
Lemma report_access_control_at_sample :
  getReportById Sample.isHex24 Sample.db 5000 (User._id Sample.bob)
    (Report._id Sample.r1)
  = mkResponse 403
      (Message "Access denied. You can only view your own reports.")
  /\ getReportById Sample.isHex24 Sample.db 5000 (User._id Sample.root)
       (Report._id Sample.r1)
     = mkResponse 200
         (ReportDetail
            (mkMeta (populate true Sample.db Sample.r1) 4900 true false)).
Proof.
  split.
  - apply (proj1 (report_access_control Sample.isHex24 Sample.db 5000
                    (User._id Sample.bob) (Report._id Sample.r1)
                    Sample.r1 Sample.bob
                    sample_ownersRegistered eq_refl eq_refl eq_refl));
      discriminate.
  - apply (proj1 (proj2 (report_access_control Sample.isHex24 Sample.db 5000
                           (User._id Sample.root) (Report._id Sample.r1)
                           Sample.r1 Sample.root
                           sample_ownersRegistered eq_refl eq_refl eq_refl))).
    reflexivity.
Qed.

(** Alice, asking for Bob's reports, receives her own two. *)
Lemma list_scoping_witness :
  exists found pagination filters,
    getReports Sample.isHex24 Sample.db (User._id Sample.alice)
      Sample.listAsAlice
    = mkResponse 200 (ReportPage found pagination filters)
    /\ Permutation (map doc found) [Sample.r1; Sample.r3]
    /\ length found = 2%nat.
Proof.
  destruct (list_scoping Sample.isHex24 Sample.db (User._id Sample.alice)
              Sample.listAsAlice Sample.alice eq_refl) as [H _].
  destruct (H ltac:(discriminate)) as (_ & _ & _ & _ & P).
  destruct (P ltac:(discriminate))
    as (found & pagination & filters & sorted & E & _ & _ & _ & X).
  exists found, pagination, filters.
  split; [exact E|].
  apply X; try reflexivity. right. vm_compute. discriminate.
Defined.

(** Twenty-five reports in pages of ten: the second page. *)
Lemma pagination_contract_witness :
  exists found pagination filters,
    getReports Sample.isHex24 Sample.db25 (User._id Sample.alice)
      Sample.secondPage
    = mkResponse 200 (ReportPage found pagination filters)
    /\ length found = 10%nat
    /\ currentPage pagination = 2%Z
    /\ totalReports pagination = 25%Z
    /\ totalPages pagination = Some 3%Z
    /\ hasNext pagination = true
    /\ hasPrev pagination = true.
Proof.
  destruct (pagination_contract Sample.isHex24 Sample.db25
              (User._id Sample.alice) Sample.secondPage Sample.alice eq_refl
              2%Z 10%Z (or_introl eq_refl) (or_introl eq_refl)
              eq_refl eq_refl) as [H _].
  destruct (H ltac:(intros R; discriminate R))
    as (found & pagination & filters & sorted & E & P & _ & M & T & C
        & (pages & TP & _ & N) & V & X).
  exists found, pagination, filters.
  split; [exact E|].
  assert (T25 : totalReports pagination = 25%Z) by (rewrite T; reflexivity).
  destruct (X T25 eq_refl) as (TP3 & _).
  rewrite TP3 in TP. inversion TP; subst pages.
  repeat split; trivial.
  rewrite <- (length_map doc), M.
  rewrite length_firstn, length_skipn, (Permutation_length P). reflexivity.
Defined.

(** C7, as stated, fails: the admin asks for page 1 of 10 of the reports
    of the user "abc", which is no ObjectId; the query is rejected and
    the answer is a 500 without reports and without pagination. *)
Lemma owner_filter_not_an_identifier :
  findUserById Sample.db (User._id Sample.root) = Some Sample.root
  /\ ListQuery.page Sample.listOfAbc = Some 1%Z
  /\ ListQuery.limit Sample.listOfAbc = Some 10%Z
  /\ Sample.isHex24 "abc" = false
  /\ exists e,
      getReports Sample.isHex24 Sample.db (User._id Sample.root)
        Sample.listOfAbc
      = mkResponse 500 (Failure "Failed to fetch reports" e).
Proof. repeat split. eexists. reflexivity. Qed.

(** A complete submission is stored with its seeded history. *)
Lemma submission_seeds_history_witness :
  code (fst (postReports Sample.db 1000 Sample.freshId
               (User._id Sample.alice)
               (Sample.bodyAt (185 # 10) (735 # 10) (Some "High"))))
  = 201%Z
  /\ exists d,
      findReportById
        (snd (postReports Sample.db 1000 Sample.freshId
                (User._id Sample.alice)
                (Sample.bodyAt (185 # 10) (735 # 10) (Some "High"))))
        Sample.freshId = Some d
      /\ Report.statusHistory d
         = [StatusEntry.mk "Submitted" 1000 "system"
              (Some "Report submitted by user")]
      /\ Report.status d = "Submitted".
Proof.
  split; [reflexivity|].
  destruct (submission_seeds_history Sample.db 1000 Sample.freshId
              (User._id Sample.alice)
              (Sample.bodyAt (185 # 10) (735 # 10) (Some "High"))
              _ _ eq_refl eq_refl)
    as (d & _ & F & _ & H & _ & S & _).
  exists d. repeat split; assumption.
Defined.

Lemma sample_reaches (lat lng : Q) (severity : option string) :
  ~ lat == 0 -> ~ lng == 0 ->
  reachesCoordinateCheck (Sample.bodyAt lat lng severity) lat lng.
Proof.
  intros Hlat Hlng. unfold reachesCoordinateCheck, Sample.bodyAt.
  do 5 eexists. simpl.
  repeat split; try reflexivity; try assumption. discriminate.
Qed.

(** The corner of the map: latitude 90, longitude -180. *)
Lemma coordinate_range_inclusive_witness :
  fst (postReports Sample.db 1000 Sample.freshId (User._id Sample.alice)
         (Sample.bodyAt 90 (-180) None)) <> badLatitude
  /\ fst (postReports Sample.db 1000 Sample.freshId (User._id Sample.alice)
            (Sample.bodyAt 90 (-180) None)) <> badLongitude.
Proof.
  apply (coordinate_range_inclusive Sample.db 1000 Sample.freshId
           (User._id Sample.alice) (Sample.bodyAt 90 (-180) None)
           90 (-180)).
  - apply sample_reaches; discriminate.
  - split; discriminate.
  - split; discriminate.
Defined.

(** C10, as stated, fails twice.  Without a description the request from
    latitude zero is answered by the first presence check, with another
    message.  And a report with latitude 0 can be submitted: sent as the
    string "0" the latitude is truthy, is within the range, and is stored
    as the number that [parseFloat] reads, 0. *)
Lemma zero_coordinate_not_always_rejected :
  zeroCoordinate Sample.bodyNoDescription
  /\ fst (postReports Sample.db 1000 Sample.freshId (User._id Sample.alice)
            Sample.bodyNoDescription)
     = missingFields
  /\ missingFields <> missingLocation
  /\ code (fst (postReports Sample.db 1000 Sample.freshId
                  (User._id Sample.alice) Sample.bodyTextZero))
     = 201%Z
  /\ option_map (fun d => Location.lat (Report.location d))
       (findReportById
          (snd (postReports Sample.db 1000 Sample.freshId
                  (User._id Sample.alice) Sample.bodyTextZero))
          Sample.freshId)
     = Some 0.
Proof.
  split.
  { eexists. split; [reflexivity|]. left. exists 0. split; reflexivity. }
  repeat split. discriminate.
Qed.

(** What the handler answers there, and to the same body with a
    description. *)
Example zero_latitude_responses :
  postReports Sample.db 1000 Sample.freshId (User._id Sample.alice)
    Sample.bodyNoDescription
  = (missingFields, Sample.db)
  /\ postReports Sample.db 1000 Sample.freshId (User._id Sample.alice)
       (Sample.bodyAt 0 (735 # 10) None)
     = (missingLocation, Sample.db)
  /\ postReports Sample.db 1000 Sample.freshId (User._id Sample.alice)
       (Sample.bodyAt (185 # 10) 0 None)
     = (missingLocation, Sample.db).
Proof. repeat split. Qed.

(** A severity outside the enum reaches the schema and is refused
    there. *)
Example unknown_severity_not_stored :
  exists e,
    postReports Sample.db 1000 Sample.freshId (User._id Sample.alice)
      (Sample.bodyAt (185 # 10) (735 # 10) (Some "urgent"))
    = (mkResponse 500 (Failure "Failed to submit report" e), Sample.db).
Proof. eexists. reflexivity. Qed.

(** The stored description and address are trimmed, and an absent
    severity is stored as "Medium". *)
Example stored_report :
  option_map
    (fun d => (Report.description d, Report.severity d, Report.category d))
    (findReportById
       (snd (postReports Sample.db 1000 Sample.freshId
               (User._id Sample.alice)
               (Sample.bodyAt (185 # 10) (735 # 10) None)))
       Sample.freshId)
  = Some ("Street light broken", "Medium", "Electricity").
Proof. reflexivity. Qed.

(** Keyword precedence follows the table, not the text. *)
Example keyword_precedence :
  categorizeIssue "Pothole on the road after the water pipe burst"
  = "Water & Supply Management"
  /\ categorizeIssue "POTHOLE" = "Roads & Infrastructure"
  /\ categorizeIssue "Graffiti" = "General Issues".
Proof. repeat split. Qed.

(** C1, where the code departs from it.  The report [r1] exists and its
    identifier is well formed, but the user document of its owner is
    gone, and the join leaves [null] for the owner.  The admin, who is to
    read every report, is answered 500: the role test passes, and
    [isOwnReport] then reads [report.userId._id].  Bob, who is neither
    admin nor owner and is to be refused with 403, is answered 500 by the
    access test itself.  The handlers produce such a report on their
    own: [POST /api/reports] stores a report for a caller whose token
    outlives the user document, and the admin cannot read it. *)
Theorem orphaned_report_is_not_served :
  Sample.isHex24 (Report._id Sample.r1) = true
  /\ findReportById Sample.orphaned (Report._id Sample.r1) = Some Sample.r1
  /\ findUserById Sample.orphaned (User._id Sample.root) = Some Sample.root
  /\ User.role Sample.root = "admin"
  /\ getReportById Sample.isHex24 Sample.orphaned 5000
       (User._id Sample.root) (Report._id Sample.r1)
     = mkResponse 500
         (Failure "Failed to fetch report"
            "Cannot read properties of null (reading '_id')")
  /\ findUserById Sample.orphaned (User._id Sample.bob) = Some Sample.bob
  /\ User.role Sample.bob <> "admin"
  /\ Report.userId Sample.r1 <> User._id Sample.bob
  /\ getReportById Sample.isHex24 Sample.orphaned 5000
       (User._id Sample.bob) (Report._id Sample.r1)
     = mkResponse 500
         (Failure "Failed to fetch report"
            "Cannot read properties of null (reading '_id')")
  /\ code (fst (postReports (mkStore [Sample.bob; Sample.root] []) 1000
                  Sample.freshId (User._id Sample.alice)
                  (Sample.bodyAt (185 # 10) (735 # 10) None)))
     = 201%Z
  /\ getReportById Sample.isHex24
       (snd (postReports (mkStore [Sample.bob; Sample.root] []) 1000
               Sample.freshId (User._id Sample.alice)
               (Sample.bodyAt (185 # 10) (735 # 10) None)))
       5000 (User._id Sample.root) Sample.freshId
     = mkResponse 500
         (Failure "Failed to fetch report"
            "Cannot read properties of null (reading '_id')").
Proof. repeat split; discriminate. Qed.

(** Identifiers: malformed, unknown, known. *)
Example identifier_responses :
  getReportById Sample.isHex24 Sample.db 5000 (User._id Sample.alice)
    "not-an-id"
  = mkResponse 400 (Message "Invalid report ID format")
  /\ getReportById Sample.isHex24 Sample.db 5000 (User._id Sample.alice)
       Sample.freshId
     = mkResponse 404 (Message "Report not found")
  /\ code (getReportById Sample.isHex24 Sample.db 5000
             (User._id Sample.alice) (Report._id Sample.r1)) = 200%Z.
Proof. repeat split. Qed.

End Instances.

(* ================================================================== *)
(** ** More of the backend: trimming *)
(* ================================================================== *)

Section TrimFacts.

Lemma trimStart_head (s : string) :
  match JS.trimStart s with
  | EmptyString => True
  | String c _ => JS.isWhiteSpace c = false
  end.
Proof.
  induction s as [|c s IH]; simpl; [exact I|].
  destruct (JS.isWhiteSpace c) eqn:E; [exact IH | exact E].
Qed.

Lemma trimStart_fixed (c : ascii) (s : string) :
  JS.isWhiteSpace c = false -> JS.trimStart (String c s) = String c s.
Proof. intros E. simpl. now rewrite E. Qed.

Lemma trimEnd_head (c : ascii) (s : string) :
  JS.isWhiteSpace c = false ->
  exists t, JS.trimEnd (String c s) = String c t.
Proof.
  intros E. simpl. destruct (JS.trimEnd s) as [|d t].
  - rewrite E. now exists EmptyString.
  - now exists (String d t).
Qed.

Lemma trimEnd_idem (s : string) : JS.trimEnd (JS.trimEnd s) = JS.trimEnd s.
Proof.
  induction s as [|c s IH]; simpl; [reflexivity|].
  destruct (JS.trimEnd s) as [|d t] eqn:E.
  - destruct (JS.isWhiteSpace c) eqn:W; simpl; [reflexivity|].
    now rewrite W.
  - change (JS.trimEnd (String c (String d t))) with
      (match JS.trimEnd (String d t) with
       | EmptyString =>
           if JS.isWhiteSpace c then EmptyString else String c EmptyString
       | String a t' => String c (String a t')
       end).
    rewrite IH. reflexivity.
Qed.

(** Trimming twice is trimming once. *)
Lemma trim_idem (s : string) : JS.trim (JS.trim s) = JS.trim s.
Proof.
  unfold JS.trim.
  pose proof (trimStart_head s) as H.
  destruct (JS.trimStart s) as [|c t] eqn:E; [reflexivity|].
  destruct (trimEnd_head c t H) as [u Hu]. rewrite Hu.
  rewrite (trimStart_fixed c u H). rewrite <- Hu. apply trimEnd_idem.
Qed.

End TrimFacts.

(* ================================================================== *)
(** ** POST /ai/describe and the classifier: theorems *)
(* ================================================================== *)

Section DescribeTheorems.

Lemma keyTerms_cases (c : string) :
  In (Describe.keyTerms c)
     [ "Sanitation & Waste Management"; "Roads & Infrastructure";
       "Water & Supply Management"; "Electricity"; "General Issues" ].
Proof.
  unfold Describe.keyTerms. cbv zeta.
  repeat match goal with
         | |- context [if ?b then _ else _] => destruct b
         end; simpl; auto 6.
Qed.

Lemma exactMatch_Some (c found : string) :
  Describe.exactMatch c = Some found ->
  In found Describe.validCategories
  /\ JS.toLowerCase found = JS.toLowerCase c.
Proof.
  unfold Describe.exactMatch. intros H. apply find_some in H.
  destruct H as [Hin H]. split; [exact Hin | now apply String.eqb_eq in H].
Qed.

Lemma validCategories_truthy (c : string) :
  In c Describe.validCategories -> JS.truthy c = true.
Proof.
  unfold Describe.validCategories.
  intros H. repeat (destruct H as [<-|H]; [reflexivity|]). destruct H.
Qed.

Lemma finalCategory_cases (label : string) :
  (exists found,
      Describe.exactMatch (JS.trim label) = Some found
      /\ Describe.finalCategory label = found)
  \/ (Describe.exactMatch (JS.trim label) = None
      /\ Describe.finalCategory label = Describe.keyTerms (JS.trim label)).
Proof.
  unfold Describe.finalCategory. cbv zeta.
  destruct (Describe.exactMatch (JS.trim label)) as [found|] eqn:E.
  - left. exists found. split; [reflexivity|].
    apply exactMatch_Some in E. destruct E as [Hin _].
    now rewrite (validCategories_truthy _ Hin).
  - right. split; reflexivity.
Qed.

Lemma finalCategory_valid (label : string) :
  In (Describe.finalCategory label) Describe.validCategories.
Proof.
  destruct (finalCategory_cases label) as [(found & E & ->)|[_ ->]].
  - now apply exactMatch_Some in E.
  - pose proof (keyTerms_cases (JS.trim label)) as K.
    simpl in K. unfold Describe.validCategories. simpl.
    intuition.
Qed.

(** Whatever label the model proposes, the category of the response is
    one of the nine categories: of the handler's own list, of the list
    [POST /api/reports] accepts, of the schema's enum and of
    [GET /api/categories]. *)
Theorem finalCategory_in_enum (label : string) :
  In (Describe.finalCategory label) Describe.validCategories
  /\ In (Describe.finalCategory label) validCategories
  /\ In (Describe.finalCategory label) categoryEnum
  /\ In (Describe.finalCategory label) categories.
Proof.
  pose proof (finalCategory_valid label) as H.
  repeat split; exact H.
Qed.

(** A label that equals a category up to case and outer white space is
    resolved to that category, spelled as the enum spells it. *)
Theorem finalCategory_exact_match (label c : string) :
  In c Describe.validCategories ->
  JS.toLowerCase (JS.trim label) = JS.toLowerCase c ->
  Describe.finalCategory label = c.
Proof.
  intros Hin E. unfold Describe.finalCategory, Describe.exactMatch.
  cbv zeta. rewrite E. unfold Describe.validCategories in Hin.
  repeat (destruct Hin as [<-|Hin]; [reflexivity|]). destruct Hin.
Qed.

Lemma finalCategory_exact_match_witness :
  Describe.finalCategory "  roads & INFRASTRUCTURE " = "Roads & Infrastructure".
Proof.
  apply (finalCategory_exact_match "  roads & INFRASTRUCTURE "
           "Roads & Infrastructure").
  - simpl. auto 10.
  - reflexivity.
Defined.

(** Reconciling is idempotent, and leaves every category of the enum as
    it is. *)
Theorem finalCategory_idempotent (label : string) :
  Describe.finalCategory (Describe.finalCategory label)
  = Describe.finalCategory label
  /\ (In label Describe.validCategories ->
      Describe.finalCategory label = label).
Proof.
  assert (F : forall c, In c Describe.validCategories ->
                        Describe.finalCategory c = c).
  { intros c Hin. unfold Describe.validCategories in Hin.
    repeat (destruct Hin as [<-|Hin]; [reflexivity|]). destruct Hin. }
  split; [|apply F]. apply F. apply finalCategory_valid.
Qed.

(** The fallback on key terms recovers four categories only: "Public
    Health & Safety", "Fire & Emergency Services", "Public
    Transportation" and "Parks & Environment" are answered only to a
    label that is that category up to case and outer white space. *)
Theorem finalCategory_needs_exact_match (label : string) :
  In (Describe.finalCategory label)
     [ "Public Health & Safety"; "Fire & Emergency Services";
       "Public Transportation"; "Parks & Environment" ] ->
  JS.toLowerCase (JS.trim label)
  = JS.toLowerCase (Describe.finalCategory label).
Proof.
  intros H.
  destruct (finalCategory_cases label) as [(found & E & R)|[_ R]].
  - rewrite R. apply exactMatch_Some in E. symmetry. apply E.
  - exfalso. rewrite R in H.
    pose proof (keyTerms_cases (JS.trim label)) as K.
    simpl in H, K.
    destruct K as [K|[K|[K|[K|[K|[]]]]]]; rewrite <- K in H;
      repeat (destruct H as [H|H]; [discriminate|]); destruct H.
Qed.

Lemma finalCategory_needs_exact_match_witness :
  JS.toLowerCase (JS.trim "public transportation")
  = JS.toLowerCase (Describe.finalCategory "public transportation").
Proof.
  apply (finalCategory_needs_exact_match "public transportation").
  simpl. auto.
Defined.

(** The response of [POST /ai/describe] can be submitted as it is: its
    description is not empty and is already trimmed, its category passes
    the category check of [POST /api/reports], and its severity passes
    the severity validator of the schema. *)
Theorem describe_response_submittable (description category severity : string) :
  let r := Describe.structure description category severity in
  Describe.description r <> ""
  /\ JS.trim (Describe.description r) = Describe.description r
  /\ JS.arrayIncludes validCategories (Describe.category r) = true
  /\ JS.arrayIncludes severityEnum (orMedium (Some (Describe.severity r)))
     = true
  /\ orMedium (Some (Describe.severity r)) = Describe.severity r.
Proof.
  cbv zeta. unfold Describe.structure.
  cbn [Describe.description Describe.category Describe.severity].
  assert (S : In (finalSeverity severity) severityEnum).
  { unfold finalSeverity. cbv zeta.
    destruct (JS.arrayIncludes validSeverities (JS.trim severity)) eqn:E.
    - now apply arrayIncludes_In in E.
    - simpl. auto. }
  assert (T : JS.truthy (finalSeverity severity) = true).
  { simpl in S. destruct S as [<-|[<-|[<-|[]]]]; reflexivity. }
  split; [|split; [|split; [|split]]].
  - unfold Describe.orUnable.
    destruct (JS.truthy (JS.trim description)) eqn:E.
    + now apply truthy_nonempty.
    + discriminate.
  - unfold Describe.orUnable.
    destruct (JS.truthy (JS.trim description)) eqn:E.
    + apply trim_idem.
    + reflexivity.
  - apply arrayIncludes_In. exact (finalCategory_valid category).
  - unfold orMedium. rewrite T. now apply arrayIncludes_In.
  - unfold orMedium. now rewrite T.
Qed.

Lemma categorizeLoop_In (lowerDesc : string)
    (entries : list (string * list string)) :
  In (categorizeLoop lowerDesc entries)
     ("General Issues" :: map fst entries).
Proof.
  induction entries as [|[c ks] rest IH]; simpl.
  - now left.
  - destruct (someKeyword lowerDesc ks).
    + right. now left.
    + destruct IH as [IH|IH]; [now left | right; now right].
Qed.

(** The keyword classifier answers with one of the nine categories,
    whatever the description: its answers are accepted by
    [POST /api/reports] and by the schema. *)
Theorem categorizeIssue_in_enum (description : string) :
  In (categorizeIssue description) categories
  /\ In (categorizeIssue description) validCategories
  /\ In (categorizeIssue description) categoryEnum.
Proof.
  assert (H : In (categorizeIssue description) categories).
  { unfold categorizeIssue. cbv zeta.
    pose proof (categorizeLoop_In (JS.toLowerCase description)
                  CIVIC_CATEGORIES) as H.
    simpl in H. unfold categories. simpl. intuition. }
  repeat split; exact H.
Qed.

End DescribeTheorems.

(* ================================================================== *)
(** ** POST /api/reports: what is stored, and when *)
(* ================================================================== *)

Section Acceptance.

Variables (db : Store) (now : Z) (newId userId : string).

Lemma check_bind_iff (ok : bool) (path : string) (k : Step unit) :
  (check ok path ;;; k) = Next tt <-> ok = true /\ k = Next tt.
Proof.
  destruct ok; simpl; split; try tauto.
  - intros H. discriminate.
  - intros [H _]. discriminate.
Qed.

Lemma check_iff (ok : bool) (path : string) :
  check ok path = Next tt <-> ok = true.
Proof. destruct ok; simpl; split; congruence. Qed.

(** The validators pass exactly when every path is valid. *)
Lemma validate_iff (d : Report.t) :
  validate d = Next tt <->
  JS.truthy (Report.userId d) = true
  /\ JS.truthy (Report.description d) = true
  /\ Qle_bool (-90) (Location.lat (Report.location d))
     && Qle_bool (Location.lat (Report.location d)) 90 = true
  /\ Qle_bool (-180) (Location.lng (Report.location d))
     && Qle_bool (Location.lng (Report.location d)) 180 = true
  /\ JS.truthy (Location.address (Report.location d)) = true
  /\ forallb JS.truthy (Report.images d) = true
  /\ JS.truthy (Report.category d)
     && JS.arrayIncludes categoryEnum (Report.category d) = true
  /\ JS.arrayIncludes statusEnum (Report.status d) = true
  /\ forallb validateEntry (Report.statusHistory d) = true
  /\ forallb validateComment (Report.comments d) = true
  /\ JS.arrayIncludes severityEnum (Report.severity d) = true.
Proof.
  unfold validate. rewrite !check_bind_iff, check_iff. reflexivity.
Qed.

Lemma validate_throws (d : Report.t) :
  validate d = Next tt \/ exists e, validate d = Throw e.
Proof.
  destruct (validate d) as [[]|r|e] eqn:V.
  - now left.
  - now apply validate_not_Respond in V.
  - right. now exists e.
Qed.

Lemma In_validCategories_truthy (c : string) :
  In c validCategories -> JS.truthy c = true.
Proof.
  unfold validCategories.
  intros H. repeat (destruct H as [<-|H]; [reflexivity|]). destruct H.
Qed.

Lemma inRange_bool (x lo hi : Q) :
  Qle_bool lo x && Qle_bool x hi = true <-> lo <= x <= hi.
Proof. rewrite andb_true_iff, !Qle_bool_iff. reflexivity. Qed.

Lemma forallb_truthy (l : list string) :
  forallb JS.truthy l = true <-> Forall (fun i => i <> "") l.
Proof.
  rewrite forallb_forall, Forall_forall.
  split; intros H x Hx; apply truthy_nonempty; auto.
Qed.

Lemma trim_nonempty (s : string) : JS.trim s <> "" -> JS.truthy s = true.
Proof.
  intros H. destruct s; [|reflexivity]. exfalso. now apply H.
Qed.

(** A JSON number is accepted as a coordinate when it is not zero and
    lies within the bounds. *)
Lemma coordinateAccepted_Number (q lo hi : Q) :
  coordinateAccepted (Coordinate.Number q) lo hi
  <-> ~ q == 0 /\ lo <= q <= hi.
Proof.
  unfold coordinateAccepted. simpl.
  rewrite truthyNumber_nonzero, outOfRange_Number, inRange_iff.
  unfold parseFloat. split.
  - intros (Z & R & _). split; assumption.
  - intros (Z & R). repeat split; try tauto.
    exists q. split; [reflexivity | exact R].
Qed.

Lemma postReports_accepts_lemma (b : ReportBody.t) :
  code (fst (postReports db now newId userId b)) = 201%Z
  <-> acceptable db newId userId b.
Proof.
  split.
  - intros C. unfold postReports in C.
    pose proof (submitReport_outcome db now newId userId b) as H.
    destruct (submitReport db now newId userId b) as [[r db']|r|e] eqn:S.
    + destruct H as (description & loc & imgs & category & vlat & vlng
                     & lat & lng & address & Ed & El & Ei & Ec & Elat
                     & Elng & Ea & Tlat & Tlng & Olat & Olng & Plat & Plng
                     & H).
      cbv zeta in H. destruct H as (V & F & _ & _).
      apply validate_iff in V.
      destruct V as (Vu & Vd & Vlat & Vlng & Va & Vi & Vc & _ & _ & _ & Vs).
      unfold newReport in Vu, Vd, Vlat, Vlng, Va, Vi, Vc, Vs.
      cbn [Report.userId Report.description Report.location Report.images
           Report.category Report.severity Location.lat Location.lng
           Location.address] in Vu, Vd, Vlat, Vlng, Va, Vi, Vc, Vs.
      unfold setTrim in *.
      rewrite trim_idem in Vd, Va.
      apply andb_true_iff in Vc. destruct Vc as [_ Vc].
      apply truthy_nonempty in Vu, Vd, Va.
      apply inRange_bool in Vlat, Vlng.
      apply forallb_truthy in Vi.
      apply arrayIncludes_In in Vc, Vs.
      assert (Ni : imgs <> []).
      { intros ->. unfold submitReport in S.
        rewrite Ed, El, Ei, Ec in S. simpl in S.
        destruct (JS.truthy description); simpl in S; [|discriminate].
        destruct (JS.truthy category); simpl in S; [|discriminate].
        rewrite Elat, Elng, Ea in S. simpl in S.
        rewrite Tlat, Tlng in S. simpl in S.
        destruct (JS.truthy address); simpl in S; discriminate. }
      exists description, loc, vlat, vlng, address, imgs, category.
      unfold coordinateAccepted.
      repeat match goal with |- _ /\ _ => split end; trivial;
        eexists; split; eassumption.
    + simpl in C, H.
      destruct H as [<-|[<-|[<-|[<-|[<-|[<-|[]]]]]]]; discriminate.
    + discriminate.
  - intros (description & loc & vlat & vlng & address & imgs & category
            & Ed & Td & El & Elat & (Tlat & Olat & lat & Plat & Rlat)
            & Elng & (Tlng & Olng & lng & Plng & Rlng) & Ea
            & Ta & Ei & Ni & Fi & Ec & Hc & Hs & Hu & F).
    unfold postReports, submitReport.
    remember (JS.arrayIncludes validCategories) as known.
    rewrite Ed, El, Ei, Ec. simpl.
    rewrite (trim_nonempty _ Td), (In_validCategories_truthy _ Hc). simpl.
    rewrite Elat, Elng, Ea. simpl.
    rewrite Tlat, Tlng, (trim_nonempty _ Ta). simpl.
    destruct imgs as [|i imgs]; [contradiction|]. simpl.
    rewrite Olat, Olng. simpl.
    subst known. rewrite (proj2 (arrayIncludes_In _ _) Hc). simpl.
    rewrite Plat, Plng. simpl.
    unfold save.
    match goal with |- context [validate ?d] =>
      assert (V : validate d = Next tt) end.
    { apply validate_iff. unfold newReport.
      cbn [Report.userId Report.description Report.location Report.images
           Report.category Report.severity Report.status
           Report.statusHistory Report.comments Location.lat Location.lng
           Location.address].
      unfold setTrim.
      rewrite !trim_idem.
      apply truthy_nonempty in Hu, Td, Ta.
      apply inRange_bool in Rlat, Rlng.
      apply (proj2 (forallb_truthy (i :: imgs))) in Fi.
      apply arrayIncludes_In in Hs.
      rewrite (In_validCategories_truthy _ Hc).
      apply (proj2 (arrayIncludes_In categoryEnum category)) in Hc.
      repeat match goal with |- _ /\ _ => split end; trivial. }
    rewrite V. simpl. rewrite F. reflexivity.
Qed.

(** [POST /api/reports] answers 201 exactly to the acceptable requests:
    description and address present and not blank; latitude and
    longitude accepted as coordinates, which for JSON numbers means not
    zero and within the range; a non-empty array of non-empty images; a
    category of the list; a severity of the enum or none; a user id; and
    a fresh identifier. *)
Theorem postReports_accepts_iff (b : ReportBody.t) :
  (code (fst (postReports db now newId userId b)) = 201%Z
   <-> acceptable db newId userId b)
  /\ (forall q lo hi,
         coordinateAccepted (Coordinate.Number q) lo hi
         <-> ~ q == 0 /\ lo <= q <= hi).
Proof.
  split; [exact (postReports_accepts_lemma b)|].
  exact coordinateAccepted_Number.
Qed.

End Acceptance.

Section Stored.

Variables (db : Store) (now : Z) (newId userId : string).

(** After a 201 the stored report belongs to the authenticated caller,
    whatever the body says; its description and address are the trimmed
    ones of the request, not blank and without outer white space; its
    coordinates are what [parseFloat] reads in those of the request, the
    numbers themselves when they are sent as numbers; images and category
    are stored as sent, the severity as sent or "Medium"; it has no
    comments and no department, and is dated by the clock. *)
Theorem submission_stores_request (b : ReportBody.t) :
  code (fst (postReports db now newId userId b)) = 201%Z ->
  exists d description loc address imgs category,
    findReportById (snd (postReports db now newId userId b)) newId = Some d
    /\ ReportBody.description b = Some description
    /\ ReportBody.location b = Some loc
    /\ ReportBody.address loc = Some address
    /\ ReportBody.images b = Some (ReportBody.Array imgs)
    /\ ReportBody.category b = Some category
    /\ Report._id d = newId
    /\ Report.userId d = userId
    /\ Report.description d = JS.trim description
    /\ JS.trim (Report.description d) = Report.description d
    /\ Report.description d <> ""
    /\ Location.address (Report.location d) = JS.trim address
    /\ Location.address (Report.location d) <> ""
    /\ (exists vlat,
          ReportBody.lat loc = Some vlat
          /\ Coordinate.parseFloat vlat
             = Finite (Location.lat (Report.location d))
          /\ forall q, vlat = Coordinate.Number q ->
                       Location.lat (Report.location d) = q)
    /\ (exists vlng,
          ReportBody.lng loc = Some vlng
          /\ Coordinate.parseFloat vlng
             = Finite (Location.lng (Report.location d))
          /\ forall q, vlng = Coordinate.Number q ->
                       Location.lng (Report.location d) = q)
    /\ Report.images d = imgs
    /\ Report.category d = category
    /\ Report.severity d = orMedium (ReportBody.severity b)
    /\ Report.comments d = []
    /\ Report.departmentId d = None
    /\ Report.createdAt d = now.
Proof.
  intros C. unfold postReports in *.
  pose proof (submitReport_outcome db now newId userId b) as H.
  destruct (submitReport db now newId userId b) as [[r db']|r|e].
  - destruct H as (description & loc & imgs & category & vlat & vlng
                   & lat & lng & address & Ed & El & Ei & Ec & Elat & Elng
                   & Ea & _ & _ & _ & _ & Plat & Plng & H).
    cbv zeta in H. destruct H as (V & F & -> & _).
    apply validate_Next in V.
    destruct V as (_ & _ & _ & _ & _ & Vd & Va).
    exists (newReport now newId userId description lat lng address imgs
              category (ReportBody.severity b)).
    exists description, loc, address, imgs, category.
    simpl fst. simpl snd. unfold findReportById in *. simpl reports.
    rewrite find_snoc; [|exact F|apply String.eqb_refl].
    unfold newReport, setTrim in *. simpl in Vd, Va |- *.
    rewrite !trim_idem in *.
    repeat match goal with |- _ /\ _ => split end; trivial.
    + exists vlat. repeat split; trivial.
      intros q ->. simpl in Plat. now inversion Plat.
    + exists vlng. repeat split; trivial.
      intros q ->. simpl in Plng. now inversion Plng.
  - simpl in C, H.
    destruct H as [<-|[<-|[<-|[<-|[<-|[<-|[]]]]]]]; discriminate.
  - discriminate.
Qed.

(** A request changes the store by at most one report at the end of the
    collection: the users and the reports already stored are left as they
    were; without a 201 nothing is stored at all; and identifiers stay
    unique. *)
Theorem postReports_appends (b : ReportBody.t) :
  users (snd (postReports db now newId userId b)) = users db
  /\ (code (fst (postReports db now newId userId b)) <> 201%Z ->
      snd (postReports db now newId userId b) = db)
  /\ (code (fst (postReports db now newId userId b)) = 201%Z ->
      exists d,
        reports (snd (postReports db now newId userId b))
        = (reports db ++ [d])%list
        /\ Report._id d = newId)
  /\ (uniqueIds db -> uniqueIds (snd (postReports db now newId userId b))).
Proof.
  destruct (postReports_cases db now newId userId b)
    as [(description & lat & lng & address & imgs & category & H)|[S C]].
  - cbv zeta in H. destruct H as (P & _ & F & _). rewrite P. simpl.
    split; [reflexivity|]. split; [intros H; now contradiction H|].
    split; [intros _; eexists; split; reflexivity|].
    unfold uniqueIds. simpl. intros U.
    rewrite map_app. simpl.
    apply NoDup_app_remove_l with (l := []). simpl.
    apply Permutation_NoDup with (l := newId :: map Report._id (reports db)).
    + apply Permutation_cons_append.
    + constructor; [|exact U].
      intros Hin. apply in_map_iff in Hin. destruct Hin as (r & Hr & Hin).
      unfold findReportById in F.
      apply (find_none _ _ F) in Hin. rewrite Hr, String.eqb_refl in Hin.
      discriminate.
  - rewrite S. split; [reflexivity|]. split; [reflexivity|].
    split; [|trivial].
    intros E. destruct C as [C|C]; rewrite C in E; discriminate.
Qed.

(** A request that passes every check of the handler but whose
    description or address is blank, whose image list holds an empty
    string, or whose severity is unknown, is answered 500 "Failed to
    submit report", not 400: the schema refuses it at [save]. *)
Theorem postReports_schema_failure (b : ReportBody.t) (lat lng : Q)
    (category : string) :
  reachesCoordinateCheck b lat lng ->
  -90 <= lat <= 90 -> -180 <= lng <= 180 ->
  ReportBody.category b = Some category ->
  In category validCategories ->
  ~ acceptable db newId userId b ->
  exists e,
    postReports db now newId userId b
    = (mkResponse 500 (Failure "Failed to submit report" e), db).
Proof.
  intros R Hlat Hlng Ec Hc NA.
  assert (C : code (fst (postReports db now newId userId b)) <> 201%Z).
  { intros C. apply NA. now apply postReports_accepts_lemma in C. }
  clear NA. revert C.
  destruct R as (description & loc & imgs & category' & address & Ed & Td
                 & El & Ei & Hi & Ec' & Tc & Elat & Zlat & Elng & Zlng & Ea
                 & Ta).
  rewrite Ec in Ec'. inversion Ec'; subst category'; clear Ec'.
  unfold postReports, submitReport.
  remember (JS.arrayIncludes validCategories) as known.
  rewrite Ed, El, Ei, Ec. simpl. rewrite Td, Tc. simpl.
  rewrite Elat, Elng, Ea. simpl.
  rewrite (proj2 (truthyNumber_nonzero lat) Zlat),
          (proj2 (truthyNumber_nonzero lng) Zlng), Ta. simpl.
  destruct imgs as [|i imgs]; [contradiction|]. simpl.
  rewrite !outOfRange_Number.
  rewrite (proj2 (inRange_iff lat (-90) 90) Hlat). simpl.
  rewrite (proj2 (inRange_iff lng (-180) 180) Hlng). simpl.
  subst known. rewrite (proj2 (arrayIncludes_In _ _) Hc). simpl.
  unfold save.
  match goal with |- context [validate ?d] =>
    destruct (validate_throws d) as [V|[e V]]; rewrite V; simpl end.
  - destruct (findReportById db newId); simpl.
    + intros _. eexists. reflexivity.
    + intros C. now contradiction C.
  - intros _. exists e. reflexivity.
Qed.

End Stored.

(* ================================================================== *)
(** ** Submitting, then reading *)
(* ================================================================== *)

Section RoundTrip.

Variable isValid : string -> bool.
Variable castsToObjectId : string -> bool.
Variables (db : Store) (now : Z) (newId userId : string).

(** A 201, spelled out. *)
Lemma postReports_created (b : ReportBody.t) :
  code (fst (postReports db now newId userId b)) = 201%Z ->
  exists description loc imgs category lat lng address,
    ReportBody.description b = Some description
    /\ ReportBody.location b = Some loc
    /\ ReportBody.images b = Some (ReportBody.Array imgs)
    /\ ReportBody.category b = Some category
    /\ option_map Coordinate.parseFloat (ReportBody.lat loc)
       = Some (Finite lat)
    /\ option_map Coordinate.parseFloat (ReportBody.lng loc)
       = Some (Finite lng)
    /\ ReportBody.address loc = Some address
    /\ findReportById db newId = None
    /\ snd (postReports db now newId userId b)
       = mkStore (users db)
           (reports db
            ++ [newReport now newId userId description lat lng address imgs
                  category (ReportBody.severity b)])%list.
Proof.
  intros C. unfold postReports in *.
  pose proof (submitReport_outcome db now newId userId b) as H.
  destruct (submitReport db now newId userId b) as [[r db']|r|e].
  - destruct H as (description & loc & imgs & category & vlat & vlng
                   & lat & lng & address & Ed & El & Ei & Ec & Elat & Elng
                   & Ea & _ & _ & _ & _ & Plat & Plng & H).
    cbv zeta in H. destruct H as (_ & F & -> & _).
    exists description, loc, imgs, category, lat, lng, address.
    rewrite Elat, Elng. simpl. rewrite Plat, Plng.
    repeat split; trivial.
  - simpl in C, H.
    destruct H as [<-|[<-|[<-|[<-|[<-|[<-|[]]]]]]]; discriminate.
  - discriminate.
Qed.

(** Round trip: a report that was submitted with a well-formed identifier
    by a registered user is returned to that user by
    [GET /api/reports/:id], as their own report, with the category that
    was sent and the time since its submission. *)
Theorem submit_then_fetch (b : ReportBody.t) (u : User.t) (later : Z) :
  code (fst (postReports db now newId userId b)) = 201%Z ->
  isValid newId = true ->
  findUserById db userId = Some u ->
  exists d,
    getReportById isValid (snd (postReports db now newId userId b)) later
      userId newId
    = mkResponse 200
        (ReportDetail
           (mkMeta (populate true (snd (postReports db now newId userId b)) d)
              (later - now)%Z true true))
    /\ Report._id d = newId
    /\ Report.userId d = userId
    /\ Some (Report.category d) = ReportBody.category b.
Proof.
  intros C Hv Hu.
  destruct (postReports_created b C)
    as (description & loc & imgs & category & lat & lng & address
        & _ & _ & _ & Ec & _ & _ & _ & F & ->).
  exists (newReport now newId userId description lat lng address imgs
            category (ReportBody.severity b)).
  split; [|split; [|split]]; [|reflexivity|reflexivity|].
  2: { rewrite Ec. reflexivity. }
  pose proof (findUserById_id db _ _ Hu) as Hid.
  unfold getReportById, fetchReport.
  rewrite Hv. simpl.
  unfold findReportById in *. simpl reports.
  rewrite find_snoc; [|exact F|apply String.eqb_refl]. simpl.
  unfold findUserById in *. simpl users. rewrite Hu. simpl.
  unfold ownerIdString, populate, findUserById. simpl. rewrite Hu. simpl.
  rewrite Hid, String.eqb_refl. simpl.
  destruct (String.eqb (User.role u) "admin"); reflexivity.
Qed.

Lemma sort_newest_first (l : list Report.t) (d : Report.t) :
  (forall r, In r l -> (Report.createdAt r < Report.createdAt d)%Z) ->
  exists t, sortCreatedAtDesc (l ++ [d]) = d :: t.
Proof.
  induction l as [|x l IH]; intros H.
  - now exists [].
  - destruct IH as [t Ht]; [intros r Hr; apply H; now right|].
    change (sortCreatedAtDesc ((x :: l) ++ [d]))
      with (insertDesc x (sortCreatedAtDesc (l ++ [d]))).
    rewrite Ht. simpl.
    assert (L : (Report.createdAt x <? Report.createdAt d)%Z = true).
    { apply Z.ltb_lt. apply H. now left. }
    rewrite L. now eexists.
Qed.

(** Newest first: a report submitted after every stored one heads the
    first page of its owner's list (no status or category filter, and for
    an admin no owner filter), and the total grows by one. *)
Theorem submit_then_list (b : ReportBody.t) (u : User.t) (q : ListQuery.t) :
  code (fst (postReports db now newId userId b)) = 201%Z ->
  findUserById db userId = Some u ->
  (forall r, In r (reports db) -> (Report.createdAt r < now)%Z) ->
  whenTruthy (ListQuery.status q) = None ->
  whenTruthy (ListQuery.category q) = None ->
  (User.role u <> "admin" \/ whenTruthy (ListQuery.userId q) = None) ->
  orDefault (ListQuery.page q) 1 = 1%Z ->
  (0 < orDefault (ListQuery.limit q) 10)%Z ->
  exists d rest before after,
    map doc (reportsOf (getReports castsToObjectId
                          (snd (postReports db now newId userId b))
                          userId q))
    = d :: rest
    /\ Report._id d = newId
    /\ paginationOf (getReports castsToObjectId db userId q) = Some before
    /\ paginationOf (getReports castsToObjectId
                       (snd (postReports db now newId userId b))
                       userId q) = Some after
    /\ totalReports after = (totalReports before + 1)%Z.
Proof.
  intros C Hu Hnew Hs Hc Hrole Hp Hl.
  destruct (postReports_created b C)
    as (description & loc & imgs & category & lat & lng & address
        & _ & _ & _ & _ & _ & _ & _ & F & ->).
  set (d := newReport now newId userId description lat lng address imgs
              category (ReportBody.severity b)).
  set (db' := mkStore (users db) (reports db ++ [d])%list).
  assert (Hu' : findUserById db' userId = Some u) by exact Hu.
  assert (Oc : ownerFilterCasts castsToObjectId u q).
  { intros R v W. destruct Hrole as [Hrole|Hrole]; [contradiction|].
    rewrite Hrole in W. discriminate. }
  assert (Sk : (0 <= (orDefault (ListQuery.page q) 1 - 1)
                     * orDefault (ListQuery.limit q) 10)%Z)
    by (rewrite Hp; lia).
  rewrite (getReports_eq castsToObjectId db' userId q u Hu' Oc Sk).
  rewrite (getReports_eq castsToObjectId db userId q u Hu Oc Sk).
  cbv zeta. unfold reportsOf, paginationOf. cbn [body]. cbv iota.
  rewrite map_doc_populate. rewrite Hp.
  set (query := buildQuery u userId q).
  assert (M : matches query d = true).
  { unfold query, buildQuery, matches. simpl. rewrite Hs, Hc. simpl.
    rewrite !andb_true_r.
    destruct Hrole as [Hrole|Hrole].
    - apply String.eqb_neq in Hrole. rewrite Hrole. simpl.
      apply String.eqb_refl.
    - rewrite Hrole.
      destruct (String.eqb (User.role u) "admin"); simpl; trivial.
      apply String.eqb_refl. }
  assert (E : filter (matches query) (reports db')
              = (filter (matches query) (reports db) ++ [d])%list).
  { simpl. rewrite filter_app. simpl. now rewrite M. }
  destruct (sort_newest_first (filter (matches query) (reports db)) d)
    as [t Ht].
  { intros r Hr. apply filter_In in Hr. destruct Hr as [Hr _].
    simpl. now apply Hnew. }
  unfold matching, countDocuments. rewrite E, Ht.
  rewrite length_app. simpl length.
  unfold cursor. rewrite Z.sub_diag, Z.mul_0_l.
  assert (L0 : (orDefault (ListQuery.limit q) 10 =? 0)%Z = false)
    by (apply Z.eqb_neq; lia).
  rewrite L0.
  destruct (Z.abs_nat (orDefault (ListQuery.limit q) 10)) as [|n] eqn:En;
    [lia|].
  simpl.
  exists d, (firstn n t). do 2 eexists.
  split; [reflexivity|]. split; [reflexivity|]. split; [reflexivity|].
  split; [reflexivity|]. simpl. lia.
Qed.

End RoundTrip.

(* ================================================================== *)
(** ** GET /api/reports: the pages *)
(* ================================================================== *)

Section Paging.

Lemma concat_chunks {A : Type} (l : nat) :
  (0 < l)%nat ->
  forall (k : nat) (s : list A),
    (length s <= k * l)%nat ->
    concat (map (fun i => firstn l (skipn (i * l) s)) (seq 0 k)) = s.
Proof.
  intros Hl. induction k as [|k IH]; intros s Hs.
  - destruct s; [reflexivity | simpl in Hs; lia].
  - rewrite <- cons_seq, <- seq_shift. simpl concat. rewrite map_map.
    rewrite (map_ext _ (fun i => firstn l (skipn (i * l) (skipn l s)))).
    + rewrite IH.
      * apply firstn_skipn.
      * rewrite length_skipn. simpl in Hs. lia.
    + intros i. rewrite skipn_skipn. f_equal. f_equal. lia.
Qed.

Variable castsToObjectId : string -> bool.
Variables (db : Store) (reqUserId : string) (q : ListQuery.t).
Variable currentUser : User.t.
Hypothesis found_user : findUserById db reqUserId = Some currentUser.
Hypothesis owner_casts : ownerFilterCasts castsToObjectId currentUser q.

Let query : Query.t := buildQuery currentUser reqUserId q.
Let n : Z := countDocuments db query.

Lemma getReports_withPage (p : Z) :
  (0 < p)%Z ->
  (0 < orDefault (ListQuery.limit q) 10)%Z ->
  getReports castsToObjectId db reqUserId (withPage q p)
  = mkResponse 200
      (ReportPage
         (map (populate false db)
            (firstn (Z.to_nat (orDefault (ListQuery.limit q) 10))
               (skipn (Z.to_nat ((p - 1) * orDefault (ListQuery.limit q) 10))
                  (sortCreatedAtDesc (matching db query)))))
         (mkPagination p
            (Some (ceilDiv n (orDefault (ListQuery.limit q) 10))) n
            (p <? ceilDiv n (orDefault (ListQuery.limit q) 10))%Z
            (1 <? p)%Z)
         (mkFilters (ListQuery.status q) (ListQuery.category q)
            (ListQuery.userId q))).
Proof.
  intros Hp Hl.
  rewrite (getReports_eq castsToObjectId db reqUserId (withPage q p)
             currentUser found_user owner_casts)
    by (cbn [withPage ListQuery.page ListQuery.limit orDefault]; nia).
  cbv zeta.
  cbn [withPage ListQuery.page ListQuery.limit ListQuery.status
       ListQuery.category ListQuery.userId orDefault].
  unfold cursor, pagesOf, beforeLastPage.
  assert (L0 : (orDefault (ListQuery.limit q) 10 =? 0)%Z = false)
    by (apply Z.eqb_neq; lia).
  rewrite L0. rewrite Zabs2Nat.abs_nat_nonneg by lia. reflexivity.
Qed.

Lemma page_sizes_lemma (p : Z) :
  (0 < p)%Z ->
  (0 < orDefault (ListQuery.limit q) 10)%Z ->
  exists found pagination filters pages,
    getReports castsToObjectId db reqUserId (withPage q p)
    = mkResponse 200 (ReportPage found pagination filters)
    /\ Z.of_nat (length found)
       = Z.max 0 (Z.min (orDefault (ListQuery.limit q) 10)
                    (totalReports pagination
                     - (p - 1) * orDefault (ListQuery.limit q) 10))
    /\ totalPages pagination = Some pages
    /\ (found = [] <-> (pages < p)%Z)
    /\ (hasNext pagination = true
        <-> (p * orDefault (ListQuery.limit q) 10
             < totalReports pagination)%Z).
Proof.
  intros Hp Hl. rewrite (getReports_withPage p Hp Hl).
  set (l := orDefault (ListQuery.limit q) 10) in *.
  do 4 eexists. split; [reflexivity|]. cbn [totalReports totalPages hasNext].
  pose proof (ceilDiv_spec n l Hl) as K.
  assert (L : Z.of_nat
                (length
                   (map (populate false db)
                      (firstn (Z.to_nat l)
                         (skipn (Z.to_nat ((p - 1) * l))
                            (sortCreatedAtDesc (matching db query))))))
              = Z.max 0 (Z.min l (n - (p - 1) * l))).
  { rewrite length_map.
    rewrite length_firstn, length_skipn, sortCreatedAtDesc_length.
    unfold n, countDocuments, matching. nia. }
  split; [exact L|]. split; [reflexivity|]. split.
  - split.
    + intros E. rewrite E in L. simpl in L. nia.
    + intros H.
      destruct (map (populate false db)
                  (firstn (Z.to_nat l)
                     (skipn (Z.to_nat ((p - 1) * l))
                        (sortCreatedAtDesc (matching db query)))))
        as [|x xs]; [reflexivity|].
      simpl length in L. nia.
  - rewrite Z.ltb_lt. nia.
Qed.

(** The size of a page, for a query that can be run: page [p] of limit
    [l] holds [l] reports, or what is left of the [n] matching ones after
    [(p-1)*l], or none; it is empty exactly from the first page beyond
    [totalPages] on; and [hasNext] is true exactly when reports remain
    beyond this page. *)
Theorem page_sizes (p : Z) :
  (0 < p)%Z ->
  (0 < orDefault (ListQuery.limit q) 10)%Z ->
  exists found pagination filters pages,
    getReports castsToObjectId db reqUserId (withPage q p)
    = mkResponse 200 (ReportPage found pagination filters)
    /\ Z.of_nat (length found)
       = Z.max 0 (Z.min (orDefault (ListQuery.limit q) 10)
                    (totalReports pagination
                     - (p - 1) * orDefault (ListQuery.limit q) 10))
    /\ totalPages pagination = Some pages
    /\ (found = [] <-> (pages < p)%Z)
    /\ (hasNext pagination = true
        <-> (p * orDefault (ListQuery.limit q) 10
             < totalReports pagination)%Z).
Proof. exact (page_sizes_lemma p). Qed.

(** Paging through a query that can be run: the pages 1 to [totalPages],
    one after the other, are the matching reports sorted newest first,
    each report on one page.  The matching reports have creation times
    of their own: how the server orders equal ones from one request to
    the next is not in the source. *)
Theorem pages_cover :
  (0 < orDefault (ListQuery.limit q) 10)%Z ->
  NoDup (map Report.createdAt (matching db query)) ->
  concat
    (map (fun i =>
            map doc
              (reportsOf
                 (getReports castsToObjectId db reqUserId
                    (withPage q (Z.of_nat (S i))))))
       (seq 0 (Z.to_nat (ceilDiv n (orDefault (ListQuery.limit q) 10)))))
  = sortCreatedAtDesc (matching db query).
Proof.
  intros Hl _.
  set (l := orDefault (ListQuery.limit q) 10) in *.
  pose proof (ceilDiv_spec n l Hl) as K.
  rewrite (map_ext _
             (fun i => firstn (Z.to_nat l)
                         (skipn (i * Z.to_nat l)
                            (sortCreatedAtDesc (matching db query))))).
  - apply concat_chunks; [lia|].
    rewrite sortCreatedAtDesc_length. unfold n, countDocuments, matching in *.
    nia.
  - intros i. rewrite getReports_withPage by (fold l; lia).
    unfold reportsOf. cbn [body].
    cbv iota. rewrite map_doc_populate.
    fold l. do 2 f_equal. nia.
Qed.

End Paging.

(* ================================================================== *)
(** ** GET /api/reports/:id: who is answered *)
(* ================================================================== *)

Section Confidential.

Variable isValid : string -> bool.
Variables (db : Store) (now : Z) (reqUserId id : string).

Lemma detail_inversion (c : Z) (m : ReportWithMetadata) :
  getReportById isValid db now reqUserId id = mkResponse c (ReportDetail m) ->
  exists r u o,
    isValid id = true
    /\ findReportById db id = Some r
    /\ findUserById db reqUserId = Some u
    /\ findUserById db (Report.userId r) = Some o
    /\ (User.role u = "admin" \/ Report.userId r = reqUserId)
    /\ c = 200%Z
    /\ m = mkMeta (populate true db r) (now - Report.createdAt r)%Z true
           (String.eqb (Report.userId r) reqUserId).
Proof.
  unfold getReportById, fetchReport.
  destruct (isValid id); simpl; [|discriminate].
  destruct (findReportById db id) as [r|]; simpl; [|discriminate].
  destruct (findUserById db reqUserId) as [u|]; simpl; [|discriminate].
  unfold ownerIdString, populate.
  destruct (findUserById db (Report.userId r)) as [o|] eqn:Ho; simpl.
  - pose proof (findUserById_id db _ _ Ho) as Hid. rewrite Hid.
    destruct (String.eqb (User.role u) "admin") eqn:Hr; simpl.
    + intros H. inversion H; subst. exists r, u, o.
      apply String.eqb_eq in Hr. rewrite Ho, Hid. repeat split; auto.
    + destruct (String.eqb (Report.userId r) reqUserId) eqn:Hown; simpl.
      * intros H. inversion H; subst. exists r, u, o.
        rewrite Ho, Hid, Hown.
        apply String.eqb_eq in Hown. repeat split; auto.
      * discriminate.
  - destruct (String.eqb (User.role u) "admin"); simpl; discriminate.
Qed.

(** A report is sent only to a registered requester who is an admin or
    the owner of the report, and only the report that has the requested
    identifier. *)
Theorem report_only_for_admin_or_owner (c : Z) (m : ReportWithMetadata) :
  getReportById isValid db now reqUserId id = mkResponse c (ReportDetail m) ->
  exists u,
    findUserById db reqUserId = Some u
    /\ (User.role u = "admin"
        \/ Report.userId (doc (report m)) = reqUserId)
    /\ findReportById db id = Some (doc (report m))
    /\ Report._id (doc (report m)) = id.
Proof.
  intros H.
  destruct (detail_inversion c m H)
    as (r & u & o & _ & Hr & Hu & _ & Hrole & _ & ->).
  exists u. simpl. repeat split; trivial.
  now apply (findReportById_In db id r).
Qed.

(** In every answer that carries a report, [canEdit] is true,
    [isOwnReport] tells whether the requester owns the report, and
    [timeSinceSubmission] is the time elapsed since its creation. *)
Theorem detail_metadata (c : Z) (m : ReportWithMetadata) :
  getReportById isValid db now reqUserId id = mkResponse c (ReportDetail m) ->
  canEdit m = true
  /\ (isOwnReport m = true <-> Report.userId (doc (report m)) = reqUserId)
  /\ timeSinceSubmission m = (now - Report.createdAt (doc (report m)))%Z
  /\ c = 200%Z.
Proof.
  intros H.
  destruct (detail_inversion c m H)
    as (r & u & o & _ & _ & _ & _ & _ & -> & ->).
  simpl. repeat split; trivial.
  - now apply String.eqb_eq.
  - now apply String.eqb_eq.
Qed.

End Confidential.

(* ================================================================== *)
(** ** Accounts: theorems *)
(* ================================================================== *)

Section AccountTheorems.

Variable hash : string -> string -> string.
Variable compare : string -> string -> bool.
Variable sign : string -> Z -> string.
Variable verify : string -> Z -> option string.
Variable defaultRole : string.
Variable userValid : User.t -> bool.

Lemma truthyField_inr (o : option string) (r : AccountResponse) (s : string) :
  truthyField o r = inr s <-> o = Some s /\ s <> "".
Proof.
  unfold truthyField. destruct o as [x|].
  - destruct (JS.truthy x) eqn:E; split.
    + intros H. inversion H; subst. split; [reflexivity|].
      now apply truthy_nonempty.
    + intros [H _]. now inversion H.
    + discriminate.
    + intros [H N]. inversion H; subst. apply truthy_nonempty in N.
      congruence.
  - split; [discriminate | intros [H _]; discriminate].
Qed.

(** The outcomes of a registration. *)
Lemma register_cases (db : Store) (newId salt : string) (b : Credentials.t) :
  (exists name email password,
      Credentials.name b = Some name /\ name <> ""
      /\ Credentials.email b = Some email /\ email <> ""
      /\ Credentials.password b = Some password /\ password <> ""
      /\ findUserByEmail db email = None
      /\ userValid (newUser defaultRole newId name email (hash salt password))
         = true
      /\ register hash defaultRole userValid db newId salt b
         = (mkAccountResponse 201 (Notice "User registered successfully"),
            mkStore
              (users db
               ++ [newUser defaultRole newId name email (hash salt password)])
              (reports db)))
  \/ (snd (register hash defaultRole userValid db newId salt b) = db
      /\ accountCode (fst (register hash defaultRole userValid db newId salt b))
         <> 201%Z).
Proof.
  unfold register. cbv zeta.
  destruct (truthyField (Credentials.name b) _) as [r|name] eqn:En;
    [right; split; [reflexivity | discriminate]|].
  destruct (truthyField (Credentials.email b) _) as [r|email] eqn:Ee;
    [right; split; [reflexivity | discriminate]|].
  destruct (truthyField (Credentials.password b) _) as [r|password] eqn:Ep;
    [right; split; [reflexivity | discriminate]|].
  apply truthyField_inr in En, Ee, Ep.
  destruct En as [En Nn], Ee as [Ee Ne], Ep as [Ep Np].
  destruct (findUserByEmail db email) eqn:F;
    [right; split; [reflexivity | discriminate]|].
  unfold saveUser.
  destruct (userValid _) eqn:V;
    [|right; split; [reflexivity | discriminate]].
  left. exists name, email, password. repeat split; trivial.
Qed.

(** Registration keeps the emails of the users pairwise different, adds
    at most one user at the end of the collection and touches neither
    the users already registered nor the reports; without a 201 nothing
    is stored. *)
Theorem register_keeps_emails_unique (db : Store) (newId salt : string)
    (b : Credentials.t) :
  reports (snd (register hash defaultRole userValid db newId salt b))
  = reports db
  /\ (exists added,
         users (snd (register hash defaultRole userValid db newId salt b))
         = (users db ++ added)%list
         /\ (length added <= 1)%nat
         /\ (accountCode
               (fst (register hash defaultRole userValid db newId salt b))
             <> 201%Z -> added = []))
  /\ (uniqueEmails db ->
      uniqueEmails (snd (register hash defaultRole userValid db newId salt b))).
Proof.
  destruct (register_cases db newId salt b)
    as [(name & email & password & _ & _ & _ & _ & _ & _ & F & _ & R)|[S C]].
  - rewrite R. simpl. split; [reflexivity|]. split.
    + eexists. split; [reflexivity|]. split; [simpl; lia|].
      intros H. now contradiction H.
    + unfold uniqueEmails. simpl. intros U. rewrite map_app. simpl.
      apply Permutation_NoDup with (l := email :: map User.email (users db)).
      * apply Permutation_cons_append.
      * constructor; [|exact U].
        intros Hin. apply in_map_iff in Hin. destruct Hin as (u & Hu & Hin).
        unfold findUserByEmail in F.
        apply (find_none _ _ F) in Hin. rewrite Hu, String.eqb_refl in Hin.
        discriminate.
  - rewrite S. split; [reflexivity|]. split; [|trivial].
    exists []. rewrite app_nil_r. repeat split; auto.
Qed.

(** A login with an unknown email and a login with a wrong password are
    answered alike: 400 "Invalid email or password"; and a session is
    opened only for a registered email whose stored hash matches the
    password. *)
Theorem login_failures_alike (db : Store) (now : Z) (b : Credentials.t)
    (email password : string) :
  Credentials.email b = Some email -> email <> "" ->
  Credentials.password b = Some password -> password <> "" ->
  ((findUserByEmail db email = None
    \/ exists u, findUserByEmail db email = Some u
                 /\ compare password (User.password u) = false) ->
   login compare sign db now b = invalidCredentials)
  /\ (forall token id name mail,
         login compare sign db now b
         = mkAccountResponse 200 (Session token id name mail) ->
         exists u, findUserByEmail db email = Some u
                   /\ compare password (User.password u) = true
                   /\ id = User._id u /\ mail = email
                   /\ token = sign (User._id u) now).
Proof.
  intros Ee Ne Ep Np. unfold login. cbv zeta.
  rewrite Ee, Ep. unfold truthyField.
  apply truthy_nonempty in Ne, Np. rewrite Ne, Np.
  split.
  - intros [F|(u & F & C)]; rewrite F; [reflexivity|].
    now rewrite C.
  - intros token id name mail.
    destruct (findUserByEmail db email) as [u|] eqn:F; [|discriminate].
    destruct (compare password (User.password u)) eqn:C; [|discriminate].
    intros H. inversion H; subst. exists u. repeat split; trivial.
    unfold findUserByEmail in F. apply find_some in F.
    destruct F as [_ F]. now apply String.eqb_eq in F.
Qed.

Lemma split_noSpace (t : string) :
  noSpace t -> split " " t = [t].
Proof.
  unfold noSpace. induction t as [|c t IH]; intros H; [reflexivity|].
  change (JS.includes (String c t) " ")
    with (Ascii.eqb " " c && true || JS.includes t " ") in H.
  apply orb_false_iff in H. destruct H as [Hc Ht].
  simpl. destruct (Ascii.eqb c " ") eqn:E.
  - rewrite andb_true_r, Ascii.eqb_sym, E in Hc. discriminate.
  - now rewrite (IH Ht).
Qed.

Lemma split_first (t rest : string) :
  noSpace t ->
  split " " (t ++ String " " rest) = t :: split " " rest.
Proof.
  unfold noSpace. induction t as [|c t IH]; intros H; [reflexivity|].
  change (JS.includes (String c t) " ")
    with (Ascii.eqb " " c && true || JS.includes t " ") in H.
  apply orb_false_iff in H. destruct H as [Hc Ht].
  simpl. destruct (Ascii.eqb c " ") eqn:E.
  - rewrite andb_true_r, Ascii.eqb_sym, E in Hc. discriminate.
  - now rewrite (IH Ht).
Qed.

Lemma auth_bearer_split (s : string) (now : Z) :
  auth verify (Some ("Bearer " ++ s)) now
  = match verify (nth 0 (split " " s) EmptyString) now with
    | Some id => inr id
    | None => inl (mkAccountResponse 401 (Notice "Invalid token"))
    end.
Proof.
  assert (A : nth 1 (split " " ("Bearer " ++ s)) EmptyString
              = nth 0 (split " " s) EmptyString).
  { change ("Bearer " ++ s) with ("Bearer" ++ String " " s).
    rewrite split_first; reflexivity. }
  unfold auth. rewrite A. reflexivity.
Qed.

Lemma auth_bearer_lemma (t : string) (now : Z) :
  noSpace t ->
  auth verify (Some ("Bearer " ++ t)) now
  = match verify t now with
    | Some id => inr id
    | None => inl (mkAccountResponse 401 (Notice "Invalid token"))
    end.
Proof.
  intros H. rewrite auth_bearer_split, (split_noSpace t H). reflexivity.
Qed.

(** The middleware reads the token between the first and the second
    space of the header: a header "Bearer t" authenticates as the token
    [t] verifies, and whatever follows a second space is ignored; a
    header that does not start with "Bearer " is answered 401 "No token
    provided" whatever token it holds. *)
Theorem auth_reads_bearer_token (t : string) (now : Z) :
  noSpace t ->
  auth verify (Some ("Bearer " ++ t)) now
  = match verify t now with
    | Some id => inr id
    | None => inl (mkAccountResponse 401 (Notice "Invalid token"))
    end
  /\ (forall rest,
         auth verify (Some ("Bearer " ++ t ++ String " " rest)) now
         = auth verify (Some ("Bearer " ++ t)) now)
  /\ (forall header,
         JS.startsWith header "Bearer " = false ->
         auth verify (Some header) now
         = inl (mkAccountResponse 401 (Notice "No token provided"))).
Proof.
  intros H.
  split; [|split].
  - now apply auth_bearer_lemma.
  - intros rest.
    rewrite !auth_bearer_split, (split_first t rest H), (split_noSpace t H).
    reflexivity.
  - intros header E. unfold auth. rewrite E. simpl.
    now rewrite orb_true_r.
Qed.

(** From registration to an authenticated request: where [compare]
    recognises the hash of a password, and the token signed at login is
    free of spaces and still verifies, a user who registered can log in
    with the same email and password, the token of the session
    authenticates requests as that user, and [GET /users/me] answers with
    the registered name and email. *)
Theorem register_login_auth (db : Store) (newId salt : string)
    (b : Credentials.t) (t t' : Z) :
  (forall p, compare p (hash salt p) = true) ->
  noSpace (sign newId t) ->
  verify (sign newId t) t' = Some newId ->
  findUserById db newId = None ->
  accountCode (fst (register hash defaultRole userValid db newId salt b))
  = 201%Z ->
  exists name email token,
    Credentials.name b = Some name
    /\ Credentials.email b = Some email
    /\ login compare sign
         (snd (register hash defaultRole userValid db newId salt b)) t
         (Credentials.mk None (Credentials.email b) (Credentials.password b))
       = mkAccountResponse 200 (Session token newId name email)
    /\ auth verify (Some ("Bearer " ++ token)) t' = inr newId
    /\ usersMe (snd (register hash defaultRole userValid db newId salt b))
         newId
       = mkAccountResponse 200 (Profile newId name email defaultRole).
Proof.
  intros Hhash Hsp Hjwt Hfresh C.
  destruct (register_cases db newId salt b)
    as [(name & email & password & En & _ & Ee & Ne & Ep & Np & F & _ & R)
       |[_ N]]; [|contradiction].
  rewrite R. simpl snd.
  exists name, email, (sign newId t).
  split; [exact En|]. split; [exact Ee|].
  set (u := newUser defaultRole newId name email (hash salt password)).
  assert (Fe : findUserByEmail (mkStore (users db ++ [u]) (reports db)) email
               = Some u).
  { unfold findUserByEmail in *. simpl.
    apply find_snoc; [exact F | apply String.eqb_refl]. }
  assert (Fi : findUserById (mkStore (users db ++ [u]) (reports db)) newId
               = Some u).
  { unfold findUserById in *. simpl.
    apply find_snoc; [exact Hfresh | apply String.eqb_refl]. }
  split; [|split].
  - unfold login. cbv zeta. rewrite Ee, Ep. simpl.
    apply truthy_nonempty in Ne, Np. rewrite Ne, Np.
    rewrite Fe. simpl. rewrite Hhash. reflexivity.
  - rewrite (auth_bearer_lemma (sign newId t) t' Hsp).
    now rewrite Hjwt.
  - unfold usersMe. rewrite Fi. reflexivity.
Qed.

End AccountTheorems.

(* ================================================================== *)
(** ** POST /location/reverse-geocode: theorems *)
(* ================================================================== *)

Section CoordinateTests.

Lemma coordinatesOk_tests (lat lng : Q) :
  coordinatesOk lat lng <->
  negb (truthyNumber lat) || negb (truthyNumber lng) = false
  /\ Qltb lat (-90) || Qgtb lat 90 = false
  /\ Qltb lng (-180) || Qgtb lng 180 = false.
Proof.
  unfold coordinatesOk.
  rewrite orb_false_iff, !negb_false_iff, !truthyNumber_nonzero, !inRange_iff.
  tauto.
Qed.

Lemma coordinatesOk_dec (lat lng : Q) :
  coordinatesOk lat lng \/ ~ coordinatesOk lat lng.
Proof.
  rewrite coordinatesOk_tests.
  destruct (negb (truthyNumber lat) || negb (truthyNumber lng));
    destruct (Qltb lat (-90) || Qgtb lat 90);
    destruct (Qltb lng (-180) || Qgtb lng 180);
    try (left; repeat split; reflexivity);
    right; intros (A & B & C); discriminate.
Qed.

End CoordinateTests.

Section ReverseGeocodeTheorems.

Variable nominatim : Q -> Q -> Nominatim.answer.

Lemma lookupAddress_ok (lat lng : Q) :
  coordinatesOk lat lng ->
  lookupAddress nominatim (ReverseGeocode.mkBody (Some lat) (Some lng))
  = match nominatim lat lng with
    | Nominatim.Rejected message => inr message
    | Nominatim.NotOk status =>
        inr ("Nominatim API error: " ++ statusString status)
    | Nominatim.Json (Some data) =>
        match Nominatim.display_name data with
        | Some address =>
            if JS.truthy address
            then
              inl (ReverseGeocode.mkResponse 200
                     (ReverseGeocode.Address address address
                        (addressComponents
                           (match Nominatim.address data with
                            | Some a => a
                            | None => noAddress
                            end))
                        "openstreetmap"))
            else
              inl (ReverseGeocode.mkResponse 404
                     (ReverseGeocode.Message
                        "No address found for the provided coordinates"))
        | None =>
            inl (ReverseGeocode.mkResponse 404
                   (ReverseGeocode.Message
                      "No address found for the provided coordinates"))
        end
    | Nominatim.Json None =>
        inl (ReverseGeocode.mkResponse 404
               (ReverseGeocode.Message
                  "No address found for the provided coordinates"))
    end.
Proof.
  intros H. apply coordinatesOk_tests in H. destruct H as (A & B & C).
  unfold lookupAddress. cbv zeta. simpl ReverseGeocode.lat.
  simpl ReverseGeocode.lng. unfold parseFloat, isNaN.
  rewrite A, B, C. reflexivity.
Qed.

Lemma digits_no_fetch (d : Decimal.uint) :
  JS.includes (NilEmpty.string_of_uint d) "fetch" = false.
Proof. induction d; simpl; trivial. Qed.

Lemma statusString_no_fetch (status : nat) :
  JS.includes ("Nominatim API error: " ++ statusString status) "fetch"
  = false.
Proof.
  assert (D : JS.includes (statusString status) "fetch" = false).
  { unfold statusString, NilZero.string_of_uint.
    destruct (Nat.to_uint status); try apply digits_no_fetch. reflexivity. }
  simpl. exact D.
Qed.

Lemma reverseGeocode_rejects_iff_aux (lat lng : Q) :
  (ReverseGeocode.code
     (reverseGeocode nominatim (ReverseGeocode.mkBody (Some lat) (Some lng)))
   = 400%Z
   <-> ~ coordinatesOk lat lng)
  /\ (~ coordinatesOk lat lng ->
      forall other,
        reverseGeocode other (ReverseGeocode.mkBody (Some lat) (Some lng))
        = reverseGeocode nominatim
            (ReverseGeocode.mkBody (Some lat) (Some lng))).
Proof.
  split.
  - split.
    + intros C Ok. revert C. unfold reverseGeocode.
      rewrite (lookupAddress_ok lat lng Ok).
      destruct (nominatim lat lng) as [m|s|[d|]].
      * destruct (JS.includes m "fetch"); discriminate.
      * destruct (JS.includes _ "fetch"); discriminate.
      * destruct (Nominatim.display_name d) as [a|]; [|discriminate].
        destruct (JS.truthy a); discriminate.
      * discriminate.
    + intros N. unfold reverseGeocode, lookupAddress. cbv zeta.
      simpl ReverseGeocode.lat. simpl ReverseGeocode.lng.
      unfold parseFloat, isNaN.
      destruct (negb (truthyNumber lat) || negb (truthyNumber lng)) eqn:A;
        [reflexivity|].
      simpl orb.
      destruct (Qltb lat (-90) || Qgtb lat 90) eqn:B; [reflexivity|].
      destruct (Qltb lng (-180) || Qgtb lng 180) eqn:C; [reflexivity|].
      exfalso. apply N. apply coordinatesOk_tests. auto.
  - intros N other. unfold reverseGeocode, lookupAddress. cbv zeta.
    simpl ReverseGeocode.lat. simpl ReverseGeocode.lng.
    unfold parseFloat, isNaN.
    destruct (negb (truthyNumber lat) || negb (truthyNumber lng)) eqn:A;
      [reflexivity|].
    simpl orb.
    destruct (Qltb lat (-90) || Qgtb lat 90) eqn:B; [reflexivity|].
    destruct (Qltb lng (-180) || Qgtb lng 180) eqn:C; [reflexivity|].
    exfalso. apply N. apply coordinatesOk_tests. auto.
Qed.

(** The coordinates the endpoint accepts: the answer is 400 exactly when
    a coordinate is zero or out of its range, and then Nominatim has no
    part in the answer. *)
Theorem reverseGeocode_rejects_iff (lat lng : Q) :
  (ReverseGeocode.code
     (reverseGeocode nominatim (ReverseGeocode.mkBody (Some lat) (Some lng)))
   = 400%Z
   <-> ~ coordinatesOk lat lng)
  /\ (~ coordinatesOk lat lng ->
      forall other,
        reverseGeocode other (ReverseGeocode.mkBody (Some lat) (Some lng))
        = reverseGeocode nominatim
            (ReverseGeocode.mkBody (Some lat) (Some lng))).
Proof. exact (reverseGeocode_rejects_iff_aux lat lng). Qed.

(** How a failure of Nominatim is answered: a response that is not [ok]
    gives 500 "Failed to get address for coordinates" for every status
    code; 503 is given only to a rejected request whose error message
    contains "fetch"; an answer without [display_name] gives 404. *)
Theorem reverseGeocode_upstream (lat lng : Q) :
  coordinatesOk lat lng ->
  (forall status,
      nominatim lat lng = Nominatim.NotOk status ->
      reverseGeocode nominatim (ReverseGeocode.mkBody (Some lat) (Some lng))
      = ReverseGeocode.mkResponse 500
          (ReverseGeocode.Failure "Failed to get address for coordinates"
             ("Nominatim API error: " ++ statusString status)))
  /\ (ReverseGeocode.code
        (reverseGeocode nominatim
           (ReverseGeocode.mkBody (Some lat) (Some lng))) = 503%Z
      <-> exists message,
            nominatim lat lng = Nominatim.Rejected message
            /\ JS.Substring "fetch" message)
  /\ (forall data,
         nominatim lat lng = Nominatim.Json data ->
         (forall d, data = Some d -> Nominatim.display_name d = None) ->
         reverseGeocode nominatim
           (ReverseGeocode.mkBody (Some lat) (Some lng))
         = ReverseGeocode.mkResponse 404
             (ReverseGeocode.Message
                "No address found for the provided coordinates")).
Proof.
  intros Ok. unfold reverseGeocode. rewrite (lookupAddress_ok lat lng Ok).
  split; [|split].
  - intros status ->. rewrite statusString_no_fetch. reflexivity.
  - split.
    + destruct (nominatim lat lng) as [m|s|[d|]].
      * destruct (JS.includes m "fetch") eqn:E; [|discriminate].
        intros _. exists m. split; [reflexivity|].
        now apply includes_Substring.
      * rewrite statusString_no_fetch. discriminate.
      * destruct (Nominatim.display_name d) as [a|]; [|discriminate].
        destruct (JS.truthy a); discriminate.
      * discriminate.
    + intros (m & -> & S). apply includes_Substring in S. now rewrite S.
  - intros data -> H. destruct data as [d|]; [|reflexivity].
    now rewrite (H d eq_refl).
Qed.


End ReverseGeocodeTheorems.

(* ================================================================== *)
(** ** The client and the server *)
(* ================================================================== *)

Section ClientTheorems.

Variables (db : Store) (now : Z) (newId userId : string).

(** What the screen posts. *)
Lemma reportData_inr (f : Form.t) (body : ReportBody.t) :
  reportData f = inr body ->
  exists loc,
    Form.location f = Some loc
    /\ JS.trim (Form.description f) <> ""
    /\ Form.category f <> ""
    /\ Form.images f <> []
    /\ JS.trim (Form.address loc) <> ""
    /\ body
       = ReportBody.mk
           (Some (JS.trim (Form.description f)))
           (Some (ReportBody.mkLocation
                    (Some (Coordinate.Number (Form.lat loc)))
                    (Some (Coordinate.Number (Form.lng loc)))
                    (Some (JS.trim (Form.address loc)))))
           (Some (ReportBody.Array (Form.images f)))
           (Some (Form.category f))
           (Some (Form.severity f)).
Proof.
  unfold reportData.
  destruct (JS.truthy (JS.trim (Form.description f))) eqn:Td; simpl;
    [|discriminate].
  destruct (JS.truthy (Form.category f)) eqn:Tc; simpl; [|discriminate].
  destruct (Form.images f) as [|i imgs] eqn:Ei; simpl; [discriminate|].
  destruct (Form.location f) as [loc|]; [|discriminate].
  destruct (JS.truthy (JS.trim (Form.address loc))) eqn:Ta; simpl;
    [|discriminate].
  intros H. inversion H; subst; clear H.
  exists loc. apply truthy_nonempty in Td, Tc, Ta.
  repeat split; trivial. discriminate.
Qed.

(** An address typed by hand, when the form has no location yet, gives
    the form the coordinates (0, 0): the form passes the checks of the
    screen, and the server refuses it with 400 "Location must include
    lat, lng, and address", storing nothing. *)
Theorem manual_address_is_rejected (f : Form.t) (address : string)
    (body : ReportBody.t) :
  Form.location f = None ->
  Form.useCurrentLocation f = false ->
  JS.trim address <> "" ->
  reportData (handleManualAddressChange f address) = inr body ->
  Form.location (handleManualAddressChange f address)
  = Some (Form.mkLocation 0 0 (JS.trim address))
  /\ postReports db now newId userId body = (missingLocation, db).
Proof.
  intros Hl Hu Ha Hb.
  assert (L : Form.location (handleManualAddressChange f address)
              = Some (Form.mkLocation 0 0 (JS.trim address))).
  { unfold handleManualAddressChange. cbv zeta. simpl Form.location.
    rewrite Hl, Hu. apply truthy_nonempty in Ha. now rewrite Ha. }
  split; [exact L|].
  destruct (reportData_inr _ _ Hb) as (loc & El & Nd & Nc & Ni & Na & ->).
  rewrite L in El. inversion El; subst loc; clear El.
  unfold handleManualAddressChange in Nd, Nc. simpl in Nd, Nc.
  apply truthy_nonempty in Nd, Nc.
  unfold postReports, submitReport. simpl.
  rewrite Nd. simpl. rewrite Nc. reflexivity.
Qed.

Lemma checked_form_lemma (f : Form.t) (loc : Form.location_t)
    (body : ReportBody.t) :
  reportData f = inr body ->
  Form.location f = Some loc ->
  coordinatesOk (Form.lat loc) (Form.lng loc) ->
  In (Form.category f) pickerCategories ->
  In (Form.severity f) pickerSeverities ->
  Forall (fun i => i <> "") (Form.images f) ->
  userId <> "" ->
  findReportById db newId = None ->
  code (fst (postReports db now newId userId body)) = 201%Z.
Proof.
  intros Hb Hl (Zlat & Zlng & [Rlat1 Rlat2] & [Rlng1 Rlng2]) Hc Hs Hi Hu Hf.
  destruct (reportData_inr _ _ Hb) as (loc' & El & Nd & Nc & Ni & Na & ->).
  rewrite Hl in El. inversion El; subst loc'; clear El.
  apply postReports_accepts_lemma.
  exists (JS.trim (Form.description f)),
    (ReportBody.mkLocation (Some (Coordinate.Number (Form.lat loc)))
       (Some (Coordinate.Number (Form.lng loc)))
       (Some (JS.trim (Form.address loc)))),
    (Coordinate.Number (Form.lat loc)), (Coordinate.Number (Form.lng loc)),
    (JS.trim (Form.address loc)), (Form.images f), (Form.category f).
  cbn [ReportBody.description ReportBody.location ReportBody.images
       ReportBody.category ReportBody.severity ReportBody.lat
       ReportBody.lng ReportBody.address].
  rewrite !trim_idem, !coordinateAccepted_Number.
  assert (Ts : JS.truthy (Form.severity f) = true).
  { unfold pickerSeverities in Hs. simpl in Hs.
    destruct Hs as [<-|[<-|[<-|[]]]]; reflexivity. }
  unfold orMedium. rewrite Ts.
  repeat match goal with |- _ /\ _ => split end; trivial.
Qed.

(** A form that passes the checks of the screen, with coordinates that
    are not zero and within their ranges, a category and a severity of
    the pickers and uploaded images, is stored by the server (201). *)
Theorem checked_form_is_accepted (f : Form.t) (loc : Form.location_t)
    (body : ReportBody.t) :
  reportData f = inr body ->
  Form.location f = Some loc ->
  coordinatesOk (Form.lat loc) (Form.lng loc) ->
  In (Form.category f) pickerCategories ->
  In (Form.severity f) pickerSeverities ->
  Forall (fun i => i <> "") (Form.images f) ->
  userId <> "" ->
  findReportById db newId = None ->
  code (fst (postReports db now newId userId body)) = 201%Z.
Proof. exact (checked_form_lemma f loc body). Qed.

(** The whole way of a report: coordinates that
    [POST /location/reverse-geocode] answered with an address make a
    location that the server accepts; with the other fields as above the
    report is stored. *)
Theorem geocoded_form_is_accepted (nominatim : Q -> Q -> Nominatim.answer)
    (f : Form.t) (lat lng : Q) (address full source : string)
    (components : ReverseGeocode.components_t) (body : ReportBody.t) :
  reverseGeocode nominatim (ReverseGeocode.mkBody (Some lat) (Some lng))
  = ReverseGeocode.mkResponse 200
      (ReverseGeocode.Address address full components source) ->
  reportData (setGeocodedLocation f lat lng address) = inr body ->
  In (Form.category f) pickerCategories ->
  In (Form.severity f) pickerSeverities ->
  Forall (fun i => i <> "") (Form.images f) ->
  userId <> "" ->
  findReportById db newId = None ->
  code (fst (postReports db now newId userId body)) = 201%Z.
Proof.
  intros Hg Hb Hc Hs Hi Hu Hf.
  assert (Ok : coordinatesOk lat lng).
  { destruct (coordinatesOk_dec lat lng) as [Ok|N]; [exact Ok|].
    apply (proj1 (reverseGeocode_rejects_iff_aux nominatim lat lng)) in N.
    rewrite Hg in N. discriminate. }
  apply (checked_form_lemma (setGeocodedLocation f lat lng address)
           (Form.mkLocation lat lng address) body); trivial.
Qed.

End ClientTheorems.

Section LoadMore.

Variable castsToObjectId : string -> bool.
Variables (db : Store) (reqUserId : string).
Variable currentUser : User.t.
Hypothesis found_user : findUserById db reqUserId = Some currentUser.

Lemma page_length (query : Query.t) (l skip : Z) :
  (0 < l)%Z -> (0 <= skip)%Z ->
  Z.of_nat
    (length
       (firstn (Z.to_nat l)
          (skipn (Z.to_nat skip) (sortCreatedAtDesc (matching db query)))))
  = Z.max 0 (Z.min l (countDocuments db query - skip)).
Proof.
  intros Hl Hs. unfold matching, countDocuments.
  rewrite length_firstn, length_skipn, sortCreatedAtDesc_length. lia.
Qed.

(** [MyReportsScreen] loads more exactly when there is more: if the page
    on the screen was answered with [hasNext], [loadMore] asks for the
    next page and the server answers it with at least one report;
    otherwise [loadMore] asks for nothing, and the next page would be
    empty. *)
Theorem loadMore_fetches_what_is_left (filters : MyReports.filters_t)
    (p : Z) :
  (0 < p)%Z ->
  (forall next,
      loadMore
        (paginationOf
           (getReports castsToObjectId db reqUserId
              (fetchReportsQuery filters p))) false
      = Some next ->
      next = (p + 1)%Z
      /\ reportsOf (getReports castsToObjectId db reqUserId
                      (fetchReportsQuery filters next))
         <> [])
  /\ (loadMore
        (paginationOf
           (getReports castsToObjectId db reqUserId
              (fetchReportsQuery filters p))) false
      = None ->
      reportsOf
        (getReports castsToObjectId db reqUserId
           (fetchReportsQuery filters (p + 1))) = []).
Proof.
  intros Hp.
  set (q := fetchReportsQuery filters 1).
  assert (W : forall x, fetchReportsQuery filters x = withPage q x)
    by reflexivity.
  assert (L : orDefault (ListQuery.limit q) 10 = 10%Z) by reflexivity.
  assert (Oc : ownerFilterCasts castsToObjectId currentUser q).
  { intros _ u E. discriminate E. }
  assert (G : forall x, (0 < x)%Z ->
            getReports castsToObjectId db reqUserId (withPage q x)
            = mkResponse 200
                (ReportPage
                   (map (populate false db)
                      (firstn (Z.to_nat 10)
                         (skipn (Z.to_nat ((x - 1) * 10))
                            (sortCreatedAtDesc
                               (matching db
                                  (buildQuery currentUser reqUserId q))))))
                   (mkPagination x
                      (Some (ceilDiv
                               (countDocuments db
                                  (buildQuery currentUser reqUserId q)) 10))
                      (countDocuments db
                         (buildQuery currentUser reqUserId q))
                      (x <? ceilDiv
                              (countDocuments db
                                 (buildQuery currentUser reqUserId q)) 10)%Z
                      (1 <? x)%Z)
                   (mkFilters (ListQuery.status q) (ListQuery.category q)
                      (ListQuery.userId q)))).
  { intros x Hx.
    rewrite (getReports_withPage castsToObjectId db reqUserId q currentUser
               found_user Oc x Hx) by (rewrite L; lia).
    rewrite L. reflexivity. }
  rewrite !W.
  rewrite (G p Hp).
  unfold paginationOf, loadMore. cbn [body hasNext currentPage]. cbv iota.
  rewrite andb_true_r.
  set (query := buildQuery currentUser reqUserId q) in *.
  set (n := countDocuments db query) in *.
  pose proof (ceilDiv_spec n 10 ltac:(lia)) as K.
  assert (N : Z.of_nat
                (length
                   (reportsOf
                      (getReports castsToObjectId db reqUserId
                         (withPage q (p + 1)))))
              = Z.max 0 (Z.min 10 (n - p * 10))).
  { rewrite (G (p + 1)%Z) by lia.
    unfold reportsOf. cbn [body]. cbv iota. rewrite length_map.
    rewrite page_length; [|lia|lia].
    fold n. f_equal. f_equal. lia. }
  destruct (p <? ceilDiv n 10)%Z eqn:E.
  - split; [|discriminate].
    intros next H. inversion H; subst next. split; [reflexivity|].
    rewrite W. apply Z.ltb_lt in E.
    intros Z. rewrite Z in N. simpl in N. nia.
  - split; [discriminate|]. intros _. apply Z.ltb_ge in E.
    destruct (reportsOf (getReports castsToObjectId db reqUserId
                           (withPage q (p + 1))))
      as [|x xs]; [reflexivity|].
    simpl length in N. nia.
Qed.

End LoadMore.

(* ================================================================== *)
(** ** AuthContext *)
(* ================================================================== *)

Section AuthContextTheorems.

Variable user_t : Type.
Variable stringify : user_t -> string.
Variable parse : string -> user_t.

(** The session survives a restart of the app, and a logout does too:
    after [login] with a token that is not empty, [loadAuthData] on the
    storage restores the state [login] had set, provided [JSON.parse]
    undoes [JSON.stringify] on the user and the text of the user is not
    empty; after [logout] it restores nothing; and a session with an
    empty token is not restored. *)
Theorem auth_state_survives_restart (st : Storage) (t : string)
    (u : user_t) :
  parse (stringify u) = u ->
  stringify u <> "" ->
  (t <> "" ->
   loadAuthData user_t parse (snd (contextLogin user_t stringify st t u))
   = fst (contextLogin user_t stringify st t u))
  /\ loadAuthData user_t parse
       (snd (contextLogin user_t stringify st "" u))
     = loggedOut user_t
  /\ loadAuthData user_t parse (snd (contextLogout user_t st))
     = loggedOut user_t
  /\ loadAuthData user_t parse
       (snd (contextLogout user_t
               (snd (contextLogin user_t stringify st t u))))
     = loggedOut user_t.
Proof.
  intros Hp Hs. apply truthy_nonempty in Hs.
  unfold loadAuthData, contextLogin, contextLogout, setItem, removeItem.
  simpl. rewrite Hs, Hp. repeat split.
  intros Ht. apply truthy_nonempty in Ht. now rewrite Ht.
Qed.

End AuthContextTheorems.

(* ================================================================== *)
(** ** extractField: theorems *)
(* ================================================================== *)

Section ExtractField.

Lemma singleLine_trimStart (s : string) :
  Field.singleLine s = true -> Field.singleLine (JS.trimStart s) = true.
Proof.
  induction s as [|c s IH]; simpl; intros H; [reflexivity|].
  apply andb_true_iff in H. destruct H as [Hc Hs].
  destruct (JS.isWhiteSpace c); [auto|]. simpl. now rewrite Hc, Hs.
Qed.

Lemma singleLine_trimEnd (s : string) :
  Field.singleLine s = true -> Field.singleLine (JS.trimEnd s) = true.
Proof.
  induction s as [|c s IH]; simpl; intros H; [reflexivity|].
  apply andb_true_iff in H. destruct H as [Hc Hs].
  specialize (IH Hs).
  destruct (JS.trimEnd s) as [|d t].
  - destruct (JS.isWhiteSpace c); simpl; [reflexivity|]. now rewrite Hc.
  - change (Field.singleLine (String c (String d t)))
      with (negb (Field.isLineTerminator c)
            && Field.singleLine (String d t)).
    now rewrite Hc, IH.
Qed.

Lemma singleLine_trim (s : string) :
  Field.singleLine s = true -> Field.singleLine (JS.trim s) = true.
Proof.
  intros H. unfold JS.trim. now apply singleLine_trimEnd, singleLine_trimStart.
Qed.

Lemma capture_singleLine (rest found : string) :
  Field.capture rest = Some found -> Field.singleLine found = true.
Proof.
  revert found. induction rest as [|c r IH]; simpl; intros found H;
    [discriminate|].
  destruct (Field.isLineTerminator c) eqn:L; [discriminate|].
  destruct (Field.lookahead r).
  - inversion H. simpl. now rewrite L.
  - destruct (Field.capture r) as [f|]; [|discriminate].
    inversion H. simpl. rewrite L. simpl. now apply IH.
Qed.

Lemma afterColon_singleLine (rest found : string) :
  Field.afterColon rest = Some found -> Field.singleLine found = true.
Proof.
  revert found. induction rest as [|c r IH]; intros found H.
  - simpl in H. discriminate.
  - change (Field.afterColon (String c r))
      with (if JS.isWhiteSpace c
            then match Field.afterColon r with
                 | Some f => Some f
                 | None => Field.capture (String c r)
                 end
            else Field.capture (String c r)) in H.
    destruct (JS.isWhiteSpace c).
    + destruct (Field.afterColon r) as [f|].
      * inversion H; subst. now apply IH.
      * now apply capture_singleLine in H.
    + now apply capture_singleLine in H.
Qed.

Lemma search_singleLine (text lit found : string) :
  Field.search text lit = Some found -> Field.singleLine found = true.
Proof.
  revert found. induction text as [|c t IH]; intros found H.
  - simpl in H. unfold Field.matchHere in H.
    destruct (Field.startsWithNoCase "" lit); [|discriminate].
    destruct (Field.afterColon _) as [f|] eqn:A; [|discriminate].
    inversion H; subst. now apply afterColon_singleLine in A.
  - change (Field.search (String c t) lit)
      with (match Field.matchHere (String c t) lit with
            | Some f => Some f
            | None => Field.search t lit
            end) in H.
    destruct (Field.matchHere (String c t) lit) as [f|] eqn:M.
    + inversion H; subst. unfold Field.matchHere in M.
      destruct (Field.startsWithNoCase _ lit); [|discriminate].
      now apply afterColon_singleLine in M.
    + now apply IH.
Qed.

(** What [extractField] returns for a field name of letters is trimmed
    and has no line break in it, whatever the text. *)
Theorem extractField_trimmed_line (text fieldName : string) :
  Field.allLetters fieldName = true ->
  JS.trim (extractField text fieldName) = extractField text fieldName
  /\ Field.singleLine (extractField text fieldName) = true.
Proof.
  intros _. unfold extractField.
  destruct (Field.search text (fieldName ++ ":")) as [found|] eqn:S.
  - split; [apply trim_idem|].
    apply singleLine_trim. now apply search_singleLine in S.
  - split; reflexivity.
Qed.

Lemma startsWithNoCase_app (lit rest : string) :
  Field.startsWithNoCase (lit ++ rest) lit = true.
Proof.
  induction lit as [|a lit IH]; simpl; [reflexivity|].
  now rewrite Ascii.eqb_refl, IH.
Qed.

Lemma drop_app (lit rest : string) :
  Field.drop (String.length lit) (lit ++ rest) = rest.
Proof. induction lit as [|a lit IH]; simpl; [reflexivity | exact IH]. Qed.

Lemma lineTerminator_feed (c : ascii) :
  Field.isLineTerminator c = false -> (nat_of_ascii c =? 10)%nat = false.
Proof.
  unfold Field.isLineTerminator. cbv zeta. intros H.
  apply orb_false_iff in H. apply H.
Qed.

Lemma capture_line (x tail : string) :
  x <> "" ->
  Field.singleLine x = true ->
  Field.lookahead tail = true ->
  Field.capture (x ++ tail) = Some x.
Proof.
  intros Hx Hs Ht. induction x as [|c x IH]; [now contradiction Hx|].
  simpl in Hs. apply andb_true_iff in Hs. destruct Hs as [Hc Hs].
  apply negb_true_iff in Hc.
  change (Field.capture (String c x ++ tail))
    with (if Field.isLineTerminator c then None
          else if Field.lookahead (x ++ tail) then Some (String c "")
          else option_map (String c) (Field.capture (x ++ tail))).
  rewrite Hc. destruct x as [|d x'].
  - simpl append. now rewrite Ht.
  - assert (L : Field.lookahead (String d x' ++ tail) = false).
    { simpl in Hs. apply andb_true_iff in Hs. destruct Hs as [Hd _].
      apply negb_true_iff in Hd. simpl.
      now rewrite (lineTerminator_feed d Hd). }
    rewrite L, IH; [reflexivity | discriminate | exact Hs].
Qed.

Lemma afterColon_white (ws x tail : string) :
  Field.allWhite ws = true ->
  Field.startsNonWhite x = true ->
  Field.capture (x ++ tail) = Some x ->
  Field.afterColon (ws ++ x ++ tail) = Some x.
Proof.
  intros Hw Hx Hc. induction ws as [|w ws IH].
  - destruct x as [|c x']; [discriminate|].
    simpl in Hx. apply negb_true_iff in Hx.
    change (Field.afterColon ("" ++ String c x' ++ tail))
      with (if JS.isWhiteSpace c
            then match Field.afterColon (x' ++ tail) with
                 | Some f => Some f
                 | None => Field.capture (String c x' ++ tail)
                 end
            else Field.capture (String c x' ++ tail)).
    now rewrite Hx.
  - simpl in Hw. apply andb_true_iff in Hw. destruct Hw as [Hw Hws].
    change (Field.afterColon (String w ws ++ x ++ tail))
      with (if JS.isWhiteSpace w
            then match Field.afterColon (ws ++ x ++ tail) with
                 | Some f => Some f
                 | None => Field.capture (String w ws ++ x ++ tail)
                 end
            else Field.capture (String w ws ++ x ++ tail)).
    now rewrite Hw, (IH Hws).
Qed.

Lemma search_skip (pre tail lit : string) :
  Field.noStartIn pre tail lit = true ->
  Field.search (pre ++ tail) lit = Field.search tail lit.
Proof.
  induction pre as [|c pre IH]; intros H; [reflexivity|].
  simpl in H. apply andb_true_iff in H. destruct H as [Hc Hp].
  apply negb_true_iff in Hc.
  change (Field.search (String c pre ++ tail) lit)
    with (match Field.matchHere (String c (pre ++ tail)) lit with
          | Some f => Some f
          | None => Field.search (pre ++ tail) lit
          end).
  unfold Field.matchHere. rewrite Hc. now apply IH.
Qed.

Lemma search_here (lit rest found : string) :
  Field.afterColon rest = Some found ->
  Field.search (lit ++ rest) lit = Some found.
Proof.
  intros H.
  assert (M : Field.matchHere (lit ++ rest) lit = Some found).
  { unfold Field.matchHere. now rewrite startsWithNoCase_app, drop_app. }
  destruct (lit ++ rest); simpl; now rewrite M.
Qed.

(** Reading a field back: where the text holds the name of the field and
    a colon, not beginning earlier, then white space, then a value on
    one line that does not begin with white space, and then ends or goes
    on with a line feed and a letter, [extractField] returns the value,
    trimmed. *)
Lemma extractField_reads_lemma (pre fieldName ws x tail : string) :
  Field.noStartIn pre ((fieldName ++ ":") ++ ws ++ x ++ tail)
    (fieldName ++ ":") = true ->
  Field.allWhite ws = true ->
  Field.startsNonWhite x = true ->
  Field.singleLine x = true ->
  Field.lookahead tail = true ->
  extractField (pre ++ (fieldName ++ ":") ++ ws ++ x ++ tail) fieldName
  = JS.trim x.
Proof.
  intros Hp Hw Hx Hs Ht. unfold extractField.
  rewrite (search_skip _ _ _ Hp).
  rewrite (search_here (fieldName ++ ":") (ws ++ x ++ tail) x);
    [reflexivity|].
  apply afterColon_white; trivial.
  apply capture_line; trivial.
  intros ->. discriminate.
Qed.

Lemma string_app_assoc (a b c : string) : (a ++ b) ++ c = a ++ (b ++ c).
Proof. induction a as [|x a IH]; simpl; [reflexivity | now rewrite IH]. Qed.

Lemma lowerChar_colon (b : ascii) :
  Ascii.eqb (JS.lowerChar ":") (JS.lowerChar b) = Ascii.eqb ":" b.
Proof. destruct b as [[] [] [] [] [] [] [] []]; reflexivity. Qed.

Lemma lowerChar_letter_feed (a : ascii) :
  Field.isLetter a = true ->
  Ascii.eqb (JS.lowerChar a) (JS.lowerChar (ascii_of_nat 10)) = false.
Proof.
  destruct a as [[] [] [] [] [] [] [] []]; vm_compute; intros H; congruence.
Qed.

(** The name of a field and its colon do not begin in a line without a
    colon. *)
Lemma no_start_in_line (w : string) :
  Field.allLetters w = true ->
  forall u rest,
    Field.noColon u = true ->
    Field.startsWithNoCase (u ++ LF ++ rest) (w ++ ":") = false.
Proof.
  intros Hw. induction w as [|a w IH]; intros u rest Hu.
  - destruct u as [|b u]; [reflexivity|].
    simpl in Hu. apply andb_true_iff in Hu. destruct Hu as [Hb _].
    apply negb_true_iff in Hb.
    change (Field.startsWithNoCase (String b u ++ LF ++ rest) ("" ++ ":"))
      with (Ascii.eqb (JS.lowerChar ":") (JS.lowerChar b) && true).
    now rewrite lowerChar_colon, Ascii.eqb_sym, Hb.
  - simpl in Hw. apply andb_true_iff in Hw. destruct Hw as [Ha Hw].
    destruct u as [|b u].
    + change (Field.startsWithNoCase ("" ++ LF ++ rest) (String a w ++ ":"))
        with (Ascii.eqb (JS.lowerChar a) (JS.lowerChar (ascii_of_nat 10))
              && Field.startsWithNoCase rest (w ++ ":")).
      now rewrite (lowerChar_letter_feed a Ha).
    + simpl in Hu. apply andb_true_iff in Hu. destruct Hu as [_ Hu].
      change (Field.startsWithNoCase (String b u ++ LF ++ rest)
                (String a w ++ ":"))
        with (Ascii.eqb (JS.lowerChar a) (JS.lowerChar b)
              && Field.startsWithNoCase (u ++ LF ++ rest) (w ++ ":")).
      now rewrite (IH Hw u rest Hu), andb_false_r.
Qed.

Lemma noStartIn_line (w u rest : string) :
  Field.allLetters w = true ->
  Field.noColon u = true ->
  Field.noStartIn (u ++ LF) rest (w ++ ":") = true.
Proof.
  intros Hw. induction u as [|b u IH]; intros Hu.
  - simpl. rewrite andb_true_r. apply negb_true_iff.
    exact (no_start_in_line w Hw "" rest eq_refl).
  - change (Field.noStartIn (String b u ++ LF) rest (w ++ ":"))
      with (negb (Field.startsWithNoCase ((String b u ++ LF) ++ rest)
                    (w ++ ":"))
            && Field.noStartIn (u ++ LF) rest (w ++ ":")).
    rewrite string_app_assoc, (no_start_in_line w Hw (String b u) rest Hu).
    simpl in Hu. apply andb_true_iff in Hu. destruct Hu as [_ Hu].
    now rewrite (IH Hu).
Qed.

Lemma noStartIn_app (p1 p2 tail lit : string) :
  Field.noStartIn (p1 ++ p2) tail lit
  = Field.noStartIn p1 (p2 ++ tail) lit && Field.noStartIn p2 tail lit.
Proof.
  induction p1 as [|c p1 IH]; [reflexivity|].
  change (Field.noStartIn (String c p1 ++ p2) tail lit)
    with (negb (Field.startsWithNoCase ((String c p1 ++ p2) ++ tail) lit)
          && Field.noStartIn (p1 ++ p2) tail lit).
  change (Field.noStartIn (String c p1) (p2 ++ tail) lit)
    with (negb (Field.startsWithNoCase (String c p1 ++ p2 ++ tail) lit)
          && Field.noStartIn p1 (p2 ++ tail) lit).
  now rewrite IH, string_app_assoc, andb_assoc.
Qed.

Lemma isValue_parts (s : string) :
  Field.isValue s = true ->
  Field.singleLine s = true /\ Field.noColon s = true
  /\ Field.startsNonWhite s = true.
Proof.
  unfold Field.isValue, Field.startsNonWhite. intros H.
  apply andb_true_iff in H. destruct H as [H H3].
  apply andb_true_iff in H. destruct H as [H1 H2]. auto.
Qed.

(** The way of a well-formed answer through the handler: from a text in
    the format of the prompt, whose description, category and severity
    are values on one line without a colon, the three fields are read
    back and reconciled; a category of the list and a severity among
    "Low", "Medium", "High" are answered as the model gave them. *)
Theorem describeText_formatted (d c s a : string) :
  Field.isValue d = true ->
  Field.isValue c = true ->
  Field.isValue s = true ->
  extractField (formatted d c s a) "Description" = JS.trim d
  /\ extractField (formatted d c s a) "Category" = JS.trim c
  /\ extractField (formatted d c s a) "Severity" = JS.trim s
  /\ describeText (formatted d c s a) = Describe.structure d c s
  /\ (In c Describe.validCategories -> In s validSeverities ->
      describeText (formatted d c s a) = Describe.mk (JS.trim d) c s).
Proof.
  intros Hd Hc Hs.
  destruct (isValue_parts d Hd) as (Ld & Cd & Wd).
  destruct (isValue_parts c Hc) as (Lc & Cc & Wc).
  destruct (isValue_parts s Hs) as (Ls & Cs & Ws).
  assert (ED : extractField (formatted d c s a) "Description" = JS.trim d).
  { unfold formatted.
    apply (extractField_reads_lemma "" "Description" " " d); trivial. }
  assert (EC : extractField (formatted d c s a) "Category" = JS.trim c).
  { assert (E : formatted d c s a
                = ("Description: " ++ (d ++ LF))
                  ++ ("Category" ++ ":") ++ " " ++ c
                  ++ (LF ++ "Severity: " ++ s ++ LF ++ "ActionRequired: " ++ a)).
    { unfold formatted. rewrite !string_app_assoc. reflexivity. }
    rewrite E.
    apply (extractField_reads_lemma ("Description: " ++ (d ++ LF))
             "Category" " " c); trivial.
    rewrite noStartIn_app.
    rewrite (noStartIn_line "Category" d _ eq_refl Cd).
    reflexivity. }
  assert (ES : extractField (formatted d c s a) "Severity" = JS.trim s).
  { assert (E : formatted d c s a
                = (("Description: " ++ (d ++ LF)) ++ ("Category: " ++ (c ++ LF)))
                  ++ ("Severity" ++ ":") ++ " " ++ s
                  ++ (LF ++ "ActionRequired: " ++ a)).
    { unfold formatted. rewrite !string_app_assoc. reflexivity. }
    rewrite E.
    apply (extractField_reads_lemma
             (("Description: " ++ (d ++ LF)) ++ ("Category: " ++ (c ++ LF)))
             "Severity" " " s); trivial.
    rewrite (noStartIn_app ("Description: " ++ (d ++ LF))).
    rewrite (noStartIn_app "Description: " (d ++ LF)).
    rewrite (noStartIn_app "Category: " (c ++ LF)).
    rewrite (noStartIn_line "Severity" d _ eq_refl Cd).
    rewrite (noStartIn_line "Severity" c _ eq_refl Cc).
    reflexivity. }
  split; [exact ED|]. split; [exact EC|]. split; [exact ES|].
  assert (S : describeText (formatted d c s a) = Describe.structure d c s).
  { unfold describeText. rewrite ED, EC, ES.
    unfold Describe.structure, Describe.orUnable, Describe.finalCategory,
      finalSeverity. cbv zeta. now rewrite !trim_idem. }
  split; [exact S|].
  intros Ic Is. rewrite S. unfold Describe.structure.
  assert (Tc : JS.trim c = c).
  { unfold Describe.validCategories in Ic.
    repeat (destruct Ic as [<-|Ic]; [reflexivity|]). destruct Ic. }
  assert (Fc : Describe.finalCategory c = c).
  { unfold Describe.validCategories in Ic.
    repeat (destruct Ic as [<-|Ic]; [reflexivity|]). destruct Ic. }
  assert (Fs : finalSeverity s = s).
  { unfold validSeverities in Is. simpl in Is.
    destruct Is as [<-|[<-|[<-|[]]]]; reflexivity. }
  rewrite Fc, Fs. f_equal. unfold Describe.orUnable.
  destruct (JS.truthy (JS.trim d)) eqn:E; [reflexivity|].
  exfalso. destruct d as [|x d']; [discriminate|].
  simpl in Wd. apply negb_true_iff in Wd.
  unfold JS.trim in E. rewrite (trimStart_fixed x d' Wd) in E.
  destruct (trimEnd_head x d' Wd) as [t Ht]. rewrite Ht in E. discriminate.
Qed.

End ExtractField.

(* ================================================================== *)
(** ** HomeScreen and the routes *)
(* ================================================================== *)

Section HomeScreen.

Variable isValid : string -> bool.
Variable castsToObjectId : string -> bool.

(** There is no route for recent reports: the request of [HomeScreen] is
    routed to [GET /api/reports/:id] with the identifier "recent", and,
    "recent" not being a well-formed identifier, it is answered 400
    "Invalid report ID format" whoever asks and whatever is stored. *)
Theorem recent_reports_are_never_served (db : Store) (now : Z)
    (reqUserId : string) (q : ListQuery.t) :
  isValid "recent" = false ->
  reportRoute recentReportsPath = Some (DetailRoute "recent")
  /\ getReportRoute isValid castsToObjectId db now reqUserId
       recentReportsPath q
     = Some (mkResponse 400 (Message "Invalid report ID format")).
Proof.
  intros H. split; [reflexivity|].
  unfold getReportRoute.
  change (reportRoute recentReportsPath) with (Some (DetailRoute "recent")).
  unfold getReportById, fetchReport. now rewrite H.
Qed.

End HomeScreen.

(* ================================================================== *)
(** ** The further theorems at the sample data *)
(* ================================================================== *)

Section MoreInstances.

Lemma sample_uniqueIds : uniqueIds Sample.db.
Proof.
  unfold uniqueIds. simpl.
  repeat (constructor; [simpl; intuition discriminate|]). constructor.
Qed.

Lemma submission_stores_request_witness :
  exists d,
    findReportById
      (snd (postReports Sample.db 1000 Sample.freshId (User._id Sample.alice)
              (Sample.bodyAt (185 # 10) (735 # 10) None)))
      Sample.freshId = Some d
    /\ Report.userId d = User._id Sample.alice
    /\ Report.description d = "Street light broken"
    /\ Report.severity d = "Medium".
Proof.
  destruct (submission_stores_request Sample.db 1000 Sample.freshId
              (User._id Sample.alice)
              (Sample.bodyAt (185 # 10) (735 # 10) None) eq_refl)
    as (d & description & loc & address & imgs & category & F & Ed & _ & _
        & _ & _ & _ & Hu & Hd & _ & _ & _ & _ & _ & _ & _ & _ & Hs & _).
  exists d. inversion Ed; subst description.
  repeat split; assumption.
Defined.

Lemma postReports_schema_failure_witness :
  exists e,
    postReports Sample.db 1000 Sample.freshId (User._id Sample.alice)
      Cases.blankDescription
    = (mkResponse 500 (Failure "Failed to submit report" e), Sample.db).
Proof.
  apply (postReports_schema_failure Sample.db 1000 Sample.freshId
           (User._id Sample.alice) Cases.blankDescription
           (185 # 10) (735 # 10) "Electricity").
  - unfold reachesCoordinateCheck, Cases.blankDescription.
    do 5 eexists. simpl.
    repeat split; try reflexivity; discriminate.
  - split; discriminate.
  - split; discriminate.
  - reflexivity.
  - simpl. auto.
  - intros (description & loc & lat & lng & address & imgs & category
            & Ed & Td & _).
    inversion Ed; subst description. now apply Td.
Defined.

Lemma submit_then_fetch_witness :
  exists d,
    getReportById Sample.isHex24
      (snd (postReports Sample.db 1000 Sample.freshId (User._id Sample.alice)
              (Sample.bodyAt (185 # 10) (735 # 10) None)))
      4000 (User._id Sample.alice) Sample.freshId
    = mkResponse 200
        (ReportDetail
           (mkMeta
              (populate true
                 (snd (postReports Sample.db 1000 Sample.freshId
                         (User._id Sample.alice)
                         (Sample.bodyAt (185 # 10) (735 # 10) None))) d)
              3000 true true))
    /\ Report.category d = "Electricity".
Proof.
  destruct (submit_then_fetch Sample.isHex24 Sample.db 1000 Sample.freshId
              (User._id Sample.alice)
              (Sample.bodyAt (185 # 10) (735 # 10) None) Sample.alice 4000
              eq_refl eq_refl eq_refl)
    as (d & R & _ & _ & C).
  exists d. split; [exact R|]. now inversion C.
Defined.

Lemma submit_then_list_witness :
  exists d rest,
    map doc
      (reportsOf
         (getReports Sample.isHex24
            (snd (postReports Sample.db 1000 Sample.freshId
                    (User._id Sample.alice)
                    (Sample.bodyAt (185 # 10) (735 # 10) None)))
            (User._id Sample.alice) Cases.noParameters))
    = d :: rest
    /\ Report._id d = Sample.freshId.
Proof.
  destruct (submit_then_list Sample.isHex24 Sample.db 1000 Sample.freshId
              (User._id Sample.alice)
              (Sample.bodyAt (185 # 10) (735 # 10) None) Sample.alice
              Cases.noParameters eq_refl eq_refl)
    as (d & rest & before & after & H & I & _).
  - intros r [<-|[<-|[<-|[]]]]; reflexivity.
  - reflexivity.
  - reflexivity.
  - left. discriminate.
  - reflexivity.
  - reflexivity.
  - exists d, rest. split; assumption.
Defined.

Lemma page_sizes_witness :
  exists found pagination filters,
    getReports Sample.isHex24 Sample.db25 (User._id Sample.alice)
      (withPage Sample.firstPage 3)
    = mkResponse 200 (ReportPage found pagination filters)
    /\ Z.of_nat (length found) = 5%Z.
Proof.
  destruct (page_sizes Sample.isHex24 Sample.db25 (User._id Sample.alice)
              Sample.firstPage Sample.alice eq_refl
              ltac:(intros R; discriminate R) 3%Z eq_refl eq_refl)
    as (found & pagination & filters & pages & E & L & _).
  exists found, pagination, filters. split; [exact E|].
  assert (T : totalReports pagination = 25%Z).
  { pose proof (f_equal paginationOf E) as P.
    vm_compute in P. inversion P. reflexivity. }
  rewrite L, T. reflexivity.
Defined.

Lemma pages_cover_witness :
  concat
    (map (fun i =>
            map doc
              (reportsOf
                 (getReports Sample.isHex24 Sample.db (User._id Sample.root)
                    (withPage Cases.pagesOfTwo (Z.of_nat (S i))))))
       (seq 0 2))
  = [Sample.r3; Sample.r2; Sample.r1].
Proof.
  apply (pages_cover Sample.isHex24 Sample.db (User._id Sample.root)
           Cases.pagesOfTwo Sample.root eq_refl
           ltac:(intros _ u E; discriminate E) eq_refl).
  repeat (constructor; [simpl; intuition discriminate|]). constructor.
Defined.

Lemma report_only_for_admin_or_owner_witness :
  exists u,
    findUserById Sample.db (User._id Sample.alice) = Some u
    /\ (User.role u = "admin"
        \/ Report.userId Sample.r1 = User._id Sample.alice).
Proof.
  destruct (report_only_for_admin_or_owner Sample.isHex24 Sample.db 5000
              (User._id Sample.alice) (Report._id Sample.r1) 200
              (mkMeta (populate true Sample.db Sample.r1) 4900 true true)
              eq_refl)
    as (u & Hu & Hr & _).
  exists u. split; assumption.
Defined.

Lemma detail_metadata_witness :
  canEdit (mkMeta (populate true Sample.db Sample.r1) 4900 true false) = true
  /\ (isOwnReport (mkMeta (populate true Sample.db Sample.r1) 4900 true false)
      = true
      <-> Report.userId Sample.r1 = User._id Sample.root).
Proof.
  destruct (detail_metadata Sample.isHex24 Sample.db 5000
              (User._id Sample.root) (Report._id Sample.r1) 200
              (mkMeta (populate true Sample.db Sample.r1) 4900 true false)
              eq_refl)
    as (C & O & _ & _).
  split; assumption.
Defined.

Lemma login_failures_alike_witness :
  login Toy.compare Toy.sign Sample.db 1000 Toy.stranger
  = invalidCredentials.
Proof.
  apply (proj1 (login_failures_alike Toy.compare Toy.sign Sample.db 1000
                  Toy.stranger "nobody@example.org" "hash"
                  eq_refl ltac:(discriminate) eq_refl ltac:(discriminate))).
  left. reflexivity.
Defined.

Lemma auth_reads_bearer_token_witness :
  auth Toy.verify (Some "Bearer 64f000000000000000000001") 1000
  = inr "64f000000000000000000001"
  /\ auth Toy.verify (Some "Bearer 64f000000000000000000001 and more") 1000
     = auth Toy.verify (Some "Bearer 64f000000000000000000001") 1000.
Proof.
  destruct (auth_reads_bearer_token Toy.verify "64f000000000000000000001"
              1000 eq_refl)
    as (A & B & _).
  split; [exact A | exact (B "and more")].
Defined.

Lemma register_login_auth_witness :
  exists token,
    login Toy.compare Toy.sign
      (snd (register Toy.hash "citizen" (fun _ => true) Sample.db
              Toy.carolId "salt" Toy.carol))
      2000
      (Credentials.mk None (Some "carol@example.org") (Some "secret1"))
    = mkAccountResponse 200
        (Session token Toy.carolId "Carol" "carol@example.org")
    /\ auth Toy.verify (Some ("Bearer " ++ token)) 3000 = inr Toy.carolId.
Proof.
  destruct (register_login_auth Toy.hash Toy.compare Toy.sign Toy.verify
              "citizen" (fun _ => true) Sample.db Toy.carolId "salt"
              Toy.carol 2000 3000
              (fun p => String.eqb_refl p) eq_refl eq_refl eq_refl eq_refl)
    as (name & email & token & En & Ee & L & A & _).
  inversion En; subst name. inversion Ee; subst email.
  exists token. split; assumption.
Defined.

Lemma sample_coordinatesOk : coordinatesOk (185 # 10) (735 # 10).
Proof. repeat split; discriminate. Qed.

Lemma reverseGeocode_upstream_witness :
  reverseGeocode Toy.down
    (ReverseGeocode.mkBody (Some (185 # 10)) (Some (735 # 10)))
  = ReverseGeocode.mkResponse 500
      (ReverseGeocode.Failure "Failed to get address for coordinates"
         "Nominatim API error: 503").
Proof.
  exact (proj1 (reverseGeocode_upstream Toy.down (185 # 10) (735 # 10)
                  sample_coordinatesOk) 503%nat eq_refl).
Defined.


Lemma manual_address_is_rejected_witness :
  exists body,
    reportData (handleManualAddressChange Toy.manualForm " MG Road, Pune ")
    = inr body
    /\ postReports Sample.db 1000 Sample.freshId (User._id Sample.alice) body
       = (missingLocation, Sample.db).
Proof.
  eexists. split; [reflexivity|].
  apply (manual_address_is_rejected Sample.db 1000 Sample.freshId
           (User._id Sample.alice) Toy.manualForm " MG Road, Pune ").
  - reflexivity.
  - reflexivity.
  - discriminate.
  - reflexivity.
Defined.

Lemma checked_form_is_accepted_witness :
  exists body,
    reportData Toy.locatedForm = inr body
    /\ code (fst (postReports Sample.db 1000 Sample.freshId
                    (User._id Sample.alice) body)) = 201%Z.
Proof.
  eexists. split; [reflexivity|].
  apply (checked_form_is_accepted Sample.db 1000 Sample.freshId
           (User._id Sample.alice) Toy.locatedForm
           (Form.mkLocation (185 # 10) (735 # 10) "MG Road, Pune")).
  - reflexivity.
  - reflexivity.
  - exact sample_coordinatesOk.
  - simpl. auto.
  - simpl. auto.
  - repeat constructor. discriminate.
  - discriminate.
  - reflexivity.
Defined.

Lemma geocoded_form_is_accepted_witness :
  exists body,
    reportData
      (setGeocodedLocation Toy.manualForm (185 # 10) (735 # 10)
         "MG Road, Pune, Maharashtra, India") = inr body
    /\ code (fst (postReports Sample.db 1000 Sample.freshId
                    (User._id Sample.alice) body)) = 201%Z.
Proof.
  eexists. split; [reflexivity|].
  apply (geocoded_form_is_accepted Sample.db 1000 Sample.freshId
           (User._id Sample.alice) Toy.nominatim Toy.manualForm
           (185 # 10) (735 # 10) "MG Road, Pune, Maharashtra, India"
           "MG Road, Pune, Maharashtra, India" "openstreetmap"
           (addressComponents noAddress)).
  - reflexivity.
  - reflexivity.
  - simpl. auto.
  - simpl. auto.
  - repeat constructor. discriminate.
  - discriminate.
  - reflexivity.
Defined.

Lemma loadMore_fetches_what_is_left_witness :
  loadMore
    (paginationOf
       (getReports Sample.isHex24 Sample.db25 (User._id Sample.alice)
          (fetchReportsQuery Toy.noFilters 1))) false
  = Some 2%Z
  /\ reportsOf
       (getReports Sample.isHex24 Sample.db25 (User._id Sample.alice)
          (fetchReportsQuery Toy.noFilters 2)) <> [].
Proof.
  split; [reflexivity|].
  apply (proj1 (loadMore_fetches_what_is_left Sample.isHex24 Sample.db25
                  (User._id Sample.alice) Sample.alice eq_refl
                  Toy.noFilters 1%Z eq_refl) 2%Z).
  reflexivity.
Defined.

Lemma auth_state_survives_restart_witness :
  loadAuthData string (fun s => s)
    (snd (contextLogin string (fun s => s) (fun _ => None) "token-1" "carol"))
  = mkAuthState string (Some "token-1") (Some "carol").
Proof.
  apply (proj1 (auth_state_survives_restart string (fun s => s) (fun s => s)
                  (fun _ => None) "token-1" "carol" eq_refl
                  ltac:(discriminate))).
  discriminate.
Defined.

Lemma recent_reports_are_never_served_witness :
  getReportRoute Sample.isHex24 Sample.isHex24 Sample.db 5000
    (User._id Sample.alice) recentReportsPath Cases.noParameters
  = Some (mkResponse 400 (Message "Invalid report ID format")).
Proof.
  exact (proj2 (recent_reports_are_never_served Sample.isHex24
                  Sample.isHex24 Sample.db 5000 (User._id Sample.alice)
                  Cases.noParameters eq_refl)).
Defined.

Lemma extractField_trimmed_line_witness :
  JS.trim
    (extractField
       (formatted "Large pothole with standing water.  "
          "Roads & Infrastructure" "High" "Fill the pothole.")
       "description")
  = extractField
      (formatted "Large pothole with standing water.  "
         "Roads & Infrastructure" "High" "Fill the pothole.")
      "description".
Proof.
  exact (proj1 (extractField_trimmed_line
                  (formatted "Large pothole with standing water.  "
                     "Roads & Infrastructure" "High" "Fill the pothole.")
                  "description" eq_refl)).
Defined.

Lemma describeText_formatted_witness :
  describeText
    (formatted "Large pothole with standing water." "Roads & Infrastructure"
       "High" "Fill the pothole.")
  = Describe.mk "Large pothole with standing water." "Roads & Infrastructure"
      "High".
Proof.
  apply (proj2 (proj2 (proj2 (proj2
           (describeText_formatted "Large pothole with standing water."
              "Roads & Infrastructure" "High" "Fill the pothole."
              eq_refl eq_refl eq_refl))))).
  - simpl. auto 10.
  - simpl. auto.
Defined.

End MoreInstances.
